(** * The Forensiq API client (package forensiq)

    A shallow embedding of [forensiq.go]: the request construction of
    [Check] and [Ready], the single HTTP exchange each of them performs and
    the mapping of the reply to the returned pair (value, error).

    Go strings are byte sequences: they are modelled by [string], a byte by
    [ascii].  The functions of the Go standard library the client calls
    (packages strings, net, net/url, net/http) are transcribed in modules
    named after their packages; what lies outside the process (the remote
    service, the JSON decoder applied to its reply, the clock) is a
    parameter of the model, see [World]. *)

From Stdlib Require Import ZArith NArith Lia Ascii String List.
From stdpp Require Import base option list gmap strings sorting pretty.

Open Scope string_scope.

(** ** Package strings *)

Module gostrings.

(** [len(s) > 0], that is, [s] is not the empty string. *)
Definition nonempty (s : string) : bool :=
  match s with EmptyString => false | String _ _ => true end.

(** [s[i:]] *)
Fixpoint from (i : nat) (s : string) : string :=
  match i, s with
  | O, _ => s
  | S i', String _ s' => from i' s'
  | S _, EmptyString => EmptyString
  end.

(** [s[:i]] *)
Fixpoint upto (i : nat) (s : string) : string :=
  match i, s with
  | O, _ => EmptyString
  | S i', String c s' => String c (upto i' s')
  | S _, EmptyString => EmptyString
  end.

Fixpoint HasPrefix (s prefix : string) {struct prefix} : bool :=
  match prefix, s with
  | EmptyString, _ => true
  | String p prefix', String c s' => Ascii.eqb c p && HasPrefix s' prefix'
  | String _ _, EmptyString => false
  end.

(** [strings.Index]: the position of the first occurrence, [None] for -1. *)
Fixpoint Index (s sep : string) : option nat :=
  if HasPrefix s sep then Some O
  else match s with
       | EmptyString => None
       | String _ s' => S <$> Index s' sep
       end.

(** [strings.LastIndex] *)
Fixpoint LastIndex (s sep : string) : option nat :=
  match s with
  | EmptyString => if HasPrefix s sep then Some O else None
  | String _ s' =>
      match LastIndex s' sep with
      | Some i => Some (S i)
      | None => if HasPrefix s sep then Some O else None
      end
  end.

Definition Contains (s sep : string) : bool :=
  match Index s sep with Some _ => true | None => false end.

(** [strings.Cut]: before, after, found. *)
Definition Cut (s sep : string) : string * string * bool :=
  match Index s sep with
  | Some i => (upto i s, from (i + String.length sep) s, true)
  | None => (s, EmptyString, false)
  end.

(** [strings.Count] for a separator of one byte. *)
Fixpoint CountByte (s : string) (c : ascii) : nat :=
  match s with
  | EmptyString => O
  | String d s' => (if Ascii.eqb d c then 1 else 0) + CountByte s' c
  end.

Definition HasSuffix (s suffix : string) : bool :=
  Nat.leb (String.length suffix) (String.length s)
  && String.eqb (from (String.length s - String.length suffix) s) suffix.

Definition TrimSuffix (s suffix : string) : string :=
  if HasSuffix s suffix
  then upto (String.length s - String.length suffix) s
  else s.

Definition between (lo hi c : ascii) : bool :=
  (N_of_ascii lo <=? N_of_ascii c)%N && (N_of_ascii c <=? N_of_ascii hi)%N.

Definition isLetter (c : ascii) : bool := between "a" "z" c || between "A" "Z" c.
Definition isDigit (c : ascii) : bool := between "0" "9" c.

Definition lowerByte (c : ascii) : ascii :=
  if between "A" "Z" c then ascii_of_N (N_of_ascii c + 32) else c.

Definition upperByte (c : ascii) : ascii :=
  if between "a" "z" c then ascii_of_N (N_of_ascii c - 32) else c.

Fixpoint mapBytes (f : ascii -> ascii) (s : string) : string :=
  match s with
  | EmptyString => EmptyString
  | String c s' => String (f c) (mapBytes f s')
  end.

(** [strings.ToLower] on the ASCII letters (the only use is on a scheme,
    which holds ASCII bytes only). *)
Definition ToLower (s : string) : string := mapBytes lowerByte s.

Fixpoint allBytes (p : ascii -> bool) (s : string) : bool :=
  match s with
  | EmptyString => true
  | String c s' => p c && allBytes p s'
  end.

(** Membership of a byte in a string used as a set of bytes. *)
Fixpoint inBytes (c : ascii) (set : string) : bool :=
  match set with
  | EmptyString => false
  | String d set' => Ascii.eqb c d || inBytes c set'
  end.

(** [strings.Join] *)
Fixpoint Join (elems : list string) (sep : string) : string :=
  match elems with
  | [] => EmptyString
  | [x] => x
  | x :: rest => x +:+ sep +:+ Join rest sep
  end.

End gostrings.

(** ** Package net: [net.IP] and its textual form *)

Module net.

(** [type IP []byte] *)
Definition IP := list Byte.byte.

Definition IPv4len : nat := 4.
Definition IPv6len : nat := 16.

(** [p[i]] as a number; indexing is only done below the length. *)
Definition at_ (p : IP) (i : nat) : N :=
  match p !! i with Some b => Byte.to_N b | None => 0%N end.

Definition isZeros (p : IP) : bool :=
  forallb (fun b => (Byte.to_N b =? 0)%N) p.

(** [func (ip IP) To4() IP]; the nil result is the empty slice. *)
Definition To4 (ip : IP) : IP :=
  if Nat.eqb (length ip) IPv4len then ip
  else if Nat.eqb (length ip) IPv6len && isZeros (take 10 ip)
          && (at_ ip 10 =? 255)%N && (at_ ip 11 =? 255)%N
  then take 4 (drop 12 ip)
  else [].

Definition hexDigit : string := "0123456789abcdef".

Definition digitOf (table : string) (v : N) : ascii :=
  match String.get (N.to_nat v) table with Some c => c | None => "0"%char end.

(** [appendHex]: the hexadecimal form of a 32-bit number without leading
    zeros, the digits [j = 7 .. 0] in turn. *)
Fixpoint hexFrom (j : nat) (i : N) : string :=
  let digit (k : nat) :=
    let v := N.shiftr i (N.of_nat (k * 4)) in
    if (0 <? v)%N then String (digitOf hexDigit (N.land v 15)) EmptyString
    else EmptyString in
  match j with
  | O => digit O
  | S j' => digit j +:+ hexFrom j' i
  end.

Definition appendHex (dst : string) (i : N) : string :=
  if (i =? 0)%N then dst +:+ "0" else dst +:+ hexFrom 7 i.

(** [hexString]: two digits for each byte. *)
Fixpoint hexString (b : IP) : string :=
  match b with
  | [] => EmptyString
  | x :: b' =>
      let v := Byte.to_N x in
      String (digitOf hexDigit (N.shiftr v 4))
        (String (digitOf hexDigit (N.land v 15)) (hexString b'))
  end.

(** [ubtoa]: the decimal form of a byte. *)
Definition ubtoa (v : N) : string := pretty v.

(** The inner loop [for j < IPv6len && p[j] == 0 && p[j+1] == 0 { j += 2 }]. *)
Fixpoint zeroRun (fuel : nat) (p : IP) (j : nat) : nat :=
  match fuel with
  | O => j
  | S fuel' =>
      if Nat.ltb j IPv6len && (at_ p j =? 0)%N && (at_ p (j + 1) =? 0)%N
      then zeroRun fuel' p (j + 2)
      else j
  end.

(** The search for the longest run of zero groups: [e0], [e1] are -1 while
    no run was found. *)
Fixpoint longestRun (fuel : nat) (p : IP) (i : nat) (e0 e1 : Z) : Z * Z :=
  match fuel with
  | O => (e0, e1)
  | S fuel' =>
      if Nat.ltb i IPv6len then
        let j := zeroRun 8 p i in
        if Nat.ltb i j && (e1 - e0 <? Z.of_nat j - Z.of_nat i)%Z
        then longestRun fuel' p (j + 2) (Z.of_nat i) (Z.of_nat j)
        else longestRun fuel' p (i + 2) e0 e1
      else (e0, e1)
  end.

Definition group (p : IP) (i : nat) : N :=
  N.lor (N.shiftl (at_ p i) 8) (at_ p (i + 1)).

(** The printing loop, with [::] in place of the run [e0 .. e1]. *)
Fixpoint printGroups (fuel : nat) (p : IP) (e0 e1 : Z) (i : nat) (b : string)
  : string :=
  match fuel with
  | O => b
  | S fuel' =>
      if Nat.ltb i IPv6len then
        if (Z.of_nat i =? e0)%Z then
          let b := b +:+ "::" in
          let i := Z.to_nat e1 in
          if Nat.leb IPv6len i then b
          else printGroups fuel' p e0 e1 (i + 2) (appendHex b (group p i))
        else
          let b := if Nat.ltb 0 i then b +:+ ":" else b in
          printGroups fuel' p e0 e1 (i + 2) (appendHex b (group p i))
      else b
  end.

(** [func (ip IP) String() string] *)
Definition String (ip : IP) : string :=
  if Nat.eqb (length ip) 0 then "<nil>"
  else
    let p4 := To4 ip in
    if Nat.eqb (length p4) IPv4len then
      ubtoa (at_ p4 0) +:+ "." +:+ ubtoa (at_ p4 1) +:+ "." +:+
      ubtoa (at_ p4 2) +:+ "." +:+ ubtoa (at_ p4 3)
    else if negb (Nat.eqb (length ip) IPv6len) then "?" +:+ hexString ip
    else
      let '(e0, e1) := longestRun 8 ip 0 (-1) (-1) in
      let '(e0, e1) := if (e1 - e0 <=? 2)%Z then ((-1)%Z, (-1)%Z) else (e0, e1) in
      printGroups 8 ip e0 e1 0 EmptyString.

(** [net.IPv4(a, b, c, d)]: the 16-byte form of an IPv4 address. *)
Definition IPv4 (a b c d : Byte.byte) : IP :=
  [Byte.x00; Byte.x00; Byte.x00; Byte.x00; Byte.x00; Byte.x00; Byte.x00;
   Byte.x00; Byte.x00; Byte.x00; Byte.xff; Byte.xff; a; b; c; d].

(** [net.IPv4zero] and [net.IPv6zero], the all-zeros addresses. *)
Definition IPv4zero : IP := IPv4 Byte.x00 Byte.x00 Byte.x00 Byte.x00.
Definition IPv6zero : IP := repeat Byte.x00 16.

(** [func (ip IP) To16() IP]: the 16-byte form of an address; the nil
    result is the empty slice. *)
Definition To16 (ip : IP) : IP :=
  match ip with
  | [a; b; c; d] => IPv4 a b c d
  | _ => if Nat.eqb (length ip) IPv6len then ip else []
  end.

End net.

(** A Go result [(value, error)] of which exactly one part is meaningful. *)
Inductive result (A E : Type) : Type :=
  | Ok (a : A)
  | Err (e : E).
Arguments Ok {A E} a.
Arguments Err {A E} e.

(** ** Package net/url *)

Module url.
Import gostrings.

Inductive encoding : Type :=
  | encodePath
  | encodePathSegment
  | encodeHost
  | encodeZone
  | encodeUserPassword
  | encodeQueryComponent
  | encodeFragment.

#[global] Instance encoding_eq_dec : EqDecision encoding.
Proof. solve_decision. Defined.

(** The errors of the package: [EscapeError], [InvalidHostError], the
    messages made with [errors.New] and the wrapper [*url.Error]. *)
Inductive error : Type :=
  | EscapeError (s : string)
  | InvalidHostError (s : string)
  | errorString (msg : string)
  | Error (Op URL : string) (Err : error).

Definition upperhex : string := "0123456789ABCDEF".

Definition ishex (c : ascii) : bool :=
  between "0" "9" c || between "a" "f" c || between "A" "F" c.

Definition unhex (c : ascii) : N :=
  if between "0" "9" c then N_of_ascii c - N_of_ascii "0"
  else if between "a" "f" c then N_of_ascii c - N_of_ascii "a" + 10
  else if between "A" "F" c then N_of_ascii c - N_of_ascii "A" + 10
  else 0.

(** [shouldEscape]: whether a byte is written as %XX in the given part of
    a URL. *)
Definition shouldEscape (c : ascii) (mode : encoding) : bool :=
  if isLetter c || isDigit c then false
  else if (bool_decide (mode = encodeHost) || bool_decide (mode = encodeZone))
          && (inBytes c "!$&'()*+,;=:[]<>" || (N_of_ascii c =? 34)%N)
  then false
  else if inBytes c "-_.~" then false
  else if inBytes c "$&+,/:;=?@" then
    match mode with
    | encodePath => Ascii.eqb c "?"
    | encodePathSegment => inBytes c "/;,?"
    | encodeUserPassword => inBytes c "@/?:"
    | encodeQueryComponent => true
    | encodeFragment => false
    | encodeHost | encodeZone => true
    end
  else if bool_decide (mode = encodeFragment) && inBytes c "!()*" then false
  else true.

Definition hexByte (c : ascii) : string :=
  let v := N_of_ascii c in
  String "%" (String (net.digitOf upperhex (N.shiftr v 4))
                (String (net.digitOf upperhex (N.land v 15)) EmptyString)).

(** What [escape] writes for one byte. *)
Definition escapeByte (c : ascii) (mode : encoding) : string :=
  if shouldEscape c mode then
    if Ascii.eqb c " " && bool_decide (mode = encodeQueryComponent)
    then "+" else hexByte c
  else String c EmptyString.

(** [escape] *)
Fixpoint escape (s : string) (mode : encoding) : string :=
  match s with
  | EmptyString => EmptyString
  | String c s' => escapeByte c mode +:+ escape s' mode
  end.

(** The first loop of [unescape]: the %-sequences are well formed and
    allowed in this part of the URL. *)
Fixpoint unescapeCheck (s : string) (mode : encoding) : option error :=
  match s with
  | EmptyString => None
  | String c s1 =>
      if Ascii.eqb c "%" then
        match s1 with
        | String a (String b rest) =>
            let seq := String c (String a (String b EmptyString)) in
            if negb (ishex a && ishex b) then Some (EscapeError seq)
            else if bool_decide (mode = encodeHost) && (unhex a <? 8)%N
                    && negb (String.eqb seq "%25")
            then Some (EscapeError seq)
            else if bool_decide (mode = encodeZone)
                    && negb (String.eqb seq "%25")
                    && negb (N.eqb (N.lor (N.shiftl (unhex a) 4) (unhex b)) 32)
                    && shouldEscape
                         (ascii_of_N (N.lor (N.shiftl (unhex a) 4) (unhex b)))
                         encodeHost
            then Some (EscapeError seq)
            else unescapeCheck rest mode
        | _ => Some (EscapeError (upto 3 s))
        end
      else if Ascii.eqb c "+" then unescapeCheck s1 mode
      else if (bool_decide (mode = encodeHost) || bool_decide (mode = encodeZone))
              && (N_of_ascii c <? 128)%N && shouldEscape c encodeHost
      then Some (InvalidHostError (String c EmptyString))
      else unescapeCheck s1 mode
  end.

(** The second loop of [unescape], run on a checked string. *)
Fixpoint unescapeBuild (s : string) (mode : encoding) : string :=
  match s with
  | EmptyString => EmptyString
  | String c s1 =>
      if Ascii.eqb c "%" then
        match s1 with
        | String a (String b rest) =>
            String (ascii_of_N (N.lor (N.shiftl (unhex a) 4) (unhex b)))
                   (unescapeBuild rest mode)
        | _ => String c (unescapeBuild s1 mode)
        end
      else if Ascii.eqb c "+" then
        String (if bool_decide (mode = encodeQueryComponent) then " " else "+")%char
               (unescapeBuild s1 mode)
      else String c (unescapeBuild s1 mode)
  end.

Definition unescape (s : string) (mode : encoding) : result string error :=
  match unescapeCheck s mode with
  | Some e => Err e
  | None => Ok (unescapeBuild s mode)
  end.

Definition QueryEscape (s : string) : string := escape s encodeQueryComponent.
Definition QueryUnescape (s : string) : result string error :=
  unescape s encodeQueryComponent.


(** [type Values map[string][]string] *)
Abbreviation Values := (gmap string (list string)).

(** [func (v Values) Get(key string) string] *)
Definition Get (v : Values) (key : string) : string :=
  match v !! key with
  | Some (x :: _) => x
  | _ => EmptyString
  end.

(** [func (v Values) Set(key, value string)] *)
Definition Set_ (v : Values) (key value : string) : Values :=
  <[key := [value]]> v.

(** [func (v Values) Encode() string]: the keys in sorted order (that of
    [sort.Strings], bytewise lexicographic), each value written as
    key=value, the pairs separated by [&]. *)
Definition Encode (v : Values) : string :=
  let keys := merge_sort String.le (map fst (map_to_list v)) in
  fold_left
    (fun buf k =>
       let vs := default [] (v !! k) in
       let keyEscaped := QueryEscape k in
       fold_left
         (fun buf x =>
            (if nonempty buf then buf +:+ "&" else buf)
              +:+ keyEscaped +:+ "=" +:+ QueryEscape x)
         vs buf)
    keys EmptyString.

(** The body of the loop of [parseQuery] for one segment [key] of the
    query; [err] is the first error met so far. *)
Definition parsePair (acc : Values * option error) (key : string)
  : Values * option error :=
  let '(m, err) := acc in
  if Contains key ";"
  then (m, Some (errorString "invalid semicolon separator in query"))
  else if negb (nonempty key) then (m, err)
  else
    let '(key, value, _) := Cut key "=" in
    match QueryUnescape key with
    | Err err1 => (m, match err with None => Some err1 | Some _ => err end)
    | Ok key =>
        match QueryUnescape value with
        | Err err1 => (m, match err with None => Some err1 | Some _ => err end)
        | Ok value => (<[key := (default [] (m !! key) ++ [value])%list]> m, err)
        end
    end.

(** [parseQuery]: while [query] is not empty, cut it at the first [&]
    and handle the part before it.
    Every turn shortens [query], so its length bounds the number of turns. *)
Fixpoint parseQuery (fuel : nat) (acc : Values * option error) (query : string)
  : Values * option error :=
  match fuel with
  | O => acc
  | S fuel' =>
      if nonempty query then
        let '(key, query', _) := Cut query "&" in
        parseQuery fuel' (parsePair acc key) query'
      else acc
  end.

(** [func ParseQuery(query string) (Values, error)]: the map is returned
    together with the first error. *)
Definition ParseQuery (query : string) : Values * option error :=
  parseQuery (String.length query) (∅, None) query.

(** [type Userinfo struct] *)
Record Userinfo : Type := {
  username : string;
  password : string;
  passwordSet : bool
}.

(** [type URL struct]; [User] is a pointer, nil when there is no userinfo. *)
Record URL : Type := {
  Scheme : string;
  Opaque : string;
  User : option Userinfo;
  Host : string;
  Path : string;
  RawPath : string;
  OmitHost : bool;
  ForceQuery : bool;
  RawQuery : string;
  Fragment : string;
  RawFragment : string
}.

(** [new(URL)] *)
Definition zeroURL : URL :=
  {| Scheme := EmptyString; Opaque := EmptyString; User := None; Host := EmptyString; Path := EmptyString;
     RawPath := EmptyString; OmitHost := false; ForceQuery := false; RawQuery := EmptyString;
     Fragment := EmptyString; RawFragment := EmptyString |}.

(** Assignments to the fields of a URL. *)
Definition withOpaque (u : URL) (x : string) : URL :=
  {| Scheme := Scheme u; Opaque := x; User := User u; Host := Host u;
     Path := Path u; RawPath := RawPath u; OmitHost := OmitHost u;
     ForceQuery := ForceQuery u; RawQuery := RawQuery u;
     Fragment := Fragment u; RawFragment := RawFragment u |}.

Definition withAuthority (u : URL) (user : option Userinfo) (host : string) : URL :=
  {| Scheme := Scheme u; Opaque := Opaque u; User := user; Host := host;
     Path := Path u; RawPath := RawPath u; OmitHost := OmitHost u;
     ForceQuery := ForceQuery u; RawQuery := RawQuery u;
     Fragment := Fragment u; RawFragment := RawFragment u |}.

Definition withHost (u : URL) (host : string) : URL :=
  withAuthority u (User u) host.

Definition withPath (u : URL) (x : string) : URL :=
  {| Scheme := Scheme u; Opaque := Opaque u; User := User u; Host := Host u;
     Path := x; RawPath := RawPath u; OmitHost := OmitHost u;
     ForceQuery := ForceQuery u; RawQuery := RawQuery u;
     Fragment := Fragment u; RawFragment := RawFragment u |}.

Definition withRawPath (u : URL) (x : string) : URL :=
  {| Scheme := Scheme u; Opaque := Opaque u; User := User u; Host := Host u;
     Path := Path u; RawPath := x; OmitHost := OmitHost u;
     ForceQuery := ForceQuery u; RawQuery := RawQuery u;
     Fragment := Fragment u; RawFragment := RawFragment u |}.

Definition withOmitHost (u : URL) (x : bool) : URL :=
  {| Scheme := Scheme u; Opaque := Opaque u; User := User u; Host := Host u;
     Path := Path u; RawPath := RawPath u; OmitHost := x;
     ForceQuery := ForceQuery u; RawQuery := RawQuery u;
     Fragment := Fragment u; RawFragment := RawFragment u |}.

Definition withRawQuery (u : URL) (x : string) : URL :=
  {| Scheme := Scheme u; Opaque := Opaque u; User := User u; Host := Host u;
     Path := Path u; RawPath := RawPath u; OmitHost := OmitHost u;
     ForceQuery := ForceQuery u; RawQuery := x;
     Fragment := Fragment u; RawFragment := RawFragment u |}.

Definition withFragment (u : URL) (frag raw : string) : URL :=
  {| Scheme := Scheme u; Opaque := Opaque u; User := User u; Host := Host u;
     Path := Path u; RawPath := RawPath u; OmitHost := OmitHost u;
     ForceQuery := ForceQuery u; RawQuery := RawQuery u;
     Fragment := frag; RawFragment := raw |}.

(** [stringContainsCTLByte] *)
Definition stringContainsCTLByte (s : string) : bool :=
  negb (allBytes (fun b => negb ((N_of_ascii b <? 32)%N || (N_of_ascii b =? 127)%N)) s).

(** [getScheme]: the loop at index [i], [s] being [rawURL[i:]]. *)
Fixpoint getSchemeFrom (rawURL : string) (i : nat) (s : string)
  : result (string * string) error :=
  match s with
  | EmptyString => Ok (EmptyString, rawURL)
  | String c s' =>
      if isLetter c then getSchemeFrom rawURL (S i) s'
      else if isDigit c || inBytes c "+-." then
        if Nat.eqb i 0 then Ok (EmptyString, rawURL)
        else getSchemeFrom rawURL (S i) s'
      else if Ascii.eqb c ":" then
        if Nat.eqb i 0 then Err (errorString "missing protocol scheme")
        else Ok (upto i rawURL, s')
      else Ok (EmptyString, rawURL)
  end.

Definition getScheme (rawURL : string) : result (string * string) error :=
  getSchemeFrom rawURL 0 rawURL.

(** [validOptionalPort] *)
Definition validOptionalPort (port : string) : bool :=
  match port with
  | EmptyString => true
  | String c digits => Ascii.eqb c ":" && allBytes isDigit digits
  end.

(** [validUserinfo] *)
Definition validUserinfo (s : string) : bool :=
  allBytes (fun r => isLetter r || isDigit r || inBytes r "-._:~!$&'()*+,;=%@") s.

(** [parseHost]; the text of the port error is built with [%q] in the
    library, the quoting is left out of the message here. *)
Definition parseHost (host : string) : result string error :=
  let plain :=
    match unescape host encodeHost with
    | Err e => Err e
    | Ok h => Ok h
    end in
  if HasPrefix host "[" then
    match LastIndex host "]" with
    | None => Err (errorString "missing ']' in host")
    | Some i =>
        let colonPort := from (i + 1) host in
        if negb (validOptionalPort colonPort)
        then Err (errorString ("invalid port " +:+ colonPort +:+ " after host"))
        else
          match Index (upto i host) "%25" with
          | Some zone =>
              match unescape (upto zone host) encodeHost with
              | Err e => Err e
              | Ok host1 =>
                  match unescape (from zone (upto i host)) encodeZone with
                  | Err e => Err e
                  | Ok host2 =>
                      match unescape (from i host) encodeHost with
                      | Err e => Err e
                      | Ok host3 => Ok (host1 +:+ host2 +:+ host3)
                      end
                  end
              end
          | None => plain
          end
    end
  else
    match LastIndex host ":" with
    | Some i =>
        let colonPort := from i host in
        if negb (validOptionalPort colonPort)
        then Err (errorString ("invalid port " +:+ colonPort +:+ " after host"))
        else plain
    | None => plain
    end.

(** [parseAuthority] *)
Definition parseAuthority (authority : string)
  : result (option Userinfo * string) error :=
  let i := LastIndex authority "@" in
  match parseHost (match i with
                   | None => authority
                   | Some i => from (i + 1) authority
                   end) with
  | Err e => Err e
  | Ok host =>
      match i with
      | None => Ok (None, host)
      | Some i =>
          let userinfo := upto i authority in
          if negb (validUserinfo userinfo)
          then Err (errorString "net/url: invalid userinfo")
          else if negb (Contains userinfo ":") then
            match unescape userinfo encodeUserPassword with
            | Err e => Err e
            | Ok name =>
                Ok (Some {| username := name; password := EmptyString;
                            passwordSet := false |}, host)
            end
          else
            let '(name, pass, _) := Cut userinfo ":" in
            match unescape name encodeUserPassword with
            | Err e => Err e
            | Ok name =>
                match unescape pass encodeUserPassword with
                | Err e => Err e
                | Ok pass =>
                    Ok (Some {| username := name; password := pass;
                                passwordSet := true |}, host)
                end
            end
      end
  end.

(** [func (u *URL) setPath(p string) error] *)
Definition setPath (u : URL) (p : string) : result URL error :=
  match unescape p encodePath with
  | Err e => Err e
  | Ok path =>
      let u := withPath u path in
      if String.eqb p (escape path encodePath)
      then Ok (withRawPath u EmptyString)
      else Ok (withRawPath u p)
  end.

(** [func (u *URL) setFragment(f string) error] *)
Definition setFragment (u : URL) (f : string) : result URL error :=
  match unescape f encodeFragment with
  | Err e => Err e
  | Ok frag =>
      if String.eqb f (escape frag encodeFragment)
      then Ok (withFragment u frag EmptyString)
      else Ok (withFragment u frag f)
  end.

(** [func parse(rawURL string, viaRequest bool)], returning a URL or an error. *)
Definition parse (rawURL : string) (viaRequest : bool) : result URL error :=
  if stringContainsCTLByte rawURL
  then Err (errorString "net/url: invalid control character in URL")
  else if negb (nonempty rawURL) && viaRequest
  then Err (errorString "empty url")
  else if String.eqb rawURL "*" then Ok (withPath zeroURL "*")
  else
    match getScheme rawURL with
    | Err e => Err e
    | Ok (scheme, rest) =>
        let scheme := ToLower scheme in
        let '(rest, rawQuery, forceQuery) :=
          if HasSuffix rest "?" && Nat.eqb (CountByte rest "?") 1
          then (upto (String.length rest - 1) rest, EmptyString, true)
          else let '(r, q, _) := Cut rest "?" in (r, q, false) in
        let url :=
          {| Scheme := scheme; Opaque := EmptyString; User := None; Host := EmptyString;
             Path := EmptyString; RawPath := EmptyString; OmitHost := false;
             ForceQuery := forceQuery; RawQuery := rawQuery;
             Fragment := EmptyString; RawFragment := EmptyString |} in
        if negb (HasPrefix rest "/") && nonempty scheme
        then Ok (withOpaque url rest)
        else if negb (HasPrefix rest "/") && viaRequest
        then Err (errorString "invalid URI for request")
        else if negb (HasPrefix rest "/")
                && Contains (fst (fst (Cut rest "/"))) ":"
        then Err (errorString "first path segment in URL cannot contain colon")
        else if (nonempty scheme || (negb viaRequest && negb (HasPrefix rest "///")))
                && HasPrefix rest "//"
        then
          let authority := from 2 rest in
          let '(authority, rest) :=
            match Index authority "/" with
            | Some i => (upto i authority, from i authority)
            | None => (authority, EmptyString)
            end in
          match parseAuthority authority with
          | Err e => Err e
          | Ok (user, host) => setPath (withAuthority url user host) rest
          end
        else if nonempty scheme && HasPrefix rest "/"
        then setPath (withOmitHost url true) rest
        else setPath url rest
    end.

(** [func Parse(rawURL string)], returning a URL or an error. *)
Definition Parse (rawURL : string) : result URL error :=
  let '(u, frag, _) := Cut rawURL "#" in
  match parse u false with
  | Err e => Err (Error "parse" u e)
  | Ok url =>
      if negb (nonempty frag) then Ok url
      else
        match setFragment url frag with
        | Err e => Err (Error "parse" rawURL e)
        | Ok url => Ok url
        end
  end.

(** [validEncoded] *)
Definition validEncoded (s : string) (mode : encoding) : bool :=
  allBytes (fun c => inBytes c "!$&'()*+,;=:@[]%" || negb (shouldEscape c mode)) s.

(** [func (u *URL) EscapedPath() string] *)
Definition EscapedPath (u : URL) : string :=
  let fallback :=
    if String.eqb (Path u) "*" then "*" else escape (Path u) encodePath in
  if nonempty (RawPath u) && validEncoded (RawPath u) encodePath then
    match unescape (RawPath u) encodePath with
    | Ok p => if String.eqb p (Path u) then RawPath u else fallback
    | Err _ => fallback
    end
  else fallback.

(** [func (u *URL) EscapedFragment() string] *)
Definition EscapedFragment (u : URL) : string :=
  let fallback := escape (Fragment u) encodeFragment in
  if nonempty (RawFragment u) && validEncoded (RawFragment u) encodeFragment then
    match unescape (RawFragment u) encodeFragment with
    | Ok f => if String.eqb f (Fragment u) then RawFragment u else fallback
    | Err _ => fallback
    end
  else fallback.

(** [func (u *Userinfo) String() string] *)
Definition UserinfoString (ui : Userinfo) : string :=
  escape (username ui) encodeUserPassword
  +:+ (if passwordSet ui
       then ":" +:+ escape (password ui) encodeUserPassword
       else EmptyString).

(** [func (u *URL) String() string]; [buf] is the buffer written so far. *)
Definition String_ (u : URL) : string :=
  let buf := if nonempty (Scheme u) then Scheme u +:+ ":" else EmptyString in
  let buf :=
    if nonempty (Opaque u) then buf +:+ Opaque u
    else
      let buf :=
        if nonempty (Scheme u) || nonempty (Host u) || bool_decide (User u <> None)
        then
          if OmitHost u && negb (nonempty (Host u)) && bool_decide (User u = None)
          then buf
          else
            let buf :=
              if nonempty (Host u) || nonempty (Path u)
                 || bool_decide (User u <> None)
              then buf +:+ "//" else buf in
            let buf :=
              match User u with
              | Some ui => buf +:+ UserinfoString ui +:+ "@"
              | None => buf
              end in
            if nonempty (Host u) then buf +:+ escape (Host u) encodeHost
            else buf
        else buf in
      let path := EscapedPath u in
      let buf :=
        if nonempty path && negb (HasPrefix path "/") && nonempty (Host u)
        then buf +:+ "/" else buf in
      let buf :=
        if negb (nonempty buf) && Contains (fst (fst (Cut path "/"))) ":"
        then buf +:+ "./" else buf in
      buf +:+ path in
  let buf :=
    if ForceQuery u || nonempty (RawQuery u)
    then buf +:+ "?" +:+ RawQuery u else buf in
  if nonempty (Fragment u)
  then buf +:+ "#" +:+ EscapedFragment u else buf.

(** [func (u *URL) Query() Values]: the error of [ParseQuery] is dropped. *)
Definition Query (u : URL) : Values := fst (ParseQuery (RawQuery u)).

End url.

(** ** Packages context and io *)

Module context.

(** The two errors of the package. *)
Inductive error : Type :=
  | Canceled
  | DeadlineExceeded.

#[global] Instance error_eq_dec : EqDecision error.
Proof. solve_decision. Defined.

(** A context as the client observes it: what [ctx.Err()] answers once the
    exchange is over, nil ([None]) while the context is live. *)
Record Context : Type := { Err_ : option error }.

(** [context.Background()] *)
Definition Background : Context := {| Err_ := None |}.

End context.

Module io.

(** An error met while reading. *)
Inductive error : Type :=
  | errorString (msg : string).

End io.

(** ** Package net/http *)

Module http.
Import gostrings.

(** [type Header map[string][]string] *)
Abbreviation Header := (gmap string (list string)).

(** The fields of [http.Request] a GET without body carries. *)
Record Request : Type := {
  Method : string;
  URL : url.URL;
  Header_ : Header;
  Host : string;
  ctx : context.Context
}.

(** A response body is a reader: the bytes it delivers, then either the
    end of the stream or a read error. *)
Record ReadCloser : Type := {
  data : string;
  readErr : option io.error
}.

(** The fields of [http.Response] the client looks at. *)
Record Response : Type := {
  StatusCode : Z;
  Body : ReadCloser
}.

(** The errors of the package: those [NewRequest] makes itself and the
    failure of an exchange reported by [Client.Do]. *)
Inductive error : Type :=
  | invalidMethod (method : string)
  | transportError (msg : string).

(** [type Client struct]: a client is what it answers to a request. *)
Record Client : Type := {
  Do : Request -> result Response error
}.

Definition StatusForbidden : Z := 403.

(** [httpguts.IsTokenRune] on bytes. *)
Definition isTokenByte (c : ascii) : bool :=
  isLetter c || isDigit c || inBytes c "!#$%&'*+-.^_`|~".

(** [validMethod] *)
Definition validMethod (method : string) : bool :=
  nonempty method && allBytes isTokenByte method.

(** [hasPort], [removeEmptyPort] *)
Definition hasPort (s : string) : bool :=
  match LastIndex s ":", LastIndex s "]" with
  | Some i, Some j => Nat.ltb j i
  | Some _, None => true
  | None, _ => false
  end.

Definition removeEmptyPort (host : string) : string :=
  if hasPort host then TrimSuffix host ":" else host.

(** [http.NewRequest(method, url, nil)]: the URL text is parsed again. *)
Definition NewRequest (method url_ : string)
  : result Request (error + url.error) :=
  let method := if nonempty method then method else "GET" in
  if negb (validMethod method) then Err (inl (invalidMethod method))
  else
    match url.Parse url_ with
    | Err e => Err (inr e)
    | Ok u =>
        let u := url.withHost u (removeEmptyPort (url.Host u)) in
        Ok {| Method := method; URL := u; Header_ := ∅; Host := url.Host u;
              ctx := context.Background |}
    end.

(** [textproto.CanonicalMIMEHeaderKey] *)
Fixpoint canonical (upper : bool) (s : string) : string :=
  match s with
  | EmptyString => EmptyString
  | String c s' =>
      String (if upper then upperByte c else lowerByte c)
             (canonical (Ascii.eqb c "-") s')
  end.

Definition CanonicalMIMEHeaderKey (s : string) : string :=
  if allBytes isTokenByte s then canonical true s else s.

(** [req.Header.Set(key, value)] *)
Definition HeaderSet (req : Request) (key value : string) : Request :=
  {| Method := Method req; URL := URL req;
     Header_ := <[CanonicalMIMEHeaderKey key := [value]]> (Header_ req);
     Host := Host req; ctx := ctx req |}.

(** [req.WithContext(ctx)] *)
Definition WithContext (req : Request) (c : context.Context) : Request :=
  {| Method := Method req; URL := URL req; Header_ := Header_ req;
     Host := Host req; ctx := c |}.

End http.

(** [ioutil.ReadAll]: the bytes read and the error that stopped the
    reading, nil at the end of the stream. *)
Definition ReadAll (r : http.ReadCloser) : string * option io.error :=
  (http.data r, http.readErr r).

(** ** Package encoding/json *)

Module json.

(** What [Decoder.Decode] reports: a value that is not JSON, a value of the
    wrong shape, or the error of the reader. *)
Inductive error : Type :=
  | SyntaxError (msg : string) (Offset : Z)
  | UnmarshalTypeError (Value Field : string)
  | readError (e : io.error).

End json.

(** ** Package forensiq *)

(** [Forensiq] represents a forensiq API client; [httpClient] is a pointer,
    nil ([None]) when the value was built as a literal. *)
Record Forensiq : Type := {
  ClientKey : string;
  Host : string;
  httpClient : option http.Client
}.

(** [CheckRequest] represents a request to the Forensiq API. *)
Record CheckRequest : Type := {
  IP : net.IP;
  RequestType : string;
  URL : string;
  SellerID : string;
  SubID : string;
  Campaign : string;
  UserAgent : string;
  CookieID : string
}.

(** [CheckResponse] is returned by the Forensiq API. *)
Record CheckResponse : Type := {
  RiskScore : Z;
  SellerDomain : Z;
  DomainViewed : Z;
  DomainHidden : Z;
  SellerViewed : Z;
  SellerHidden : Z;
  IPReputation : bool;
  Proxy : bool;
  AutomatedTraffic : bool;
  HostingProvider : bool;
  Spoofed : Z;
  NonSuspect : bool;
  TimeMS : Z
}.

(** [CheckResponse{}], the zero value. *)
Definition CheckResponse_zero : CheckResponse :=
  {| RiskScore := 0; SellerDomain := 0; DomainViewed := 0; DomainHidden := 0;
     SellerViewed := 0; SellerHidden := 0; IPReputation := false;
     Proxy := false; AutomatedTraffic := false; HostingProvider := false;
     Spoofed := 0; NonSuspect := false; TimeMS := 0 |}.

(** The values of the interface [error] the client can return: the value
    the package makes itself with [errors.New], and the errors handed over
    by the packages it calls, each kept under the package it comes from. *)
Inductive error : Type :=
  | ErrInvalidClientKey
  | urlError (e : url.error)
  | httpError (e : http.error)
  | contextError (e : context.error)
  | jsonError (e : json.error)
  | ioError (e : io.error).

(** What lies outside the client: the client [http.DefaultClient], the
    decoder of encoding/json reading a body into a [CheckResponse] (it is
    handed the value to fill and may have written some fields when it
    fails), and the time an exchange takes. *)
Record World : Type := {
  DefaultClient : http.Client;
  Decode : http.ReadCloser -> CheckResponse -> CheckResponse * option json.error;
  Since : Z
}.

(** The text of [ErrInvalidClientKey]. *)
Definition ErrInvalidClientKey_text : string :=
  "the client key was not accepted by forensiq".

(** An argument of a log message: an error, or a field of [xlog.F]. *)
Inductive LogArg : Type :=
  | argError (e : error)
  | argField (name value : string).

(** What a call does besides returning: messages to the logger, requests
    handed to the HTTP client, samples sent to the metrics client, and the
    release of a response body. *)
Inductive Event : Type :=
  | LogErrorf (format : string) (args : list LogArg)
  | HTTPDo (req : http.Request)
  | Timing (stat : string) (elapsed : Z) (tags : list string)
  | BodyClose.

(** A computation yields a value and the events it caused, in order. *)
Definition M (A : Type) : Type := (A * list Event)%type.

Definition ret {A : Type} (a : A) : M A := (a, []).

Definition bind {A B : Type} (m : M A) (k : A -> M B) : M B :=
  let '(a, t1) := m in
  let '(b, t2) := k a in
  (b, (t1 ++ t2)%list).

Definition emit (e : Event) : M unit := (tt, [e]).

Notation "x <- m ;; k" := (bind m (fun x => k))
  (at level 100, m at next level, right associativity).
Notation "m ;;; k" := (bind m (fun _ => k))
  (at level 100, right associativity).

(** [defer resp.Body.Close()]: the body is released when the function
    returns. *)
Definition deferClose {A : Type} (m : M A) : M A :=
  a <- m ;; emit BodyClose ;;; ret a.

(** The requests a computation handed to the HTTP client. *)
Definition requests {A : Type} (m : M A) : list http.Request :=
  omap (fun e => match e with HTTPDo req => Some req | _ => None end) (snd m).

(** [New] returns a new Forensiq initialized with given host and clientKey
    and uses [http.DefaultClient] as the HTTP client. *)
Definition New (w : World) (host clientKey : string) : Forensiq :=
  {| Host := host; ClientKey := clientKey; httpClient := Some (DefaultClient w) |}.

(** [SetHTTPClient] sets a custom HTTP client. *)
Definition SetHTTPClient (f : Forensiq) (hc : option http.Client) : Forensiq :=
  {| Host := Host f; ClientKey := ClientKey f; httpClient := hc |}.

(** [ctxhttp.Do]: the request is sent with the context attached; when the
    exchange failed and the context is done, the error of the context is
    reported instead. *)
Definition ctxhttp_Do (w : World) (c : context.Context)
    (client : option http.Client) (req : http.Request)
  : M (result http.Response error) :=
  let client := default (DefaultClient w) client in
  let req := http.WithContext req c in
  emit (HTTPDo req) ;;;
  match http.Do client req with
  | Ok resp => ret (Ok resp)
  | Err err =>
      match context.Err_ c with
      | Some e => ret (Err (contextError e))
      | None => ret (Err (httpError err))
      end
  end.

(** [ctxhttp.Get] *)
Definition ctxhttp_Get (w : World) (c : context.Context)
    (client : option http.Client) (url_ : string)
  : M (result http.Response error) :=
  match http.NewRequest "GET" url_ with
  | Err (inl e) => ret (Err (httpError e))
  | Err (inr e) => ret (Err (urlError e))
  | Ok req => ctxhttp_Do w c client req
  end.

Definition responseStatus (c : context.Context) (statusCode : Z) : string :=
  match context.Err_ c with
  | Some e =>
      if bool_decide (e = context.DeadlineExceeded) then "timeout"
      else "canceled"
  | None =>
      if (200 <=? statusCode)%Z && (statusCode <? 400)%Z then "ok"
      else "error"
  end.

Definition toValues (cr : CheckRequest) : url.Values :=
  let v : url.Values := ∅ in
  let v := url.Set_ v "ip" (net.String (IP cr)) in
  let v := url.Set_ v "rt" (RequestType cr) in
  let v := url.Set_ v "url" (URL cr) in
  let v := url.Set_ v "seller" (SellerID cr) in
  let v := url.Set_ v "sub" (SubID cr) in
  let v := url.Set_ v "cmp" (Campaign cr) in
  let v := url.Set_ v "ua" (UserAgent cr) in
  let v := url.Set_ v "id" (CookieID cr) in
  v.

(** [Check] gets the riskScore and aggregate characteristics. *)
Definition Check (w : World) (f : Forensiq) (c : context.Context)
    (creq : CheckRequest) : M (CheckResponse * option error) :=
  match url.Parse (Host f) with
  | Err err =>
      emit (LogErrorf "error parsing the URL: %s%v"
              [argError (urlError err); argField "host" (Host f)]) ;;;
      ret (CheckResponse_zero, Some (urlError err))
  | Ok uri =>
      let uri := url.withPath uri "/check" in
      let v := toValues creq in
      let v := url.Set_ v "ck" (ClientKey f) in
      let v := url.Set_ v "output" "JSON" in
      let uri := url.withRawQuery uri (url.Encode v) in
      match http.NewRequest "GET" (url.String_ uri) with
      | Err (inl err) => ret (CheckResponse_zero, Some (httpError err))
      | Err (inr err) => ret (CheckResponse_zero, Some (urlError err))
      | Ok req =>
          let req := http.HeaderSet req "Content-Type" "application/json" in
          r <- ctxhttp_Do w c (httpClient f) req ;;
          match r with
          | Err err => ret (CheckResponse_zero, Some err)
          | Ok resp =>
              deferClose (
                emit (Timing "forensiq.request_time" (Since w)
                        ["request:check";
                         "status:" +:+ responseStatus c (http.StatusCode resp);
                         "status_code:" +:+ pretty (http.StatusCode resp)]) ;;;
                if (http.StatusCode resp =? http.StatusForbidden)%Z then
                  emit (LogErrorf "client key is invalid%v"
                          [argField "client_key" (ClientKey f)]) ;;;
                  ret (CheckResponse_zero, Some ErrInvalidClientKey)
                else
                  match Decode w (http.Body resp) CheckResponse_zero with
                  | (_, Some err) => ret (CheckResponse_zero, Some (jsonError err))
                  | (cresp, None) => ret (cresp, None)
                  end)
          end
      end
  end.

(** [Ready] returns true if the API is ready. *)
Definition Ready (w : World) (f : Forensiq) (c : context.Context)
  : M (bool * option error) :=
  match url.Parse (Host f) with
  | Err err => ret (false, Some (urlError err))
  | Ok uri =>
      let uri := url.withPath uri "/ready" in
      r <- ctxhttp_Get w c (httpClient f) (url.String_ uri) ;;
      match r with
      | Err err => ret (false, Some err)
      | Ok resp =>
          deferClose (
            emit (Timing "forensiq.request_time" (Since w)
                    ["request:ready";
                     "status:" +:+ responseStatus c (http.StatusCode resp);
                     "status_code:" +:+ pretty (http.StatusCode resp)]) ;;;
            match ReadAll (http.Body resp) with
            | (_, Some err) => ret (false, Some (ioError err))
            | (b, None) => ret (String.eqb b "1", None)
            end)
      end
  end.

(** ** The stub servers of forensiq_test.go *)

Module forensiq_test.

Definition newline : string := String (ascii_of_N 10) EmptyString.
Definition dquote : string := String (ascii_of_N 34) EmptyString.

(** A handler answers a request; [w.Write] without [WriteHeader] answers
    with status 200. *)
Definition Handler : Type := http.Request -> http.Response.

Definition respond (code : Z) (body : string) : http.Response :=
  {| http.StatusCode := code;
     http.Body := {| http.data := body; http.readErr := None |} |}.

(** [http.Error(w, error, code)] *)
Definition http_Error (msg : string) (code : Z) : http.Response :=
  respond code (msg +:+ newline).

(** [httptest.NewServer(m)] for a mux [m] with one pattern, seen from the
    client through [http.DefaultClient]: an exchange whose context is done
    fails, and the error wraps that of the context; otherwise the handler
    answers the requests for its path and the mux answers 404 for the
    others. *)
Definition NewServer (pattern : string) (h : Handler) : http.Client :=
  {| http.Do := fun req =>
       match context.Err_ (http.ctx req) with
       | Some context.Canceled =>
           Err (http.transportError "context canceled")
       | Some context.DeadlineExceeded =>
           Err (http.transportError "context deadline exceeded")
       | None =>
           if String.eqb (url.Path (http.URL req)) pattern
           then Ok (h req)
           else Ok (http_Error "404 page not found" 404)
       end |}.

(** The address of the test server, [ts.URL]. *)
Definition tsURL : string := "http://127.0.0.1:49152".

(** The handler of [TestReady], writing the body [b]. *)
Definition readyHandler (b : string) : Handler :=
  fun _ => respond 200 b.

(** The body the handler of [TestCheck] writes. *)
Definition checkBody : string :=
  "{" +:+ dquote +:+ "nonSuspect" +:+ dquote +:+ ":true,"
      +:+ dquote +:+ "riskScore" +:+ dquote +:+ ":0,"
      +:+ dquote +:+ "timeMs" +:+ dquote +:+ ":10}".

(** The handler of [TestCheck]. *)
Definition checkHandler : Handler :=
  fun r =>
    let q := url.Query (http.URL r) in
    if negb (gostrings.nonempty (url.Get q "ck"))
    then http_Error "Forbidden" http.StatusForbidden
    else if negb (String.eqb (url.Get q "output") "JSON")
    then http_Error "output=JSON is required" 400
    else respond 200 checkBody.

(** The value [TestCheck] expects. *)
Definition want : CheckResponse :=
  {| RiskScore := 0; SellerDomain := 0; DomainViewed := 0; DomainHidden := 0;
     SellerViewed := 0; SellerHidden := 0; IPReputation := false;
     Proxy := false; AutomatedTraffic := false; HostingProvider := false;
     Spoofed := 0; NonSuspect := true; TimeMS := 10 |}.

(** The decoder of the examples.  The decoder of encoding/json is not
    part of this development: a world can have any decoder, and every
    statement about [Check] is made for all of them.  The worlds of the
    examples need one; this one is not that of encoding/json.  It passes
    on the error of the reader, gives the value [TestCheck] expects for
    the body the test server writes, and for any other body writes into
    the value it was handed before it fails, as a decoder may. *)
Definition exampleDecode (r : http.ReadCloser) (into : CheckResponse)
  : CheckResponse * option json.error :=
  match http.readErr r with
  | Some e => (into, Some (json.readError e))
  | None =>
      if String.eqb (http.data r) checkBody then (want, None)
      else (want, Some (json.SyntaxError "invalid character" 1))
  end.

(** The world of an example: the default client is the given server, the
    decoder is that of the examples. *)
Definition world (server : http.Client) : World :=
  {| DefaultClient := server; Decode := exampleDecode; Since := 1000000 |}.

(** The empty request [CheckRequest{}]. *)
Definition emptyRequest : CheckRequest :=
  {| IP := []; RequestType := EmptyString; URL := EmptyString;
     SellerID := EmptyString; SubID := EmptyString; Campaign := EmptyString;
     UserAgent := EmptyString; CookieID := EmptyString |}.

(** The request of the README. *)
Definition readmeRequest : CheckRequest :=
  {| IP := net.IPv4 Byte.x08 Byte.x08 Byte.x08 Byte.x08;
     RequestType := "display";
     URL := "http://www.dailymotion.com/video/x3llhsx_ces-2016-wired-s-favorite-gadgets-of-ces_tech";
     SellerID := "123";
     SubID := "78679676";
     Campaign := "217673313";
     UserAgent := "Mozilla/5.0 (Macintosh; Intel Mac OS X 10_11_2) AppleWebKit/537.36 (KHTML, like Gecko) Chrome/47.0.2526.106 Safari/537.36";
     CookieID := "2acc8d3b1a08cf1dd19185d809d04737" |}.

End forensiq_test.

(** ** Vocabulary of the statements *)

(** No byte of [s] is one of the bytes of [bad]. *)
Definition avoids (bad s : string) : bool :=
  gostrings.allBytes (fun c => negb (gostrings.inBytes c bad)) s.

(** The bytes [getScheme] accepts in a scheme. *)
Definition schemeByte (c : ascii) : bool :=
  gostrings.isLetter c || gostrings.isDigit c || gostrings.inBytes c "+-.".

(** What [url.Parse] guarantees of its result, as far as the text form of
    the URL depends on it: the scheme is made of scheme bytes, the opaque
    part holds neither [?] nor [#], the query holds no [#]. *)
Definition wfURL (u : url.URL) : Prop :=
  gostrings.allBytes schemeByte (url.Scheme u) = true
  /\ avoids "?#" (url.Opaque u) = true
  /\ avoids "#" (url.RawQuery u) = true.

(** The values [Check] serialises: those of the request, the key and the
    output marker. *)
Definition checkValues (f : Forensiq) (creq : CheckRequest) : url.Values :=
  url.Set_ (url.Set_ (toValues creq) "ck" (ClientKey f)) "output" "JSON".

(** The query [Check] sends, written out. *)
Definition checkQuery (f : Forensiq) (creq : CheckRequest) : string :=
  "ck=" +:+ url.QueryEscape (ClientKey f)
  +:+ "&cmp=" +:+ url.QueryEscape (Campaign creq)
  +:+ "&id=" +:+ url.QueryEscape (CookieID creq)
  +:+ "&ip=" +:+ url.QueryEscape (net.String (IP creq))
  +:+ "&output=JSON"
  +:+ "&rt=" +:+ url.QueryEscape (RequestType creq)
  +:+ "&seller=" +:+ url.QueryEscape (SellerID creq)
  +:+ "&sub=" +:+ url.QueryEscape (SubID creq)
  +:+ "&ua=" +:+ url.QueryEscape (UserAgent creq)
  +:+ "&url=" +:+ url.QueryEscape (URL creq).

(** The byte two hexadecimal digits stand for. *)
Definition decodeHex (a b : ascii) : ascii :=
  ascii_of_N (N.lor (N.shiftl (url.unhex a) 4) (url.unhex b)).

(** What a byte looks like once escaped as a query component: [+] for a
    space, the byte itself when it is neither [%] nor [+], or [%] and two
    digits standing for it. *)
Definition queryByteOK (c : ascii) : bool :=
  match url.escapeByte c url.encodeQueryComponent with
  | String x EmptyString =>
      if Ascii.eqb x "+" then Ascii.eqb c " "
      else Ascii.eqb x c && negb (Ascii.eqb c "%")
  | String x (String a (String b EmptyString)) =>
      Ascii.eqb x "%" && url.ishex a && url.ishex b
      && Ascii.eqb (decodeHex a b) c
  | _ => false
  end.

(** The keys of a map of values in the order [Encode] writes them, and the
    text of the pairs it writes. *)
Definition sortedKeys (v : url.Values) : list string :=
  merge_sort String.le (map fst (map_to_list v)).

Definition pairText (k x : string) : string :=
  url.QueryEscape k +:+ "=" +:+ url.QueryEscape x.

Definition pairTexts (v : url.Values) : list string :=
  flat_map (fun k => map (pairText k) (default [] (v !! k))) (sortedKeys v).

(** One turn of the buffer of [Encode]. *)
Definition addSegment (buf seg : string) : string :=
  (if gostrings.nonempty buf then buf +:+ "&" else buf) +:+ seg.

(** A map filled by [Set] gives every key at least one value. *)
Definition allSet (v : url.Values) : Prop :=
  forall k xs, v !! k = Some xs -> xs <> [].

(** The three parts of the text [String] writes: what precedes the query,
    the query with its [?], the fragment with its [#]. *)
Definition urlHead (u : url.URL) : string :=
  let buf :=
    if gostrings.nonempty (url.Scheme u) then url.Scheme u +:+ ":"
    else EmptyString in
  if gostrings.nonempty (url.Opaque u) then buf +:+ url.Opaque u
  else
    let buf :=
      if gostrings.nonempty (url.Scheme u) || gostrings.nonempty (url.Host u)
         || bool_decide (url.User u <> None)
      then
        if url.OmitHost u && negb (gostrings.nonempty (url.Host u))
           && bool_decide (url.User u = None)
        then buf
        else
          let buf :=
            if gostrings.nonempty (url.Host u) || gostrings.nonempty (url.Path u)
               || bool_decide (url.User u <> None)
            then buf +:+ "//" else buf in
          let buf :=
            match url.User u with
            | Some ui => buf +:+ url.UserinfoString ui +:+ "@"
            | None => buf
            end in
          if gostrings.nonempty (url.Host u)
          then buf +:+ url.escape (url.Host u) url.encodeHost
          else buf
      else buf in
    let path := url.EscapedPath u in
    let buf :=
      if gostrings.nonempty path && negb (gostrings.HasPrefix path "/")
         && gostrings.nonempty (url.Host u)
      then buf +:+ "/" else buf in
    let buf :=
      if negb (gostrings.nonempty buf)
         && gostrings.Contains (fst (fst (gostrings.Cut path "/"))) ":"
      then buf +:+ "./" else buf in
    buf +:+ path.

Definition urlQuery (u : url.URL) : string :=
  if url.ForceQuery u || gostrings.nonempty (url.RawQuery u)
  then "?" +:+ url.RawQuery u else EmptyString.

Definition urlFragment (u : url.URL) : string :=
  if gostrings.nonempty (url.Fragment u)
  then "#" +:+ url.EscapedFragment u else EmptyString.

(** The URL [Check] builds from the parsed base address [u]. *)
Definition checkURI (f : Forensiq) (creq : CheckRequest) (u : url.URL) : url.URL :=
  url.withRawQuery (url.withPath u "/check") (url.Encode (checkValues f creq)).

(** The request [Check] hands over, made from the one [http.NewRequest]
    returned: the header is set and the context attached. *)
Definition checkRequest (c : context.Context) (req0 : http.Request) : http.Request :=
  http.WithContext (http.HeaderSet req0 "Content-Type" "application/json") c.

(** The client an exchange goes through. *)
Definition clientOf (w : World) (f : Forensiq) : http.Client :=
  default (DefaultClient w) (httpClient f).

(** The /check endpoint answers 403: [Check] sent a request and the client
    answered it with that status. *)
Definition answered403 (w : World) (f : Forensiq) (c : context.Context)
    (creq : CheckRequest) : Prop :=
  exists req resp,
    requests (Check w f c creq) = [req]
    /\ http.Do (clientOf w f) req = Ok resp
    /\ http.StatusCode resp = http.StatusForbidden.

(** A world with another decoder and another clock. *)
Definition withDecode (w : World)
    (decode : http.ReadCloser -> CheckResponse -> CheckResponse * option json.error)
    (since : Z) : World :=
  {| DefaultClient := DefaultClient w; Decode := decode; Since := since |}.

(** A client configuration with another key. *)
Definition withClientKey (f : Forensiq) (key : string) : Forensiq :=
  {| ClientKey := key; Host := Host f; httpClient := httpClient f |}.

(** The first request a computation handed over (an empty request when it
    handed over none). *)
Definition firstRequest {A : Type} (m : M A) : http.Request :=
  match requests m with
  | req :: _ => req
  | [] => {| http.Method := EmptyString; http.URL := url.zeroURL;
             http.Header_ := ∅; http.Host := EmptyString;
             http.ctx := context.Background |}
  end.

(** ** The configurations of the examples *)

Module example.
Import forensiq_test.

(** The world of [TestCheck] and that of [TestReady] for a body [b]. *)
Definition checkWorld : World := world (NewServer "/check" checkHandler).
Definition readyWorld (b : string) : World :=
  world (NewServer "/ready" (readyHandler b)).

(** The client of [TestCheck], with its key and without. *)
Definition client : Forensiq :=
  {| ClientKey := "123abc"; Host := tsURL; httpClient := None |}.
Definition clientNoKey : Forensiq :=
  {| ClientKey := EmptyString; Host := tsURL; httpClient := None |}.

(** A base address that does not parse: it has no scheme before its colon. *)
Definition clientBadHost : Forensiq :=
  {| ClientKey := "123abc"; Host := "://api.forensiq.com"; httpClient := None |}.

(** A base address without [//]: the scheme is [localhost], the rest is
    opaque. *)
Definition clientOpaque : Forensiq :=
  {| ClientKey := "123abc"; Host := "localhost:8080"; httpClient := None |}.

(** A base address that carries a query. *)
Definition clientQuery : Forensiq :=
  {| ClientKey := "123abc"; Host := "http://api.forensiq.com?debug=1";
     httpClient := None |}.

(** What [url.Parse] makes of the address of the test server. *)
Definition baseURL : url.URL :=
  url.withAuthority
    {| url.Scheme := "http"; url.Opaque := EmptyString; url.User := None;
       url.Host := EmptyString; url.Path := EmptyString;
       url.RawPath := EmptyString; url.OmitHost := false;
       url.ForceQuery := false; url.RawQuery := EmptyString;
       url.Fragment := EmptyString; url.RawFragment := EmptyString |}
    None "127.0.0.1:49152".

(** A base address with an IPv6 zone that holds bytes beyond ASCII (here
    the two bytes of a UTF-8 letter): [url.Parse] accepts it, but the text
    [String] writes for it escapes those bytes, which [url.Parse] does not
    accept in a zone. *)
Definition clientZone : Forensiq :=
  {| ClientKey := "123abc";
     Host := "http://[fe80::1%25"
             +:+ String (ascii_of_N 195) (String (ascii_of_N 169) "]");
     httpClient := None |}.

(** A server that answers every request with the given status and body. *)
Definition always (code : Z) (body : string) : http.Client :=
  {| http.Do := fun _ => Ok (respond code body) |}.

End example.

(** ** Vocabulary of the further properties *)

(** The samples a computation sent to the metrics client, the messages it
    logged, and how many times it released a response body. *)
Definition timings {A : Type} (m : M A) : list (string * Z * list string) :=
  omap (fun e => match e with
                 | Timing stat elapsed tags => Some (stat, elapsed, tags)
                 | _ => None
                 end) (snd m).

Definition logged {A : Type} (m : M A) : list (string * list LogArg) :=
  omap (fun e => match e with
                 | LogErrorf format args => Some (format, args)
                 | _ => None
                 end) (snd m).

Definition closes {A : Type} (m : M A) : nat :=
  length (omap (fun e => match e with BodyClose => Some tt | _ => None end)
               (snd m)).

(** The responses the client of [f] gave to the requests a computation
    sent. *)
Definition responses {A : Type} (w : World) (f : Forensiq) (m : M A)
  : list http.Response :=
  omap (fun req => match http.Do (clientOf w f) req with
                   | Ok resp => Some resp
                   | Err _ => None
                   end) (requests m).

(** The sample sent for a response of the endpoint [endpoint]. *)
Definition sample (w : World) (c : context.Context) (endpoint : string)
    (resp : http.Response) : string * Z * list string :=
  ("forensiq.request_time", Since w,
   ["request:" +:+ endpoint;
    "status:" +:+ responseStatus c (http.StatusCode resp);
    "status_code:" +:+ pretty (http.StatusCode resp)]).

(** The event of that sample. *)
Definition sampleEvent (w : World) (c : context.Context) (endpoint : string)
    (resp : http.Response) : Event :=
  Timing "forensiq.request_time" (Since w)
    ["request:" +:+ endpoint;
     "status:" +:+ responseStatus c (http.StatusCode resp);
     "status_code:" +:+ pretty (http.StatusCode resp)].

(** The error [ctxhttp.Do] reports for a failed exchange. *)
Definition exchangeError (c : context.Context) (err : http.error) : error :=
  match context.Err_ c with
  | Some e => contextError e
  | None => httpError err
  end.

(** The error of a call to [http.NewRequest], as [Check] and [Ready]
    return it. *)
Definition requestError (e : http.error + url.error) : error :=
  match e with
  | inl e => httpError e
  | inr e => urlError e
  end.

(** A world with another default client. *)
Definition withDefaultClient (w : World) (d : http.Client) : World :=
  {| DefaultClient := d; Decode := Decode w; Since := Since w |}.

(** A client configuration written as a literal, without HTTP client. *)
Definition literal (host clientKey : string) : Forensiq :=
  {| ClientKey := clientKey; Host := host; httpClient := None |}.

(** The ten parameters of a request to /check. *)
Definition checkKeys : list string :=
  ["ck"; "cmp"; "id"; "ip"; "output"; "rt"; "seller"; "sub"; "ua"; "url"].

(** ** Reading the text of an address back *)

(** The value of a hexadecimal digit in lower case. *)
Definition hexValue (c : ascii) : option N :=
  if gostrings.isDigit c then Some (N_of_ascii c - 48)%N
  else if gostrings.between "a" "f" c then Some (N_of_ascii c - 87)%N
  else None.

(** A reader of the colon form goes through the text once.  It keeps the
    groups read so far, the value of the digits read since the last colon
    if there are any, and the number of groups that precede [::] once it
    was met. *)
Record scanState : Type := {
  groups : list N;
  cur : option N;
  ellipsis : option nat
}.

Definition scanStep (st : scanState) (c : ascii) : scanState :=
  match hexValue c with
  | Some d =>
      {| groups := groups st; cur := Some (16 * default 0 (cur st) + d)%N;
         ellipsis := ellipsis st |}
  | None =>
      match cur st with
      | Some v =>
          {| groups := (groups st ++ [v])%list; cur := None;
             ellipsis := ellipsis st |}
      | None =>
          {| groups := groups st; cur := None;
             ellipsis := Some (length (groups st)) |}
      end
  end.

Fixpoint scanFrom (st : scanState) (s : string) : scanState :=
  match s with
  | EmptyString => st
  | String c s' => scanFrom (scanStep st c) s'
  end.

(** The eight groups of a text in colon form: those before [::], as many
    zeros as are missing, those after. *)
Definition readGroups (s : string) : list N :=
  let st := scanFrom {| groups := []; cur := None; ellipsis := None |} s in
  let gs :=
    (groups st ++ match cur st with Some v => [v] | None => [] end)%list in
  match ellipsis st with
  | Some k => (take k gs ++ repeat 0%N (8 - length gs) ++ drop k gs)%list
  | None => gs
  end.

Definition byteOf (n : N) : Byte.byte := default Byte.x00 (Byte.of_N n).

Definition groupBytes (g : N) : net.IP :=
  [byteOf (N.shiftr g 8); byteOf (N.land g 255)].

(** The value of a text of decimal digits. *)
Fixpoint readDecimalFrom (acc : N) (s : string) : N :=
  match s with
  | EmptyString => acc
  | String c s' => readDecimalFrom (10 * acc + (N_of_ascii c - 48))%N s'
  end.

Definition readDecimal (s : string) : N := readDecimalFrom 0 s.

(** The address a text stands for, in its 16-byte form: the colon form
    when the text has a colon, the dotted form otherwise. *)
Definition readIP (s : string) : net.IP :=
  if gostrings.Contains s ":" then flat_map groupBytes (readGroups s)
  else
    let '(a, r1, _) := gostrings.Cut s "." in
    let '(b, r2, _) := gostrings.Cut r1 "." in
    let '(c, d, _) := gostrings.Cut r2 "." in
    net.IPv4 (byteOf (readDecimal a)) (byteOf (readDecimal b))
      (byteOf (readDecimal c)) (byteOf (readDecimal d)).

(** The text [appendHex] adds for a group. *)
Definition hexOf (i : N) : string :=
  if (i =? 0)%N then "0" else net.hexFrom 7 i.

(** The 256 bytes. *)
Definition everyByte : list Byte.byte :=
  map (fun n => byteOf (N.of_nat n)) (seq 0 256).

(** The group two bytes make, as [String] computes it. *)
Definition groupOf (x y : Byte.byte) : N :=
  N.lor (N.shiftl (Byte.to_N x) 8) (Byte.to_N y).

(** What the reader needs of the text of a group made of two bytes: it is
    made of hexadecimal digits, it is not empty, its value is the group,
    and the group gives the two bytes back. *)
Definition isHexByte (c : ascii) : bool :=
  match hexValue c with Some _ => true | None => false end.

Definition groupOK (x y : Byte.byte) : bool :=
  let g := groupOf x y in
  gostrings.allBytes isHexByte (hexOf g)
  && gostrings.nonempty (hexOf g)
  && match cur (scanFrom {| groups := []; cur := None; ellipsis := None |}
                  (hexOf g)) with
     | Some v => (v =? g)%N
     | None => false
     end
  && Byte.eqb (byteOf (N.shiftr g 8)) x
  && Byte.eqb (byteOf (N.land g 255)) y.

(** What it needs of the decimal text of a byte. *)
Definition decimalOK (x : Byte.byte) : bool :=
  let t := net.ubtoa (Byte.to_N x) in
  avoids ".:" t && Byte.eqb (byteOf (readDecimal t)) x.

(** What the search for the longest run of zeros returns: no run, or a
    run of zero bytes between two even indices. *)
Definition zerosBetween (p : net.IP) (e0 e1 : Z) : Prop :=
  (e0 = (-1)%Z /\ e1 = (-1)%Z)
  \/ exists a b : nat,
       e0 = Z.of_nat a /\ e1 = Z.of_nat b /\ (a < b <= 16)%nat
       /\ Nat.Even a /\ Nat.Even b
       /\ forall i, (a <= i < b)%nat -> net.at_ p i = 0%N.

(** * Properties *)

#[local] Arguments String.append !s1 s2 : simpl nomatch.

(** ** Strings *)

Section strings_facts.
Import gostrings.

Lemma append_nil_r (s : string) : s +:+ EmptyString = s.
Proof. induction s as [|c s IH]; simpl; [reflexivity | now rewrite IH]. Qed.

Lemma append_assoc (s t u : string) : (s +:+ t) +:+ u = s +:+ (t +:+ u).
Proof. induction s as [|c s IH]; simpl; [reflexivity | now rewrite IH]. Qed.

Lemma append_length (s t : string) :
  String.length (s +:+ t) = String.length s + String.length t.
Proof. induction s as [|c s IH]; simpl; [reflexivity | now rewrite IH]. Qed.

Lemma upto_append (a b : string) : upto (String.length a) (a +:+ b) = a.
Proof. induction a as [|c a IH]; simpl; [now destruct b | now rewrite IH]. Qed.

Lemma from_append (a b : string) : from (String.length a) (a +:+ b) = b.
Proof. induction a as [|c a IH]; simpl; [reflexivity | exact IH]. Qed.

Lemma upto_from (n : nat) (s : string) : upto n s +:+ from n s = s.
Proof.
  revert s; induction n as [|n IH]; intros [|c s]; simpl; try reflexivity.
  now rewrite IH.
Qed.

Lemma allBytes_append (p : ascii -> bool) (s t : string) :
  allBytes p (s +:+ t) = allBytes p s && allBytes p t.
Proof.
  induction s as [|c s IH]; simpl; [reflexivity|].
  now rewrite IH, andb_assoc.
Qed.

Lemma allBytes_impl (p q : ascii -> bool) (s : string) :
  (forall c, p c = true -> q c = true) ->
  allBytes p s = true -> allBytes q s = true.
Proof.
  intros Hpq; induction s as [|c s IH]; simpl; [reflexivity|].
  intros [Hc Hs]%andb_true_iff. rewrite (Hpq _ Hc), (IH Hs). reflexivity.
Qed.

Lemma allBytes_from (p : ascii -> bool) (n : nat) (s : string) :
  allBytes p s = true -> allBytes p (from n s) = true.
Proof.
  revert s; induction n as [|n IH]; intros [|c s]; simpl; try tauto.
  intros [_ Hs]%andb_true_iff. now apply IH.
Qed.

Lemma allBytes_upto (p : ascii -> bool) (n : nat) (s : string) :
  allBytes p s = true -> allBytes p (upto n s) = true.
Proof.
  revert s; induction n as [|n IH]; intros [|c s]; simpl; try tauto.
  intros [Hc Hs]%andb_true_iff. rewrite Hc. now apply IH.
Qed.

Lemma avoids_append (bad s t : string) :
  avoids bad (s +:+ t) = avoids bad s && avoids bad t.
Proof. apply allBytes_append. Qed.

Lemma avoids_from (bad : string) (n : nat) (s : string) :
  avoids bad s = true -> avoids bad (from n s) = true.
Proof. apply allBytes_from. Qed.

Lemma avoids_upto (bad : string) (n : nat) (s : string) :
  avoids bad s = true -> avoids bad (upto n s) = true.
Proof. apply allBytes_upto. Qed.

(** Avoiding a set of bytes is avoiding each of them. *)
Lemma avoids_weaken (bad bad' s : string) :
  (forall c, inBytes c bad' = true -> inBytes c bad = true) ->
  avoids bad s = true -> avoids bad' s = true.
Proof.
  intros Hsub. apply allBytes_impl. intros c Hc.
  destruct (inBytes c bad') eqn:E; [|reflexivity].
  now rewrite (Hsub _ E) in Hc.
Qed.

(** *** Cutting at a separator of one byte *)

Lemma avoids_byte_cons (c d : ascii) (s : string) :
  avoids (String c EmptyString) (String d s)
  = negb (Ascii.eqb d c) && avoids (String c EmptyString) s.
Proof. unfold avoids; simpl. now rewrite orb_false_r. Qed.

Lemma HasPrefix_byte (c d : ascii) (s : string) :
  HasPrefix (String d s) (String c EmptyString) = Ascii.eqb d c.
Proof. simpl. apply andb_true_r. Qed.

Lemma Index_byte (c : ascii) (a b : string) :
  avoids (String c EmptyString) a = true ->
  Index (a +:+ String c b) (String c EmptyString) = Some (String.length a).
Proof.
  induction a as [|d a IH]; intros Ha.
  - simpl. now rewrite Ascii.eqb_refl.
  - rewrite avoids_byte_cons in Ha. apply andb_true_iff in Ha as [Hd Ha].
    apply negb_true_iff in Hd.
    change ((String d a) +:+ String c b) with (String d (a +:+ String c b)).
    unfold Index; fold Index. rewrite HasPrefix_byte, Hd, (IH Ha). reflexivity.
Qed.

Lemma Index_byte_none (c : ascii) (s : string) :
  avoids (String c EmptyString) s = true ->
  Index s (String c EmptyString) = None.
Proof.
  induction s as [|d s IH]; intros Hs; [reflexivity|].
  rewrite avoids_byte_cons in Hs. apply andb_true_iff in Hs as [Hd Hs].
  apply negb_true_iff in Hd.
  unfold Index; fold Index. rewrite HasPrefix_byte, Hd, (IH Hs). reflexivity.
Qed.

(** The position [Index] finds splits the string around the first
    occurrence of the byte. *)
Lemma Index_byte_split (c : ascii) (s : string) (i : nat) :
  Index s (String c EmptyString) = Some i ->
  exists a b, s = a +:+ String c b /\ String.length a = i
              /\ avoids (String c EmptyString) a = true.
Proof.
  revert i; induction s as [|d s IH]; intros i; [discriminate|].
  unfold Index; fold Index. rewrite HasPrefix_byte.
  destruct (Ascii.eqb d c) eqn:Hd.
  - intros [= <-]. apply Ascii.eqb_eq in Hd as ->.
    exists EmptyString, s. repeat split.
  - destruct (Index s (String c EmptyString)) as [j|] eqn:Hj; [|discriminate].
    intros [= <-]. destruct (IH j eq_refl) as (a & b & -> & <- & Ha).
    exists (String d a), b. repeat split.
    rewrite avoids_byte_cons, Hd, Ha. reflexivity.
Qed.

Lemma Cut_byte (c : ascii) (a b : string) :
  avoids (String c EmptyString) a = true ->
  Cut (a +:+ String c b) (String c EmptyString) = (a, b, true).
Proof.
  intros Ha. unfold Cut. rewrite (Index_byte _ _ _ Ha).
  rewrite upto_append.
  change (String c b) with (String c EmptyString +:+ b).
  rewrite <- append_assoc, <- append_length, from_append. reflexivity.
Qed.

Lemma Cut_byte_none (c : ascii) (s : string) :
  avoids (String c EmptyString) s = true ->
  Cut s (String c EmptyString) = (s, EmptyString, false).
Proof. intros Hs. unfold Cut. now rewrite (Index_byte_none _ _ Hs). Qed.

(** Whatever the string, cutting at a byte leaves a first part without
    that byte, and both parts are parts of the string. *)
Lemma Cut_byte_spec (c : ascii) (s : string) :
  exists a b found, Cut s (String c EmptyString) = (a, b, found)
    /\ avoids (String c EmptyString) a = true
    /\ (s = a +:+ String c b \/ (s = a /\ b = EmptyString /\ found = false)).
Proof.
  destruct (Index s (String c EmptyString)) as [i|] eqn:Hi.
  - destruct (Index_byte_split _ _ _ Hi) as (a & b & -> & <- & Ha).
    exists a, b, true. rewrite (Cut_byte _ _ _ Ha).
    split; [reflexivity | split; [assumption | left; reflexivity]].
  - assert (Hs : avoids (String c EmptyString) s = true).
    { clear -Hi. induction s as [|d s IH]; [reflexivity|].
      revert Hi. unfold Index; fold Index. rewrite HasPrefix_byte.
      destruct (Ascii.eqb d c) eqn:Hd; [discriminate|].
      destruct (Index s (String c EmptyString)); [discriminate|].
      intros _. rewrite avoids_byte_cons, Hd, IH; reflexivity. }
    exists s, EmptyString, false. rewrite (Cut_byte_none _ _ Hs).
    split; [reflexivity | split; [assumption | right; auto]].
Qed.

Lemma Contains_byte_none (c : ascii) (s : string) :
  avoids (String c EmptyString) s = true ->
  Contains s (String c EmptyString) = false.
Proof. intros Hs. unfold Contains. now rewrite (Index_byte_none _ _ Hs). Qed.

Lemma CountByte_append (s t : string) (c : ascii) :
  CountByte (s +:+ t) c = CountByte s c + CountByte t c.
Proof. induction s as [|d s IH]; simpl; [reflexivity|]. rewrite IH. lia. Qed.

Lemma CountByte_avoids (s : string) (c : ascii) :
  avoids (String c EmptyString) s = true -> CountByte s c = 0.
Proof.
  induction s as [|d s IH]; [reflexivity|].
  rewrite avoids_byte_cons. intros [Hd Hs]%andb_true_iff.
  apply negb_true_iff in Hd. simpl. rewrite Hd, (IH Hs). reflexivity.
Qed.

Lemma CountByte_zero (s : string) (c : ascii) :
  CountByte s c = 0 -> avoids (String c EmptyString) s = true.
Proof.
  induction s as [|d s IH]; [reflexivity|].
  simpl. rewrite avoids_byte_cons.
  destruct (Ascii.eqb d c); [discriminate|]. intros H. now rewrite IH.
Qed.

End strings_facts.

(** ** Escaping *)

Section escape_facts.
Import gostrings url.

(** Case analysis on a byte: 256 closed cases. *)
Ltac each_byte c :=
  destruct c as [[] [] [] [] [] [] [] []]; vm_compute; reflexivity.

Lemma queryByteOK_all (c : ascii) : queryByteOK c = true.
Proof. each_byte c. Qed.

Lemma escapeByte_query_avoids (c : ascii) :
  avoids "&=;?#/:@" (escapeByte c encodeQueryComponent) = true.
Proof. each_byte c. Qed.

Lemma unescapeCheck_query_plain (x : ascii) (r : string) :
  Ascii.eqb x "%" = false ->
  unescapeCheck (String x r) encodeQueryComponent
  = unescapeCheck r encodeQueryComponent.
Proof.
  intros Hx. cbn [unescapeCheck]. rewrite Hx.
  destruct (Ascii.eqb x "+"); reflexivity.
Qed.

Lemma unescapeCheck_query_hex (a b : ascii) (r : string) :
  ishex a = true -> ishex b = true ->
  unescapeCheck (String "%" (String a (String b r))) encodeQueryComponent
  = unescapeCheck r encodeQueryComponent.
Proof.
  intros Ha Hb. cbn [unescapeCheck]. rewrite Ha, Hb. reflexivity.
Qed.

Lemma unescapeBuild_query_plain (x : ascii) (r : string) :
  Ascii.eqb x "%" = false -> Ascii.eqb x "+" = false ->
  unescapeBuild (String x r) encodeQueryComponent
  = String x (unescapeBuild r encodeQueryComponent).
Proof. intros Hx Hp. cbn [unescapeBuild]. now rewrite Hx, Hp. Qed.

Lemma unescapeBuild_query_plus (r : string) :
  unescapeBuild (String "+" r) encodeQueryComponent
  = String " " (unescapeBuild r encodeQueryComponent).
Proof. reflexivity. Qed.

Lemma unescapeBuild_query_hex (a b : ascii) (r : string) :
  unescapeBuild (String "%" (String a (String b r))) encodeQueryComponent
  = String (decodeHex a b) (unescapeBuild r encodeQueryComponent).
Proof. reflexivity. Qed.

Lemma unescape_escapeByte (c : ascii) (r : string) :
  unescapeCheck (escapeByte c encodeQueryComponent +:+ r) encodeQueryComponent
    = unescapeCheck r encodeQueryComponent
  /\ unescapeBuild (escapeByte c encodeQueryComponent +:+ r) encodeQueryComponent
    = String c (unescapeBuild r encodeQueryComponent).
Proof.
  pose proof (queryByteOK_all c) as H. unfold queryByteOK in H.
  destruct (escapeByte c encodeQueryComponent) as [|x [|a [|b [|]]]];
    try discriminate.
  - destruct (Ascii.eqb x "+") eqn:Hp.
    + apply Ascii.eqb_eq in Hp as ->. apply Ascii.eqb_eq in H as ->.
      split; reflexivity.
    + apply andb_true_iff in H as [Hx Hc]. apply Ascii.eqb_eq in Hx as ->.
      apply negb_true_iff in Hc. simpl String.append.
      split; [now apply unescapeCheck_query_plain
             | now apply unescapeBuild_query_plain].
  - apply andb_true_iff in H as [[[Hx Ha]%andb_true_iff Hb]%andb_true_iff Hd].
    apply Ascii.eqb_eq in Hx as ->. apply Ascii.eqb_eq in Hd.
    simpl String.append. split.
    + now apply unescapeCheck_query_hex.
    + rewrite unescapeBuild_query_hex. now rewrite Hd.
Qed.

Lemma QueryUnescape_QueryEscape (s : string) :
  QueryUnescape (QueryEscape s) = Ok s.
Proof.
  unfold QueryUnescape, QueryEscape, unescape.
  assert (H : unescapeCheck (escape s encodeQueryComponent) encodeQueryComponent = None
              /\ unescapeBuild (escape s encodeQueryComponent) encodeQueryComponent = s).
  { induction s as [|c s [IHc IHb]]; [split; reflexivity|].
    simpl escape. destruct (unescape_escapeByte c (escape s encodeQueryComponent)) as [-> ->].
    now rewrite IHb. }
  destruct H as [-> ->]. reflexivity.
Qed.

Lemma QueryEscape_avoids (s : string) :
  avoids "&=;?#/:@" (QueryEscape s) = true.
Proof.
  unfold QueryEscape. induction s as [|c s IH]; [reflexivity|].
  simpl. rewrite avoids_append, escapeByte_query_avoids, IH. reflexivity.
Qed.

Lemma QueryEscape_avoids_byte (c : ascii) (s : string) :
  inBytes c "&=;?#/:@" = true ->
  avoids (String c EmptyString) (QueryEscape s) = true.
Proof.
  intros Hc. apply avoids_weaken with (bad := "&=;?#/:@").
  - intros d Hd. simpl in Hd. rewrite orb_false_r in Hd.
    apply Ascii.eqb_eq in Hd as ->. exact Hc.
  - apply QueryEscape_avoids.
Qed.

End escape_facts.

(** ** Query strings: [Encode] and [ParseQuery] *)

Section query_facts.
Import gostrings url.

Lemma nonempty_append_cons (a : string) (c : ascii) (b : string) :
  nonempty (a +:+ String c b) = true.
Proof. destruct a; reflexivity. Qed.

Lemma nonempty_length (s : string) :
  nonempty s = true <-> 0 < String.length s.
Proof. destruct s; simpl; split; (lia || congruence || auto). Qed.

Lemma pairText_nonempty (k x : string) : nonempty (pairText k x) = true.
Proof. apply nonempty_append_cons. Qed.

Lemma pairText_avoids (c : ascii) (k x : string) :
  inBytes c "&;?#/:@" = true ->
  avoids (String c EmptyString) (pairText k x) = true.
Proof.
  intros Hc. unfold pairText.
  assert (Hc' : inBytes c "&=;?#/:@" = true).
  { simpl in *. destruct (Ascii.eqb c "&"); [reflexivity|].
    simpl in Hc. destruct (Ascii.eqb c "="); [reflexivity | exact Hc]. }
  rewrite avoids_append.
  change ("=" +:+ QueryEscape x) with (String "=" (QueryEscape x)).
  rewrite avoids_byte_cons, !(QueryEscape_avoids_byte c _ Hc').
  destruct (Ascii.eqb "=" c) eqn:E; [|reflexivity].
  apply Ascii.eqb_eq in E as <-. discriminate Hc.
Qed.

(** The buffer of [Encode] holds the segments joined by [&]. *)
Lemma fold_addSegment (segs : list string) (buf : string) :
  Forall (fun seg => nonempty seg = true) segs ->
  fold_left addSegment segs buf
  = match segs with
    | [] => buf
    | _ => addSegment buf (Join segs "&")
    end.
Proof.
  intros Hsegs. revert buf.
  induction Hsegs as [|seg segs Hseg Hsegs IH]; intros buf; [reflexivity|].
  simpl fold_left. rewrite IH. destruct segs as [|seg' segs]; [reflexivity|].
  unfold addSegment at 1 2 3.
  assert (Hne : nonempty ((if nonempty buf then buf +:+ "&" else buf) +:+ seg) = true).
  { destruct seg; [discriminate|]. apply nonempty_append_cons. }
  rewrite Hne. change (Join (seg :: seg' :: segs) "&")
    with (seg +:+ "&" +:+ Join (seg' :: segs) "&").
  now rewrite !append_assoc.
Qed.

Lemma Encode_Join (v : Values) : Encode v = Join (pairTexts v) "&".
Proof.
  unfold Encode, pairTexts. fold (sortedKeys v).
  assert (H : forall keys buf,
    fold_left (fun buf k =>
       fold_left (fun buf x =>
            (if nonempty buf then buf +:+ "&" else buf)
              +:+ QueryEscape k +:+ "=" +:+ QueryEscape x)
         (default [] (v !! k)) buf) keys buf
    = fold_left addSegment
        (flat_map (fun k => map (pairText k) (default [] (v !! k))) keys) buf).
  { induction keys as [|k keys IH]; intros buf; [reflexivity|].
    simpl. rewrite fold_left_app, IH. f_equal.
    generalize (default [] (v !! k)) as xs. clear.
    intros xs; revert buf. induction xs as [|x xs IH]; intros buf; [reflexivity|].
    simpl. now rewrite IH. }
  rewrite H, fold_addSegment.
  - destruct (flat_map _ _); [reflexivity|]. unfold addSegment. reflexivity.
  - apply Forall_forall. intros seg Hin. apply list_elem_of_In in Hin.
    apply in_flat_map in Hin as (k & _ & Hin).
    apply in_map_iff in Hin as (x & <- & _). apply pairText_nonempty.
Qed.

(** [parseQuery] visits the segments of a joined query in turn. *)
Lemma parseQuery_Join (segs : list string) :
  Forall (fun seg => nonempty seg = true /\ avoids "&" seg = true) segs ->
  forall fuel acc,
    String.length (Join segs "&") <= fuel ->
    parseQuery fuel acc (Join segs "&") = fold_left parsePair segs acc.
Proof.
  induction 1 as [|seg segs [Hne Hamp] Hsegs IH]; intros fuel acc Hfuel.
  - destruct fuel; reflexivity.
  - destruct segs as [|seg' segs].
    + simpl in *. destruct fuel as [|fuel].
      { apply nonempty_length in Hne. exfalso. lia. }
      simpl. rewrite Hne, (Cut_byte_none _ _ Hamp). destruct fuel; reflexivity.
    + change (Join (seg :: seg' :: segs) "&")
        with (seg +:+ String "&" (Join (seg' :: segs) "&")) in *.
      set (rest := Join (seg' :: segs) "&") in *.
      rewrite append_length in Hfuel.
      change (String.length (String "&" rest)) with (S (String.length rest)) in Hfuel.
      destruct fuel as [|fuel]; [exfalso; lia|].
      simpl parseQuery. rewrite nonempty_append_cons, (Cut_byte _ _ _ Hamp).
      rewrite IH by lia. reflexivity.
Qed.

(** One pair, read back: its value is added to those of its key. *)
Lemma parsePair_pairText (m : Values) (err : option error) (k x : string) :
  parsePair (m, err) (pairText k x)
  = (<[k := (default [] (m !! k) ++ [x])%list]> m, err).
Proof.
  unfold parsePair.
  rewrite (Contains_byte_none ";"), pairText_nonempty by now apply pairText_avoids.
  unfold pairText at 1. simpl negb. cbv iota.
  change ("=" +:+ QueryEscape x) with (String "=" (QueryEscape x)).
  rewrite Cut_byte by now apply QueryEscape_avoids_byte.
  now rewrite !QueryUnescape_QueryEscape.
Qed.

(** The pairs of one key, read back. *)
Lemma fold_parsePair_key (k : string) (xs : list string) :
  forall (m : Values) (err : option error),
    fold_left parsePair (map (pairText k) xs) (m, err)
    = (match xs with
       | [] => m
       | _ => <[k := (default [] (m !! k) ++ xs)%list]> m
       end, err).
Proof.
  induction xs as [|x xs IH]; intros m err; [reflexivity|].
  cbn [map fold_left]. rewrite parsePair_pairText, IH.
  destruct xs as [|x' xs]; [reflexivity|].
  rewrite lookup_insert_eq. cbn [default]. rewrite insert_insert_eq.
  unfold id. now rewrite <- app_assoc.
Qed.

Lemma fold_parsePair_keys (v : Values) (keys : list string) :
  forall (m : Values) (err : option error),
    fold_left parsePair
      (flat_map (fun k => map (pairText k) (default [] (v !! k))) keys) (m, err)
    = (fold_left
         (fun m k =>
            match default [] (v !! k) with
            | [] => m
            | xs => <[k := (default [] (m !! k) ++ xs)%list]> m
            end) keys m, err).
Proof.
  induction keys as [|k keys IH]; intros m err; [reflexivity|].
  cbn [flat_map fold_left]. rewrite fold_left_app, fold_parsePair_key, IH.
  now destruct (default [] (v !! k)).
Qed.

(** Adding the values of distinct keys to a map that has none of them
    gives those keys the values they have in [v]. *)
Lemma fold_addKey_lookup (v : Values) (keys : list string) :
  NoDup keys ->
  forall m : Values,
    (forall k, k ∈ keys -> m !! k = None) ->
    (forall k, k ∈ keys -> exists x xs, v !! k = Some (x :: xs)) ->
    forall j,
      fold_left
        (fun m k =>
           match default [] (v !! k) with
           | [] => m
           | xs => <[k := (default [] (m !! k) ++ xs)%list]> m
           end) keys m !! j
      = if decide (j ∈ keys) then v !! j else m !! j.
Proof.
  induction 1 as [|k keys Hk Hnd IH]; intros m Hm Hv j.
  - simpl. destruct (decide (j ∈ [])) as [Hin|]; [|reflexivity].
    now apply elem_of_nil in Hin.
  - simpl fold_left.
    destruct (Hv k) as (x & xs & Hkv); [left|].
    rewrite Hkv, (Hm k) by left. simpl.
    rewrite IH.
    + destruct (decide (j ∈ keys)) as [Hj|Hj].
      * rewrite decide_True by now right. reflexivity.
      * destruct (decide (j = k)) as [->|Hjk].
        -- rewrite decide_True by left. now rewrite lookup_insert_eq.
        -- rewrite decide_False by (intros [?|?]%elem_of_cons; contradiction).
           now rewrite lookup_insert_ne.
    + intros k' Hk'. rewrite lookup_insert_ne by (intros ->; contradiction).
      apply Hm. now right.
    + intros k' Hk'. apply Hv. now right.
Qed.

Lemma sortedKeys_elem_of (v : Values) (k : string) :
  k ∈ sortedKeys v <-> is_Some (v !! k).
Proof.
  unfold sortedKeys. rewrite merge_sort_Permutation, list_elem_of_fmap. split.
  - intros ([k' xs] & -> & Hin). apply elem_of_map_to_list in Hin. eauto.
  - intros [xs Hxs]. exists (k, xs). split; [reflexivity|].
    now apply elem_of_map_to_list.
Qed.

Lemma sortedKeys_NoDup (v : Values) : NoDup (sortedKeys v).
Proof.
  unfold sortedKeys. rewrite merge_sort_Permutation.
  apply NoDup_fst_map_to_list.
Qed.

(** [ParseQuery] inverts [Encode] on the maps that give every key at least
    one value (a key without value is not written by [Encode]). *)
Lemma ParseQuery_Encode (v : Values) :
  (forall k xs, v !! k = Some xs -> xs <> []) ->
  ParseQuery (Encode v) = (v, None).
Proof.
  intros Hne. unfold ParseQuery. rewrite Encode_Join, parseQuery_Join.
  - unfold pairTexts. rewrite fold_parsePair_keys. f_equal.
    apply map_eq. intros j. rewrite fold_addKey_lookup.
    + destruct (decide (j ∈ sortedKeys v)) as [Hj|Hj]; [reflexivity|].
      rewrite lookup_empty. symmetry. apply eq_None_not_Some.
      intros Hs. now apply Hj, sortedKeys_elem_of.
    + apply sortedKeys_NoDup.
    + intros k _. apply lookup_empty.
    + intros k [xs Hxs]%sortedKeys_elem_of. destruct xs as [|x xs]; [|eauto].
      now destruct (Hne _ _ Hxs).
  - apply Forall_forall. intros seg Hin. apply list_elem_of_In in Hin.
    unfold pairTexts in Hin.
    apply in_flat_map in Hin as (k & _ & Hin).
    apply in_map_iff in Hin as (x & <- & _).
    split; [apply pairText_nonempty | now apply pairText_avoids].
  - reflexivity.
Qed.

End query_facts.

(** ** The query of [Check] *)

Section check_query.
Import gostrings.

Lemma allSet_empty : allSet ∅.
Proof. intros k xs. now rewrite lookup_empty. Qed.

Lemma allSet_Set (v : url.Values) (key value : string) :
  allSet v -> allSet (url.Set_ v key value).
Proof.
  intros Hv k xs. unfold url.Set_. rewrite lookup_insert.
  case_decide; [now intros [= <-] | apply Hv].
Qed.

Lemma checkValues_allSet (f : Forensiq) (creq : CheckRequest) :
  allSet (checkValues f creq).
Proof.
  unfold checkValues, toValues.
  repeat apply allSet_Set. apply allSet_empty.
Qed.

(** The ten keys, whatever the values. *)
Lemma sortedKeys_ten (a b c d e f g h i j : list string) :
  sortedKeys (<["output" := j]> (<["ck" := i]> (<["id" := h]> (<["ua" := g]>
    (<["cmp" := f]> (<["sub" := e]> (<["seller" := d]> (<["url" := c]>
    (<["rt" := b]> (<["ip" := a]> ∅))))))))))
  = ["ck"; "cmp"; "id"; "ip"; "output"; "rt"; "seller"; "sub"; "ua"; "url"].
Proof. vm_compute. reflexivity. Qed.

Lemma lookup_ten (a b c d e f g h i j : list string) :
  let m : url.Values :=
    <["output" := j]> (<["ck" := i]> (<["id" := h]> (<["ua" := g]>
    (<["cmp" := f]> (<["sub" := e]> (<["seller" := d]> (<["url" := c]>
    (<["rt" := b]> (<["ip" := a]> ∅))))))))) in
  m !! "ip" = Some a /\ m !! "rt" = Some b /\ m !! "url" = Some c
  /\ m !! "seller" = Some d /\ m !! "sub" = Some e /\ m !! "cmp" = Some f
  /\ m !! "ua" = Some g /\ m !! "id" = Some h /\ m !! "ck" = Some i
  /\ m !! "output" = Some j.
Proof. vm_compute. repeat split. Qed.

(** [Encode] writes the values of [Check] as [checkQuery]. *)
Lemma Encode_checkValues (f : Forensiq) (creq : CheckRequest) :
  url.Encode (checkValues f creq) = checkQuery f creq.
Proof.
  rewrite Encode_Join. unfold pairTexts, checkValues, toValues, url.Set_.
  rewrite sortedKeys_ten.
  destruct (lookup_ten [net.String (IP creq)] [RequestType creq] [URL creq]
              [SellerID creq] [SubID creq] [Campaign creq] [UserAgent creq]
              [CookieID creq] [ClientKey f] ["JSON"])
    as (Hip & Hrt & Hurl & Hseller & Hsub & Hcmp & Hua & Hid & Hck & Hout).
  cbn [flat_map].
  rewrite Hip, Hrt, Hurl, Hseller, Hsub, Hcmp, Hua, Hid, Hck, Hout.
  cbn [default]. unfold id. cbn [map app Join]. unfold pairText, checkQuery.
  rewrite !append_assoc. reflexivity.
Qed.

(** Read back, the query of [Check] gives the values that were set. *)
Lemma ParseQuery_checkQuery (f : Forensiq) (creq : CheckRequest) :
  url.ParseQuery (checkQuery f creq) = (checkValues f creq, None).
Proof.
  rewrite <- Encode_checkValues. apply ParseQuery_Encode, checkValues_allSet.
Qed.

Lemma checkQuery_avoids (f : Forensiq) (creq : CheckRequest) :
  avoids "?#" (checkQuery f creq) = true.
Proof.
  assert (H : forall s, avoids "?#" (url.QueryEscape s) = true).
  { intros s. apply avoids_weaken with (bad := "&=;?#/:@");
      [|apply QueryEscape_avoids].
    intros c Hc. simpl in Hc. rewrite orb_false_r in Hc.
    apply orb_true_iff in Hc as [->%Ascii.eqb_eq | ->%Ascii.eqb_eq]; reflexivity. }
  unfold checkQuery.
  repeat (rewrite avoids_append; apply andb_true_iff; split;
          [first [apply H | reflexivity]|]).
  apply H.
Qed.

Lemma checkQuery_nonempty (f : Forensiq) (creq : CheckRequest) :
  nonempty (checkQuery f creq) = true.
Proof. reflexivity. Qed.

End check_query.

(** ** The text of a URL *)

Section url_text.
Import gostrings.

Ltac each_byte c :=
  destruct c as [[] [] [] [] [] [] [] []]; vm_compute; reflexivity.

Lemma String_parts (u : url.URL) :
  url.String_ u = urlHead u +:+ urlQuery u +:+ urlFragment u.
Proof.
  unfold url.String_, urlHead, urlQuery, urlFragment.
  set (h := if nonempty (url.Opaque u) then _ else _).
  destruct (url.ForceQuery u || nonempty (url.RawQuery u));
    destruct (nonempty (url.Fragment u));
    rewrite ?append_assoc, ?append_nil_r; reflexivity.
Qed.

(** Neither [?] nor [#] is written unescaped before the query. *)
Lemma escapeByte_head_avoids (c : ascii) (mode : url.encoding) :
  mode = url.encodeUserPassword \/ mode = url.encodeHost
  \/ mode = url.encodePath ->
  avoids "?#" (url.escapeByte c mode) = true.
Proof. intros [->|[->| ->]]; each_byte c. Qed.

Lemma escape_head_avoids (s : string) (mode : url.encoding) :
  mode = url.encodeUserPassword \/ mode = url.encodeHost
  \/ mode = url.encodePath ->
  avoids "?#" (url.escape s mode) = true.
Proof.
  intros Hmode. induction s as [|c s IH]; [reflexivity|].
  simpl. now rewrite avoids_append, escapeByte_head_avoids, IH.
Qed.

Lemma validEncoded_path_byte (c : ascii) :
  inBytes c "!$&'()*+,;=:@[]%" || negb (url.shouldEscape c url.encodePath) = true ->
  negb (inBytes c "?#") = true.
Proof.
  destruct c as [[] [] [] [] [] [] [] []]; vm_compute; intros H;
    first [reflexivity | discriminate H].
Qed.

Lemma EscapedPath_avoids (u : url.URL) :
  avoids "?#" (url.EscapedPath u) = true.
Proof.
  unfold url.EscapedPath.
  assert (Hf : avoids "?#"
                 (if String.eqb (url.Path u) "*" then "*"
                  else url.escape (url.Path u) url.encodePath) = true).
  { destruct (String.eqb (url.Path u) "*"); [reflexivity|].
    apply escape_head_avoids; auto. }
  destruct (nonempty (url.RawPath u)); [|exact Hf].
  destruct (url.validEncoded (url.RawPath u) url.encodePath) eqn:Hv; [|exact Hf].
  simpl. destruct (url.unescape (url.RawPath u) url.encodePath); [|exact Hf].
  destruct (String.eqb a (url.Path u)); [|exact Hf].
  revert Hv. apply allBytes_impl, validEncoded_path_byte.
Qed.

Lemma schemeByte_avoids (s : string) :
  allBytes schemeByte s = true -> avoids "?#" s = true.
Proof.
  apply allBytes_impl. intros c.
  destruct c as [[] [] [] [] [] [] [] []]; vm_compute; intros H;
    first [reflexivity | discriminate H].
Qed.

Lemma urlHead_avoids (u : url.URL) :
  allBytes schemeByte (url.Scheme u) = true ->
  avoids "?#" (url.Opaque u) = true ->
  avoids "?#" (urlHead u) = true.
Proof.
  intros Hs Ho. apply schemeByte_avoids in Hs. unfold urlHead.
  assert (Hui : forall ui, avoids "?#" (url.UserinfoString ui) = true).
  { intros ui. unfold url.UserinfoString.
    rewrite avoids_append, escape_head_avoids by auto.
    destruct (url.passwordSet ui); [|reflexivity].
    rewrite avoids_append, escape_head_avoids by auto. reflexivity. }
  pose proof (EscapedPath_avoids u) as Hp.
  pose proof (escape_head_avoids (url.Host u) url.encodeHost) as Hh.
  repeat match goal with
         | |- context [if ?b then _ else _] => destruct b
         | |- context [match ?o with Some _ => _ | None => _ end] => destruct o
         end;
    rewrite ?avoids_append, ?Hs, ?Ho, ?Hp, ?Hh, ?Hui by auto; reflexivity.
Qed.

(** *** What [parse] makes of a text *)

Lemma avoids_cons (c : ascii) (bad s : string) :
  avoids (String c bad) s = avoids (String c EmptyString) s && avoids bad s.
Proof.
  induction s as [|d s IH]; [reflexivity|].
  unfold avoids in *; simpl in *. rewrite IH, orb_false_r.
  destruct (Ascii.eqb d c), (inBytes d bad); simpl; try reflexivity;
    now rewrite ?andb_false_r.
Qed.

Lemma avoids_query_hash (s : string) :
  avoids "?#" s = avoids "?" s && avoids "#" s.
Proof. apply avoids_cons. Qed.

(** [getScheme] returns no scheme and the whole text, or a scheme made of
    scheme bytes and what follows its colon. *)
Lemma getSchemeFrom_spec (raw s : string) :
  forall (p : string) (i : nat) (sch rest : string),
    raw = p +:+ s -> i = String.length p ->
    allBytes schemeByte p = true ->
    url.getSchemeFrom raw i s = Ok (sch, rest) ->
    (sch = EmptyString /\ rest = raw)
    \/ (exists a, s = a +:+ String ":" rest /\ sch = p +:+ a
                  /\ allBytes schemeByte (p +:+ a) = true).
Proof.
  induction s as [|c s IH]; intros p i sch rest Hraw Hi Hp H.
  - simpl in H. injection H as <- <-. now left.
  - assert (Hrec : schemeByte c = true ->
                   url.getSchemeFrom raw (S i) s = Ok (sch, rest) ->
                   (sch = EmptyString /\ rest = raw)
                   \/ (exists a, String c s = a +:+ String ":" rest
                                 /\ sch = p +:+ a
                                 /\ allBytes schemeByte (p +:+ a) = true)).
    { intros Hc Hcall.
      destruct (IH (p +:+ String c EmptyString) (S i) sch rest) as [?|(a & -> & -> & Ha)];
        auto.
      - now rewrite append_assoc.
      - rewrite append_length, Hi. simpl. lia.
      - rewrite allBytes_append, Hp. simpl. now rewrite Hc.
      - right. exists (String c a). rewrite append_assoc in Ha |- *. auto. }
    cbn [url.getSchemeFrom] in H. unfold schemeByte in Hrec.
    destruct (isLetter c); [now apply Hrec|].
    destruct (isDigit c || inBytes c "+-.") eqn:Hd.
    { destruct (Nat.eqb i 0).
      - injection H as <- <-. now left.
      - apply Hrec; [exact Hd | exact H]. }
    destruct (Ascii.eqb c ":") eqn:Hcolon.
    + destruct (Nat.eqb i 0); [discriminate|]. injection H as <- <-.
      apply Ascii.eqb_eq in Hcolon as ->. right. exists EmptyString.
      rewrite append_nil_r, Hraw, Hi, upto_append. auto.
    + injection H as <- <-. now left.
Qed.

Lemma getScheme_spec (raw sch rest : string) :
  url.getScheme raw = Ok (sch, rest) ->
  (sch = EmptyString /\ rest = raw)
  \/ (raw = sch +:+ String ":" rest /\ allBytes schemeByte sch = true).
Proof.
  intros H.
  destruct (getSchemeFrom_spec raw raw EmptyString 0 sch rest) as [?|(a & -> & -> & Ha)];
    auto.
Qed.

(** Two ways to write a text around the first occurrence of a byte. *)
Lemma split_at_first (c : ascii) (x : string) :
  forall y h t,
    x +:+ y = h +:+ String c t ->
    avoids (String c EmptyString) x = true ->
    avoids (String c EmptyString) h = true ->
    exists h', h = x +:+ h' /\ y = h' +:+ String c t.
Proof.
  induction x as [|d x IH]; intros y h t Heq Hx Hh.
  - exists h. auto.
  - rewrite avoids_byte_cons in Hx. apply andb_true_iff in Hx as [Hd Hx].
    destruct h as [|e h].
    + simpl in Heq. injection Heq as -> _. now rewrite Ascii.eqb_refl in Hd.
    + simpl in Heq. injection Heq as -> Heq.
      rewrite avoids_byte_cons in Hh. apply andb_true_iff in Hh as [_ Hh].
      destruct (IH _ _ _ Heq Hx Hh) as (h' & -> & ->). exists h'. auto.
Qed.

(** After the scheme, a text keeps its query part as it is. *)
Lemma getScheme_rest (h q sch rest : string) :
  avoids "?#" h = true ->
  q = EmptyString \/ (exists t, q = String "?" t) ->
  url.getScheme (h +:+ q) = Ok (sch, rest) ->
  exists h', rest = h' +:+ q /\ avoids "?#" h' = true.
Proof.
  intros Hh Hq H. destruct (getScheme_spec _ _ _ H) as [[_ ->]|[Heq Hsch]].
  - exists h. auto.
  - destruct Hq as [->|[t ->]].
    + rewrite append_nil_r in Heq. subst h. exists rest.
      rewrite append_nil_r. split; [reflexivity|].
      rewrite avoids_append in Hh. apply andb_true_iff in Hh as [_ Hh].
      change (String ":" rest) with (":" +:+ rest) in Hh.
      rewrite avoids_append in Hh. now apply andb_true_iff in Hh as [_ Hh].
    + change (String ":" rest) with (":" +:+ rest) in Heq.
      rewrite <- append_assoc in Heq. symmetry in Heq.
      rewrite avoids_query_hash in Hh. apply andb_true_iff in Hh as [Hh1 Hh2].
      apply split_at_first in Heq as (h' & -> & ->); [|
        rewrite avoids_append;
        apply schemeByte_avoids in Hsch; rewrite avoids_query_hash in Hsch;
        apply andb_true_iff in Hsch as [-> _]; reflexivity | exact Hh1].
      exists h'. split; [reflexivity|].
      rewrite avoids_query_hash. rewrite avoids_append in Hh1, Hh2.
      apply andb_true_iff in Hh1 as [_ ->]. now apply andb_true_iff in Hh2 as [_ ->].
Qed.

Lemma from_append_ge (x y : string) (n : nat) :
  from (String.length x + n) (x +:+ y) = from n y.
Proof. induction x as [|c x IH]; simpl; auto. Qed.

Lemma from_avoids_ne (c : ascii) (s : string) (n : nat) :
  avoids (String c EmptyString) s = true -> from n s <> String c EmptyString.
Proof.
  intros Hs Heq. apply (avoids_from _ n) in Hs. rewrite Heq in Hs.
  rewrite avoids_byte_cons, Ascii.eqb_refl in Hs. discriminate.
Qed.

(** The two ways [parse] splits the query off, on a text that ends with
    the query part [String] writes. *)
Lemma forceQuery_split (h rq : string) (force : bool) :
  let rest := h +:+ (if force || nonempty rq then "?" +:+ rq else EmptyString) in
  avoids "?" h = true ->
  HasSuffix rest "?" && Nat.eqb (CountByte rest "?") 1 = true ->
  rq = EmptyString.
Proof.
  intros rest Hh H. subst rest.
  destruct rq as [|d rq]; [reflexivity|]. exfalso.
  rewrite orb_true_r in H. apply andb_true_iff in H as [Hsuf Hcount].
  apply Nat.eqb_eq in Hcount.
  change ("?" +:+ String d rq) with (String "?" (String d rq)) in *.
  change (String "?" (String d rq)) with ("?" +:+ String d rq) in Hcount.
  rewrite !CountByte_append, (CountByte_avoids _ _ Hh) in Hcount.
  assert (Hrq : avoids "?" (String d rq) = true).
  { apply CountByte_zero. simpl in Hcount |- *. lia. }
  unfold HasSuffix in Hsuf. apply andb_true_iff in Hsuf as [_ Hsuf].
  apply String.eqb_eq in Hsuf. revert Hsuf.
  change (String "?" (String d rq)) with ("?" +:+ String d rq).
  rewrite <- append_assoc.
  replace (String.length ((h +:+ "?") +:+ String d rq) - String.length "?")
    with (String.length (h +:+ "?") + String.length rq)
    by (rewrite !append_length; simpl; lia).
  rewrite from_append_ge. now apply from_avoids_ne.
Qed.

Lemma cutQuery_split (h rq : string) (force : bool) :
  let rest := h +:+ (if force || nonempty rq then "?" +:+ rq else EmptyString) in
  avoids "?" h = true ->
  exists found, Cut rest "?" = (h, rq, found).
Proof.
  intros rest Hh. subst rest. destruct (force || nonempty rq) eqn:Hq.
  - exists true. now apply Cut_byte.
  - apply orb_false_iff in Hq as [_ Hq]. destruct rq; [|discriminate].
    rewrite append_nil_r. exists false. now apply Cut_byte_none.
Qed.

Lemma setPath_keeps (u v : url.URL) (p : string) :
  url.setPath u p = Ok v ->
  url.Scheme v = url.Scheme u /\ url.Opaque v = url.Opaque u
  /\ url.RawQuery v = url.RawQuery u /\ url.ForceQuery v = url.ForceQuery u.
Proof.
  unfold url.setPath. destruct (url.unescape p url.encodePath); [|discriminate].
  destruct (String.eqb _ _); intros [= <-]; auto.
Qed.

Lemma setFragment_keeps (u v : url.URL) (f : string) :
  url.setFragment u f = Ok v ->
  url.Scheme v = url.Scheme u /\ url.Opaque v = url.Opaque u
  /\ url.RawQuery v = url.RawQuery u /\ url.ForceQuery v = url.ForceQuery u.
Proof.
  unfold url.setFragment. destruct (url.unescape f url.encodeFragment); [|discriminate].
  destruct (String.eqb _ _); intros [= <-]; auto.
Qed.

(** The scheme, the query and the opaque part [parse] gives a URL. *)
Lemma parse_shape (raw : string) (v : url.URL) :
  url.parse raw false = Ok v ->
  (raw = "*" /\ v = url.withPath url.zeroURL "*")
  \/ exists sch rest r rq,
       url.getScheme raw = Ok (sch, rest)
       /\ ((HasSuffix rest "?" && Nat.eqb (CountByte rest "?") 1 = true
            /\ r = upto (String.length rest - 1) rest /\ rq = EmptyString)
           \/ (exists found, Cut rest "?" = (r, rq, found)))
       /\ url.Scheme v = ToLower sch /\ url.RawQuery v = rq
       /\ (url.Opaque v = EmptyString \/ url.Opaque v = r).
Proof.
  unfold url.parse. intros H.
  destruct (url.stringContainsCTLByte raw); [discriminate|].
  simpl andb in H. rewrite andb_false_r in H.
  destruct (String.eqb raw "*") eqn:Hstar.
  { apply String.eqb_eq in Hstar. injection H as <-. now left. }
  right. destruct (url.getScheme raw) as [[sch rest]|] eqn:Hsch; [|discriminate].
  exists sch, rest.
  set (cond := HasSuffix rest "?" && Nat.eqb (CountByte rest "?") 1) in *.
  assert (Hsplit :
    exists r rq fq,
      (if cond then (upto (String.length rest - 1) rest, EmptyString, true)
       else let '(r, q, _) := Cut rest "?" in (r, q, false)) = (r, rq, fq)
      /\ ((cond = true /\ r = upto (String.length rest - 1) rest /\ rq = EmptyString)
          \/ (exists found, Cut rest "?" = (r, rq, found)))).
  { destruct cond.
    - eexists _, _, _. split; [reflexivity|]. left. auto.
    - destruct (Cut rest "?") as [[r q] found] eqn:Hcut.
      eexists _, _, _. split; [reflexivity|]. right. eauto. }
  destruct Hsplit as (r & rq & fq & Heq & Hcases). rewrite Heq in H.
  exists r, rq. split; [reflexivity|]. split; [exact Hcases|].
  repeat match type of H with
         | (if ?b then _ else _) = _ => destruct b
         | (let '(_, _) := ?x in _) = _ => destruct x
         | match ?x with Ok _ => _ | Err _ => _ end = _ =>
             destruct x as [[? ?]|]
         | Err _ = Ok _ => discriminate H
         | Ok _ = Ok _ => injection H as <-; simpl; auto
         | url.setPath _ _ = Ok _ =>
             apply setPath_keeps in H as (-> & -> & -> & _); simpl; auto
         end.
Qed.

(** *** Parsing the text of a URL again *)

Lemma urlQuery_cases (u : url.URL) :
  urlQuery u = EmptyString \/ exists t, urlQuery u = String "?" t.
Proof. unfold urlQuery. destruct (_ || _); eauto. Qed.

(** [parse] finds the query [String] wrote. *)
Lemma parse_keeps_query (u v : url.URL) :
  allBytes schemeByte (url.Scheme u) = true ->
  avoids "?#" (url.Opaque u) = true ->
  url.parse (urlHead u +:+ urlQuery u) false = Ok v ->
  url.RawQuery v = url.RawQuery u.
Proof.
  intros Hs Ho H. pose proof (urlHead_avoids u Hs Ho) as Hh.
  apply parse_shape in H as [[Hraw ->]|(sch & rest & r & rq & Hsch & Hsplit & _ & -> & _)].
  - simpl. unfold urlQuery in Hraw.
    destruct (url.ForceQuery u || nonempty (url.RawQuery u)) eqn:Hq.
    + exfalso. assert (Hbad : avoids "?" (urlHead u +:+ "?" +:+ url.RawQuery u) = true)
        by now rewrite Hraw.
      rewrite avoids_append in Hbad. apply andb_true_iff in Hbad as [_ Hbad].
      change ("?" +:+ url.RawQuery u) with (String "?" (url.RawQuery u)) in Hbad.
      rewrite avoids_byte_cons, Ascii.eqb_refl in Hbad. discriminate.
    + apply orb_false_iff in Hq as [_ Hq]. now destruct (url.RawQuery u).
  - destruct (getScheme_rest _ _ _ _ Hh (urlQuery_cases u) Hsch) as (h' & -> & Hh').
    rewrite avoids_query_hash in Hh'. apply andb_true_iff in Hh' as [Hh' _].
    unfold urlQuery in Hsplit.
    destruct Hsplit as [(Hcond & _ & ->)|[found Hcut]].
    + symmetry. exact (forceQuery_split _ _ _ Hh' Hcond).
    + destruct (cutQuery_split h' (url.RawQuery u) (url.ForceQuery u) Hh') as [found' Hcut'].
      rewrite Hcut' in Hcut. now injection Hcut as _ <- _.
Qed.

(** [Parse] finds the query [String] wrote. *)
Lemma Parse_keeps_query (u v : url.URL) :
  wfURL u ->
  url.Parse (url.String_ u) = Ok v ->
  url.RawQuery v = url.RawQuery u.
Proof.
  intros (Hs & Ho & Hq). rewrite String_parts. unfold url.Parse.
  assert (Hhq : avoids "#" (urlHead u +:+ urlQuery u) = true).
  { rewrite avoids_append. pose proof (urlHead_avoids u Hs Ho) as Hh.
    rewrite avoids_query_hash in Hh. apply andb_true_iff in Hh as [_ ->].
    unfold urlQuery. destruct (_ || _); [|reflexivity].
    change ("?" +:+ url.RawQuery u) with (String "?" (url.RawQuery u)).
    rewrite avoids_byte_cons, Hq. reflexivity. }
  assert (Hcut : exists frag found,
             Cut (urlHead u +:+ urlQuery u +:+ urlFragment u) "#"
             = (urlHead u +:+ urlQuery u, frag, found)).
  { unfold urlFragment. destruct (nonempty (url.Fragment u)).
    - rewrite <- append_assoc.
      change ("#" +:+ url.EscapedFragment u) with (String "#" (url.EscapedFragment u)).
      rewrite (Cut_byte _ _ _ Hhq). eauto.
    - rewrite append_nil_r, (Cut_byte_none _ _ Hhq). eauto. }
  destruct Hcut as (frag & found & ->).
  destruct (url.parse _ false) as [v0|] eqn:Hparse; [|discriminate].
  apply (parse_keeps_query u v0 Hs Ho) in Hparse.
  destruct (nonempty frag); simpl.
  - destruct (url.setFragment v0 frag) as [v1|] eqn:Hfrag; [|discriminate].
    intros [= <-]. apply setFragment_keeps in Hfrag as (_ & _ & -> & _).
    exact Hparse.
  - intros [= <-]. exact Hparse.
Qed.

(** The request [NewRequest] builds carries the query of the text. *)
Lemma NewRequest_keeps_query (u : url.URL) (req : http.Request) :
  wfURL u ->
  http.NewRequest "GET" (url.String_ u) = Ok req ->
  url.RawQuery (http.URL req) = url.RawQuery u.
Proof.
  intros Hwf. unfold http.NewRequest. simpl.
  destruct (url.Parse (url.String_ u)) as [v|] eqn:Hparse; [|discriminate].
  intros [= <-]. simpl. now apply Parse_keeps_query.
Qed.

Lemma NewRequest_Method (text : string) (req : http.Request) :
  http.NewRequest "GET" text = Ok req ->
  http.Method req = "GET" /\ http.Header_ req = ∅
  /\ exists v, url.Parse text = Ok v
       /\ http.URL req = url.withHost v (http.removeEmptyPort (url.Host v)).
Proof.
  unfold http.NewRequest. simpl.
  destruct (url.Parse text) as [v|]; [|discriminate].
  intros [= <-]. simpl. eauto.
Qed.

(** *** What [Parse] guarantees *)

Lemma lowerByte_schemeByte (c : ascii) :
  schemeByte c = true -> schemeByte (lowerByte c) = true.
Proof.
  destruct c as [[] [] [] [] [] [] [] []]; vm_compute; intros H;
    first [reflexivity | discriminate H].
Qed.

Lemma ToLower_schemeByte (s : string) :
  allBytes schemeByte s = true -> allBytes schemeByte (ToLower s) = true.
Proof.
  unfold ToLower. induction s as [|c s IH]; [reflexivity|]. simpl.
  intros [Hc Hs]%andb_true_iff. now rewrite lowerByte_schemeByte, IH.
Qed.

(** A text that ends with its only [?] has none before it. *)
Lemma HasSuffix_query_upto (rest : string) :
  HasSuffix rest "?" && Nat.eqb (CountByte rest "?") 1 = true ->
  avoids "?" (upto (String.length rest - 1) rest) = true.
Proof.
  intros [Hsuf Hcount]%andb_true_iff. apply Nat.eqb_eq in Hcount.
  unfold HasSuffix in Hsuf. apply andb_true_iff in Hsuf as [_ Hsuf].
  apply String.eqb_eq in Hsuf. simpl String.length in Hsuf.
  rewrite <- (upto_from (String.length rest - 1) rest), Hsuf in Hcount.
  rewrite CountByte_append in Hcount. simpl in Hcount.
  apply CountByte_zero. lia.
Qed.

Lemma parse_wf (raw : string) (v : url.URL) :
  avoids "#" raw = true ->
  url.parse raw false = Ok v -> wfURL v.
Proof.
  intros Hraw H.
  apply parse_shape in H
    as [[_ ->]|(sch & rest & r & rq & Hsch & Hsplit & HS & HQ & HO)].
  { repeat split. }
  assert (Hsr : allBytes schemeByte sch = true /\ avoids "#" rest = true).
  { destruct (getScheme_spec _ _ _ Hsch) as [[-> ->]|[-> Hs]]; [auto|].
    split; [exact Hs|]. rewrite avoids_append in Hraw.
    apply andb_true_iff in Hraw as [_ Hraw].
    change (String ":" rest) with (":" +:+ rest) in Hraw.
    rewrite avoids_append in Hraw. now apply andb_true_iff in Hraw as [_ Hraw]. }
  destruct Hsr as [Hs Hrest].
  assert (Hparts : avoids "?#" r = true /\ avoids "#" rq = true).
  { destruct Hsplit as [(Hcond & -> & ->)|[found Hcut]].
    - split; [|reflexivity]. rewrite avoids_query_hash.
      now rewrite (HasSuffix_query_upto _ Hcond), (avoids_upto _ _ _ Hrest).
    - destruct (Cut_byte_spec "?" rest) as (a & b & fl & Hcut' & Ha & Hab).
      rewrite Hcut' in Hcut. injection Hcut as <- <- _.
      rewrite avoids_query_hash, Ha.
      destruct Hab as [->|(-> & -> & _)].
      + rewrite avoids_append in Hrest. apply andb_true_iff in Hrest as [-> Hb].
        rewrite avoids_byte_cons in Hb. now apply andb_true_iff in Hb as [_ ->].
      + now rewrite Hrest. }
  destruct Hparts as [Hr Hrq]. unfold wfURL. rewrite HS, HQ.
  split; [now apply ToLower_schemeByte|]. split; [|exact Hrq].
  destruct HO as [->| ->]; [reflexivity | exact Hr].
Qed.

(** The result of [Parse] is well formed. *)
Lemma Parse_wf (text : string) (u : url.URL) :
  url.Parse text = Ok u -> wfURL u.
Proof.
  unfold url.Parse.
  destruct (Cut_byte_spec "#" text) as (a & frag & found & -> & Ha & _).
  destruct (url.parse a false) as [v0|] eqn:Hparse; [|discriminate].
  apply (parse_wf _ _ Ha) in Hparse.
  destruct (nonempty frag); simpl.
  - destruct (url.setFragment v0 frag) as [v1|] eqn:Hfrag; [|discriminate].
    intros [= <-]. apply setFragment_keeps in Hfrag as (HS & HO & HQ & _).
    unfold wfURL. now rewrite HS, HO, HQ.
  - now intros [= <-].
Qed.

Lemma wfURL_withPath (u : url.URL) (p : string) :
  wfURL u -> wfURL (url.withPath u p).
Proof. intros H. exact H. Qed.

Lemma wfURL_withRawQuery (u : url.URL) (q : string) :
  wfURL u -> avoids "#" q = true -> wfURL (url.withRawQuery u q).
Proof. intros (Hs & Ho & _) Hq. repeat split; assumption. Qed.

End url_text.

(** ** The exchanges of [Check] and [Ready] *)

Section client_facts.

(** What [Check] does once the base address is parsed and the request
    built: one exchange, and the four ways it can end. *)
Lemma Check_exchange (w : World) (f : Forensiq) (c : context.Context)
    (creq : CheckRequest) (u : url.URL) (req0 : http.Request) :
  url.Parse (Host f) = Ok u ->
  http.NewRequest "GET" (url.String_ (checkURI f creq u)) = Ok req0 ->
  let req := checkRequest c req0 in
  requests (Check w f c creq) = [req]
  /\ fst (Check w f c creq)
     = match http.Do (clientOf w f) req with
       | Err err =>
           (CheckResponse_zero,
            Some (match context.Err_ c with
                  | Some e => contextError e
                  | None => httpError err
                  end))
       | Ok resp =>
           if (http.StatusCode resp =? http.StatusForbidden)%Z
           then (CheckResponse_zero, Some ErrInvalidClientKey)
           else match Decode w (http.Body resp) CheckResponse_zero with
                | (_, Some err) => (CheckResponse_zero, Some (jsonError err))
                | (cresp, None) => (cresp, None)
                end
       end.
Proof.
  intros Hparse Hnew req. unfold Check. rewrite Hparse.
  fold (checkValues f creq). fold (checkURI f creq u). rewrite Hnew.
  unfold ctxhttp_Do. fold (clientOf w f). fold (checkRequest c req0). fold req.
  cbv beta iota zeta delta [bind emit ret deferClose].
  destruct (http.Do (clientOf w f) req) as [resp|err].
  - destruct (http.StatusCode resp =? http.StatusForbidden)%Z.
    + split; reflexivity.
    + destruct (Decode w (http.Body resp) CheckResponse_zero) as [cresp [err|]];
        split; reflexivity.
  - destruct (context.Err_ c); split; reflexivity.
Qed.

(** Without a request built, [Check] sends nothing and fails. *)
Lemma Check_no_exchange (w : World) (f : Forensiq) (c : context.Context)
    (creq : CheckRequest) :
  (forall u req0, url.Parse (Host f) = Ok u ->
     http.NewRequest "GET" (url.String_ (checkURI f creq u)) = Ok req0 -> False) ->
  requests (Check w f c creq) = []
  /\ exists err, fst (Check w f c creq) = (CheckResponse_zero, Some err)
                 /\ err <> ErrInvalidClientKey.
Proof.
  intros Hno. unfold Check.
  destruct (url.Parse (Host f)) as [u|e] eqn:Hparse.
  - fold (checkValues f creq). fold (checkURI f creq u).
    destruct (http.NewRequest "GET" (url.String_ (checkURI f creq u)))
      as [req0|[e|e]] eqn:Hnew.
    + destruct (Hno u req0 eq_refl Hnew).
    + split; [reflexivity | eexists; split; [reflexivity | discriminate]].
    + split; [reflexivity | eexists; split; [reflexivity | discriminate]].
  - split; [reflexivity | eexists; split; [reflexivity | discriminate]].
Qed.

(** A request of [Check] is the one built from the parsed base address. *)
Lemma Check_request_inv (w : World) (f : Forensiq) (c : context.Context)
    (creq : CheckRequest) (req : http.Request) :
  req ∈ requests (Check w f c creq) ->
  exists u req0,
    url.Parse (Host f) = Ok u
    /\ http.NewRequest "GET" (url.String_ (checkURI f creq u)) = Ok req0
    /\ req = checkRequest c req0.
Proof.
  intros Hreq.
  destruct (url.Parse (Host f)) as [u|e] eqn:Hparse.
  - destruct (http.NewRequest "GET" (url.String_ (checkURI f creq u)))
      as [req0|e] eqn:Hnew.
    + destruct (Check_exchange w f c creq u req0 Hparse Hnew) as [Hreqs _].
      rewrite Hreqs in Hreq. apply list_elem_of_singleton in Hreq. eauto.
    + destruct (Check_no_exchange w f c creq) as [Hnone _].
      { intros u' req0 Hp Hnew'. rewrite Hparse in Hp. injection Hp as <-.
        rewrite Hnew in Hnew'. discriminate. }
      rewrite Hnone in Hreq. now apply elem_of_nil in Hreq.
  - destruct (Check_no_exchange w f c creq) as [Hnone _].
    { intros u' req0 Hp. rewrite Hparse in Hp. discriminate. }
    rewrite Hnone in Hreq. now apply elem_of_nil in Hreq.
Qed.

(** The query a request of [Check] carries, as text and as values. *)
Lemma Check_request_query (w : World) (f : Forensiq) (c : context.Context)
    (creq : CheckRequest) (req : http.Request) :
  req ∈ requests (Check w f c creq) ->
  url.RawQuery (http.URL req) = checkQuery f creq
  /\ url.ParseQuery (url.RawQuery (http.URL req)) = (checkValues f creq, None).
Proof.
  intros (u & req0 & Hparse & Hnew & ->)%Check_request_inv.
  assert (Hhash : avoids "#" (url.Encode (checkValues f creq)) = true).
  { rewrite Encode_checkValues. pose proof (checkQuery_avoids f creq) as H.
    rewrite avoids_query_hash in H. now apply andb_true_iff in H as [_ H]. }
  assert (Hq : url.RawQuery (http.URL (checkRequest c req0)) = checkQuery f creq).
  { change (http.URL (checkRequest c req0)) with (http.URL req0).
    rewrite (NewRequest_keeps_query (checkURI f creq u) req0); [|
      apply wfURL_withRawQuery; [apply wfURL_withPath, (Parse_wf _ _ Hparse) | exact Hhash]
      | exact Hnew].
    apply Encode_checkValues. }
  split; [exact Hq|]. rewrite Hq. apply ParseQuery_checkQuery.
Qed.

End client_facts.

Section ready_facts.

(** What [Ready] does once the base address is parsed and the request
    built. *)
Lemma Ready_exchange (w : World) (f : Forensiq) (c : context.Context)
    (u : url.URL) (req0 : http.Request) :
  url.Parse (Host f) = Ok u ->
  http.NewRequest "GET" (url.String_ (url.withPath u "/ready")) = Ok req0 ->
  let req := http.WithContext req0 c in
  requests (Ready w f c) = [req]
  /\ fst (Ready w f c)
     = match http.Do (clientOf w f) req with
       | Err err =>
           (false,
            Some (match context.Err_ c with
                  | Some e => contextError e
                  | None => httpError err
                  end))
       | Ok resp =>
           match ReadAll (http.Body resp) with
           | (_, Some err) => (false, Some (ioError err))
           | (b, None) => (String.eqb b "1", None)
           end
       end.
Proof.
  intros Hparse Hnew req. unfold Ready, ctxhttp_Get. rewrite Hparse, Hnew.
  unfold ctxhttp_Do. fold (clientOf w f). fold req.
  cbv beta iota zeta delta [bind emit ret deferClose].
  destruct (http.Do (clientOf w f) req) as [resp|err].
  - destruct (ReadAll (http.Body resp)) as [b [err|]]; split; reflexivity.
  - destruct (context.Err_ c); split; reflexivity.
Qed.

Lemma Ready_no_exchange (w : World) (f : Forensiq) (c : context.Context) :
  (forall u req0, url.Parse (Host f) = Ok u ->
     http.NewRequest "GET" (url.String_ (url.withPath u "/ready")) = Ok req0 ->
     False) ->
  requests (Ready w f c) = []
  /\ exists err, fst (Ready w f c) = (false, Some err).
Proof.
  intros Hno. unfold Ready, ctxhttp_Get.
  destruct (url.Parse (Host f)) as [u|e] eqn:Hparse.
  - destruct (http.NewRequest "GET" (url.String_ (url.withPath u "/ready")))
      as [req0|[e|e]] eqn:Hnew.
    + destruct (Hno u req0 eq_refl Hnew).
    + split; [reflexivity | eauto].
    + split; [reflexivity | eauto].
  - split; [reflexivity | eauto].
Qed.

End ready_facts.

(** ** The runs of [Check] and [Ready], with their events *)

Section runs.

(** The whole of a call to [Check] once its request is built: the result
    and the events, for each way the exchange can end. *)
Lemma Check_run (w : World) (f : Forensiq) (c : context.Context)
    (creq : CheckRequest) (u : url.URL) (req0 : http.Request) :
  url.Parse (Host f) = Ok u ->
  http.NewRequest "GET" (url.String_ (checkURI f creq u)) = Ok req0 ->
  let req := checkRequest c req0 in
  Check w f c creq
  = match http.Do (clientOf w f) req with
    | Err err => ((CheckResponse_zero, Some (exchangeError c err)), [HTTPDo req])
    | Ok resp =>
        if (http.StatusCode resp =? http.StatusForbidden)%Z
        then ((CheckResponse_zero, Some ErrInvalidClientKey),
              [HTTPDo req; sampleEvent w c "check" resp;
               LogErrorf "client key is invalid%v"
                 [argField "client_key" (ClientKey f)];
               BodyClose])
        else (match Decode w (http.Body resp) CheckResponse_zero with
              | (_, Some err) => (CheckResponse_zero, Some (jsonError err))
              | (cresp, None) => (cresp, None)
              end,
              [HTTPDo req; sampleEvent w c "check" resp; BodyClose])
    end.
Proof.
  intros Hparse Hnew req. unfold Check. rewrite Hparse.
  fold (checkValues f creq). fold (checkURI f creq u). rewrite Hnew.
  unfold ctxhttp_Do. fold (clientOf w f). fold (checkRequest c req0). fold req.
  cbv beta iota zeta delta [bind emit ret deferClose].
  destruct (http.Do (clientOf w f) req) as [resp|err].
  - destruct (http.StatusCode resp =? http.StatusForbidden)%Z.
    + reflexivity.
    + destruct (Decode w (http.Body resp) CheckResponse_zero) as [cresp [err|]];
        reflexivity.
  - unfold exchangeError. destruct (context.Err_ c); reflexivity.
Qed.

(** The whole of a call to [Check] that builds no request. *)
Lemma Check_stop (w : World) (f : Forensiq) (c : context.Context)
    (creq : CheckRequest) :
  match url.Parse (Host f) with
  | Err e =>
      Check w f c creq
      = ((CheckResponse_zero, Some (urlError e)),
         [LogErrorf "error parsing the URL: %s%v"
            [argError (urlError e); argField "host" (Host f)]])
  | Ok u =>
      match http.NewRequest "GET" (url.String_ (checkURI f creq u)) with
      | Err e => Check w f c creq = ((CheckResponse_zero, Some (requestError e)), [])
      | Ok _ => True
      end
  end.
Proof.
  unfold Check. destruct (url.Parse (Host f)) as [u|e]; [|reflexivity].
  fold (checkValues f creq). fold (checkURI f creq u).
  destruct (http.NewRequest "GET" (url.String_ (checkURI f creq u))) as [req0|[e|e]];
    [exact I | reflexivity | reflexivity].
Qed.

(** The same for [Ready]. *)
Lemma Ready_run (w : World) (f : Forensiq) (c : context.Context)
    (u : url.URL) (req0 : http.Request) :
  url.Parse (Host f) = Ok u ->
  http.NewRequest "GET" (url.String_ (url.withPath u "/ready")) = Ok req0 ->
  let req := http.WithContext req0 c in
  Ready w f c
  = match http.Do (clientOf w f) req with
    | Err err => ((false, Some (exchangeError c err)), [HTTPDo req])
    | Ok resp =>
        (match ReadAll (http.Body resp) with
         | (_, Some err) => (false, Some (ioError err))
         | (b, None) => (String.eqb b "1", None)
         end,
         [HTTPDo req; sampleEvent w c "ready" resp; BodyClose])
    end.
Proof.
  intros Hparse Hnew req. unfold Ready, ctxhttp_Get. rewrite Hparse, Hnew.
  unfold ctxhttp_Do. fold (clientOf w f). fold req.
  cbv beta iota zeta delta [bind emit ret deferClose].
  destruct (http.Do (clientOf w f) req) as [resp|err].
  - destruct (ReadAll (http.Body resp)) as [b [err|]]; reflexivity.
  - unfold exchangeError. destruct (context.Err_ c); reflexivity.
Qed.

Lemma Ready_stop (w : World) (f : Forensiq) (c : context.Context) :
  match url.Parse (Host f) with
  | Err e => Ready w f c = ((false, Some (urlError e)), [])
  | Ok u =>
      match http.NewRequest "GET" (url.String_ (url.withPath u "/ready")) with
      | Err e => Ready w f c = ((false, Some (requestError e)), [])
      | Ok _ => True
      end
  end.
Proof.
  unfold Ready, ctxhttp_Get. destruct (url.Parse (Host f)) as [u|e]; [|reflexivity].
  destruct (http.NewRequest "GET" (url.String_ (url.withPath u "/ready")))
    as [req0|[e|e]]; [exact I | reflexivity | reflexivity].
Qed.

(** The request of a call does not depend on the HTTP client nor on the
    world. *)
Lemma requests_any_client (w w' : World) (f : Forensiq)
    (hc : option http.Client) (c : context.Context) (creq : CheckRequest) :
  requests (Check w' (SetHTTPClient f hc) c creq) = requests (Check w f c creq)
  /\ requests (Ready w' (SetHTTPClient f hc) c) = requests (Ready w f c).
Proof.
  split.
  - pose proof (Check_stop w f c creq) as Hs.
    pose proof (Check_stop w' (SetHTTPClient f hc) c creq) as Hs'.
    change (Host (SetHTTPClient f hc)) with (Host f) in Hs'.
    change (checkURI (SetHTTPClient f hc) creq) with (checkURI f creq) in Hs'.
    destruct (url.Parse (Host f)) as [u|e] eqn:Hparse; [|now rewrite Hs, Hs'].
    destruct (http.NewRequest "GET" (url.String_ (checkURI f creq u)))
      as [req0|e] eqn:Hnew; [|now rewrite Hs, Hs'].
    destruct (Check_exchange w f c creq u req0 Hparse Hnew) as [-> _].
    now destruct (Check_exchange w' (SetHTTPClient f hc) c creq u req0 Hparse Hnew)
      as [-> _].
  - pose proof (Ready_stop w f c) as Hs.
    pose proof (Ready_stop w' (SetHTTPClient f hc) c) as Hs'.
    change (Host (SetHTTPClient f hc)) with (Host f) in Hs'.
    destruct (url.Parse (Host f)) as [u|e] eqn:Hparse; [|now rewrite Hs, Hs'].
    destruct (http.NewRequest "GET" (url.String_ (url.withPath u "/ready")))
      as [req0|e] eqn:Hnew; [|now rewrite Hs, Hs'].
    destruct (Ready_exchange w f c u req0 Hparse Hnew) as [-> _].
    now destruct (Ready_exchange w' (SetHTTPClient f hc) c u req0 Hparse Hnew)
      as [-> _].
Qed.

End runs.

(** ** The text of an address, read back *)

Section address_text.
Import gostrings.

Lemma everyByte_complete (b : Byte.byte) : In b everyByte.
Proof.
  assert (H : existsb (Byte.eqb b) everyByte = true)
    by (destruct b; vm_compute; reflexivity).
  apply existsb_exists in H as (x & Hin & Heq).
  apply Byte.byte_dec_bl in Heq. now subst.
Qed.

Lemma decimalOK_all (x : Byte.byte) : decimalOK x = true.
Proof. destruct x; vm_compute; reflexivity. Qed.

Lemma groupOK_all (x y : Byte.byte) : groupOK x y = true.
Proof.
  assert (H : forallb (fun a => forallb (groupOK a) everyByte) everyByte = true)
    by (vm_compute; reflexivity).
  rewrite forallb_forall in H. specialize (H x (everyByte_complete x)).
  rewrite forallb_forall in H. exact (H y (everyByte_complete y)).
Qed.

(** The reader goes through a text piece by piece. *)
Lemma scanFrom_app (st : scanState) (a b : string) :
  scanFrom st (a +:+ b) = scanFrom (scanFrom st a) b.
Proof. revert st. induction a as [|c a IH]; intros st; [reflexivity|apply IH]. Qed.

(** Digits leave the groups and the mark of [::] alone. *)
Lemma scanFrom_digits (gs : list N) (c : option N) (ell : option nat) (h : string) :
  allBytes isHexByte h = true ->
  scanFrom {| groups := gs; cur := c; ellipsis := ell |} h
  = {| groups := gs;
       cur := cur (scanFrom {| groups := []; cur := c; ellipsis := None |} h);
       ellipsis := ell |}.
Proof.
  revert c. induction h as [|d h IH]; intros c Hh; [reflexivity|].
  cbn [allBytes] in Hh. apply andb_true_iff in Hh as [Hd Hh].
  cbn [scanFrom]. unfold scanStep, isHexByte in *.
  destruct (hexValue d) as [v|]; [|discriminate]. cbn [groups cur ellipsis].
  apply IH, Hh.
Qed.

(** The text of a group, read after a colon or at the start. *)
Lemma scanFrom_group (gs : list N) (ell : option nat) (x y : Byte.byte) :
  let g := groupOf x y in
  scanFrom {| groups := gs; cur := None; ellipsis := ell |} (hexOf g)
  = {| groups := gs; cur := Some g; ellipsis := ell |}
  /\ groupBytes g = [x; y]
  /\ avoids ":" (hexOf g) = true.
Proof.
  intros g. pose proof (groupOK_all x y) as H. unfold groupOK in H. fold g in H.
  repeat (apply andb_true_iff in H as [H ?]).
  split; [|split].
  - rewrite scanFrom_digits by assumption. f_equal.
    destruct (cur _) as [v|]; [|discriminate].
    f_equal. now apply N.eqb_eq.
  - unfold groupBytes. f_equal; [|f_equal]; now apply Byte.byte_dec_bl.
  - eapply allBytes_impl; [|exact H]. intros c Hc. unfold isHexByte in Hc.
    cbn [inBytes]. destruct (Ascii.eqb c ":") eqn:E; [|reflexivity].
    apply Ascii.eqb_eq in E. subst c. discriminate.
Qed.

(** The dotted form, read back. *)
Lemma readIP_dotted (a b c d : Byte.byte) :
  readIP (net.ubtoa (Byte.to_N a) +:+ "." +:+ net.ubtoa (Byte.to_N b) +:+ "."
          +:+ net.ubtoa (Byte.to_N c) +:+ "." +:+ net.ubtoa (Byte.to_N d))
  = net.IPv4 a b c d.
Proof.
  assert (H : forall x, avoids "." (net.ubtoa (Byte.to_N x)) = true
                        /\ avoids ":" (net.ubtoa (Byte.to_N x)) = true
                        /\ byteOf (readDecimal (net.ubtoa (Byte.to_N x))) = x).
  { intros x. pose proof (decimalOK_all x) as H. unfold decimalOK in H.
    apply andb_true_iff in H as [H1 H2]. apply Byte.byte_dec_bl in H2.
    split; [|split; [|exact H2]];
      (eapply avoids_weaken; [|exact H1]); intros ch Hch; simpl in Hch |- *;
      rewrite orb_false_r in Hch; rewrite Hch; now rewrite ?orb_true_r. }
  destruct (H a) as (Ha1 & Ha2 & Ha3), (H b) as (Hb1 & Hb2 & Hb3),
    (H c) as (Hc1 & Hc2 & Hc3), (H d) as (Hd1 & Hd2 & Hd3).
  set (ta := net.ubtoa (Byte.to_N a)) in *. set (tb := net.ubtoa (Byte.to_N b)) in *.
  set (tc := net.ubtoa (Byte.to_N c)) in *. set (td := net.ubtoa (Byte.to_N d)) in *.
  unfold readIP.
  assert (Hno : Contains (ta +:+ "." +:+ tb +:+ "." +:+ tc +:+ "." +:+ td) ":" = false).
  { apply Contains_byte_none. rewrite !avoids_append, Ha2, Hb2, Hc2, Hd2. reflexivity. }
  rewrite Hno.
  change ("." +:+ tb +:+ "." +:+ tc +:+ "." +:+ td)
    with (String "." (tb +:+ "." +:+ tc +:+ "." +:+ td)).
  rewrite (Cut_byte "." ta _ Ha1).
  change ("." +:+ tc +:+ "." +:+ td) with (String "." (tc +:+ "." +:+ td)).
  rewrite (Cut_byte "." tb _ Hb1).
  change ("." +:+ td) with (String "." td).
  rewrite (Cut_byte "." tc _ Hc1).
  now rewrite Ha3, Hb3, Hc3, Hd3.
Qed.

(** *** The run of zeros [String] leaves out *)

(** The inner loop stops on an even index, after zeros only. *)
Lemma zeroRun_spec (fuel : nat) (p : net.IP) (j : nat) :
  Nat.Even j ->
  Nat.Even (net.zeroRun fuel p j)
  /\ (j <= net.zeroRun fuel p j)%nat
  /\ (forall i, (j <= i < net.zeroRun fuel p j)%nat -> net.at_ p i = 0%N)
  /\ ((j < net.zeroRun fuel p j)%nat -> (net.zeroRun fuel p j <= 16)%nat).
Proof.
  revert j. induction fuel as [|fuel IH]; intros j Hj; cbn [net.zeroRun].
  { repeat split; [exact Hj | lia | intros i Hi; lia | lia]. }
  destruct (Nat.ltb j net.IPv6len && (net.at_ p j =? 0)%N
            && (net.at_ p (j + 1) =? 0)%N) eqn:Hc.
  - apply andb_true_iff in Hc as [Hc H1]. apply andb_true_iff in Hc as [Hlt H0].
    apply Nat.ltb_lt in Hlt. apply N.eqb_eq in H0, H1. unfold net.IPv6len in Hlt.
    assert (Hj2 : Nat.Even (j + 2)) by (destruct Hj as [m ->]; exists (S m); lia).
    destruct (IH (j + 2) Hj2) as (He & Hle & Hz & Hb).
    repeat split; [exact He | lia | |].
    + intros i Hi. destruct (Nat.eq_dec i j) as [->|]; [exact H0|].
      destruct (Nat.eq_dec i (j + 1)) as [->|]; [exact H1|]. apply Hz. lia.
    + intros _. destruct (Nat.eq_dec (net.zeroRun fuel p (j + 2)) (j + 2)) as [E|E].
      * rewrite E. destruct Hj as [m ->]. lia.
      * apply Hb. lia.
  - repeat split; [exact Hj | lia | intros i Hi; lia | lia].
Qed.

Lemma longestRun_spec (fuel : nat) (p : net.IP) (i : nat) (e0 e1 : Z) :
  Nat.Even i -> zerosBetween p e0 e1 ->
  zerosBetween p (fst (net.longestRun fuel p i e0 e1))
    (snd (net.longestRun fuel p i e0 e1)).
Proof.
  revert i e0 e1. induction fuel as [|fuel IH]; intros i e0 e1 Hi Hinv;
    cbn [net.longestRun]; [exact Hinv|].
  destruct (Nat.ltb i net.IPv6len) eqn:Hlt; [|exact Hinv].
  destruct (zeroRun_spec 8 p i Hi) as (He & Hle & Hz & Hb).
  cbv zeta.
  destruct (Nat.ltb i (net.zeroRun 8 p i)
            && (e1 - e0 <? Z.of_nat (net.zeroRun 8 p i) - Z.of_nat i)%Z) eqn:Hc.
  - apply andb_true_iff in Hc as [Hc _]. apply Nat.ltb_lt in Hc.
    apply IH.
    + destruct He as [m ->]. exists (S m). lia.
    + right. exists i, (net.zeroRun 8 p i).
      repeat split; [lia | auto | exact Hi | exact He | exact Hz].
  - apply IH; [|exact Hinv]. destruct Hi as [m ->]. exists (S m). lia.
Qed.

(** *** The colon form, read back *)

Lemma appendHex_hexOf (dst : string) (i : N) :
  net.appendHex dst i = dst +:+ hexOf i.
Proof. unfold net.appendHex, hexOf. now destruct (i =? 0)%N. Qed.

Lemma scan_group (gs : list N) (ell : option nat) (x y : Byte.byte) :
  scanFrom {| groups := gs; cur := None; ellipsis := ell |} (hexOf (groupOf x y))
  = {| groups := gs; cur := Some (groupOf x y); ellipsis := ell |}.
Proof. apply scanFrom_group. Qed.

Lemma groupBytes_groupOf (x y : Byte.byte) : groupBytes (groupOf x y) = [x; y].
Proof. apply (scanFrom_group [] None). Qed.

Lemma hexOf_avoids (x y : Byte.byte) : avoids ":" (hexOf (groupOf x y)) = true.
Proof. apply (scanFrom_group [] None). Qed.

Lemma Contains_colon (s : string) : Contains s ":" = negb (avoids ":" s).
Proof.
  destruct (avoids ":" s) eqn:E; [now apply Contains_byte_none|].
  unfold Contains. destruct (Index s ":") eqn:Hi; [reflexivity|].
  exfalso. revert Hi E. clear. induction s as [|c s IH]; [discriminate|].
  unfold Index; fold Index. rewrite HasPrefix_byte, avoids_byte_cons.
  destruct (Ascii.eqb c ":"); [discriminate|]. cbn [negb andb].
  destruct (Index s ":"); [discriminate|]. intros _. now apply IH.
Qed.

Lemma to_N_zero (b : Byte.byte) : Byte.to_N b = 0%N -> b = Byte.x00.
Proof. destruct b; first [reflexivity | discriminate]. Qed.

#[local] Arguments net.appendHex : simpl never.
#[local] Arguments net.group : simpl never.
#[local] Arguments hexOf : simpl never.
#[local] Arguments groupOf : simpl never.
#[local] Arguments groupBytes : simpl never.

Lemma group_pairs
    (b0 b1 b2 b3 b4 b5 b6 b7 b8 b9 b10 b11 b12 b13 b14 b15 : Byte.byte) :
  let p := [b0; b1; b2; b3; b4; b5; b6; b7; b8; b9; b10; b11; b12; b13; b14; b15] in
  net.group p 0 = groupOf b0 b1 /\ net.group p 2 = groupOf b2 b3
  /\ net.group p 4 = groupOf b4 b5 /\ net.group p 6 = groupOf b6 b7
  /\ net.group p 8 = groupOf b8 b9 /\ net.group p 10 = groupOf b10 b11
  /\ net.group p 12 = groupOf b12 b13 /\ net.group p 14 = groupOf b14 b15.
Proof. repeat split. Qed.

Lemma scanStep_colon_group (gs : list N) (v : N) (ell : option nat) :
  scanStep {| groups := gs; cur := Some v; ellipsis := ell |} ":"
  = {| groups := (gs ++ [v])%list; cur := None; ellipsis := ell |}.
Proof. reflexivity. Qed.

Lemma scanStep_colon_colon (gs : list N) (ell : option nat) :
  scanStep {| groups := gs; cur := None; ellipsis := ell |} ":"
  = {| groups := gs; cur := None; ellipsis := Some (length gs) |}.
Proof. reflexivity. Qed.

Lemma groupBytes_zero : groupBytes 0 = [Byte.x00; Byte.x00].
Proof. reflexivity. Qed.

(** The bytes of a run of zeros are zero. *)
Ltac zero_at Hz i :=
  try (let H := fresh "Hzero" in
       assert (H := to_N_zero _ (Hz i ltac:(lia)))).

Ltac zero_bytes Hz :=
  zero_at Hz 0%nat; zero_at Hz 1%nat; zero_at Hz 2%nat; zero_at Hz 3%nat;
  zero_at Hz 4%nat; zero_at Hz 5%nat; zero_at Hz 6%nat; zero_at Hz 7%nat;
  zero_at Hz 8%nat; zero_at Hz 9%nat; zero_at Hz 10%nat; zero_at Hz 11%nat;
  zero_at Hz 12%nat; zero_at Hz 13%nat; zero_at Hz 14%nat; zero_at Hz 15%nat.

(** Reads back the text written for a run that is known. *)
Ltac read_back :=
  rewrite ?appendHex_hexOf;
  unfold readIP;
  rewrite Contains_colon, ?avoids_append, ?hexOf_avoids;
  simpl avoids; rewrite ?andb_false_r; cbn [negb andb];
  unfold readGroups; rewrite ?scanFrom_app;
  repeat first [rewrite scan_group | rewrite scanStep_colon_group
               | rewrite scanStep_colon_colon | progress cbn [scanFrom app length]];
  cbn [groups cur ellipsis app length take drop repeat Nat.sub flat_map];
  rewrite ?groupBytes_groupOf, ?groupBytes_zero; reflexivity.

(** The colon form [printGroups] writes for a run of zeros, read back. *)
Lemma readIP_printGroups
    (b0 b1 b2 b3 b4 b5 b6 b7 b8 b9 b10 b11 b12 b13 b14 b15 : Byte.byte)
    (e0 e1 : Z) :
  let p := [b0; b1; b2; b3; b4; b5; b6; b7; b8; b9; b10; b11; b12; b13; b14; b15] in
  zerosBetween p e0 e1 ->
  (e0 = (-1)%Z /\ e1 = (-1)%Z) \/ (2 < e1 - e0)%Z ->
  readIP (net.printGroups 8 p e0 e1 0 EmptyString) = p.
Proof.
  intros p Hz Hgap. subst p.
  destruct (group_pairs b0 b1 b2 b3 b4 b5 b6 b7 b8 b9 b10 b11 b12 b13 b14 b15)
    as (G0 & G2 & G4 & G6 & G8 & G10 & G12 & G14). cbv zeta in *.
  assert (Hcase :
    (e0 = (-1)%Z /\ e1 = (-1)%Z)
    \/ exists a' b' : nat,
         e0 = Z.of_nat (2 * a') /\ e1 = Z.of_nat (2 * b')
         /\ (a' + 2 <= b' <= 8)%nat
         /\ forall i, (2 * a' <= i < 2 * b')%nat ->
              net.at_ [b0; b1; b2; b3; b4; b5; b6; b7; b8; b9; b10; b11; b12;
                       b13; b14; b15] i = 0%N).
  { destruct Hz as [Hz|(a & b & -> & -> & Hab & [a' ->] & [b' ->] & Hz)];
      [now left|].
    destruct Hgap as [[Ha _]|Hgap]; [lia|].
    right. exists a', b'. repeat split; [lia | lia | exact Hz]. }
  clear Hz Hgap.
  destruct Hcase as [(-> & ->)|(a' & b' & -> & -> & Hab & Hz)].
  - simpl net.printGroups. rewrite G0, G2, G4, G6, G8, G10, G12, G14.
    read_back.
  - destruct a' as [|[|[|[|[|[|[|a']]]]]]]; [| | | | | | |exfalso; lia];
      destruct b' as [|[|[|[|[|[|[|[|[|b']]]]]]]]]; try (exfalso; lia);
      simpl net.printGroups; rewrite ?Nat2Z.id;
      rewrite ?G0, ?G2, ?G4, ?G6, ?G8, ?G10, ?G12, ?G14;
      clear G0 G2 G4 G6 G8 G10 G12 G14; zero_bytes Hz; clear Hz Hab; subst;
      read_back.
Qed.

Lemma to_N_255 (b : Byte.byte) : Byte.to_N b = 255%N -> b = Byte.xff.
Proof. destruct b; first [reflexivity | discriminate]. Qed.

(** The text [String] writes for an address of four or sixteen bytes,
    read back, is the 16-byte form of the address. *)
Lemma readIP_String (ip : net.IP) :
  length ip = 4%nat \/ length ip = 16%nat ->
  readIP (net.String ip) = net.To16 ip.
Proof.
  intros [Hlen|Hlen].
  - destruct ip as [|a [|b [|c [|d [|? ?]]]]]; try discriminate.
    exact (readIP_dotted a b c d).
  - do 16 (destruct ip as [|? ip]; [discriminate|]).
    destruct ip; [|discriminate]. clear Hlen.
    unfold net.String, net.To4, net.To16.
    cbn [length Nat.eqb net.IPv4len net.IPv6len negb andb].
    destruct (net.isZeros _ && _ && _) eqn:Hmap.
    + cbn [take drop length Nat.eqb].
      apply andb_true_iff in Hmap as [Hmap H11].
      apply andb_true_iff in Hmap as [Hz H10].
      apply N.eqb_eq, to_N_255 in H10, H11.
      cbn [net.isZeros take forallb] in Hz.
      repeat (apply andb_true_iff in Hz as [?%N.eqb_eq%to_N_zero Hz]).
      subst. apply readIP_dotted.
    + cbn [length Nat.eqb].
      pose proof (longestRun_spec 8 [b; b0; b1; b2; b3; b4; b5; b6; b7; b8; b9;
                                     b10; b11; b12; b13; b14] 0 (-1) (-1)) as Hrun.
      destruct (net.longestRun 8 _ 0 (-1) (-1)) as [e0 e1].
      cbn [fst snd] in Hrun.
      assert (Hz : zerosBetween [b; b0; b1; b2; b3; b4; b5; b6; b7; b8; b9;
                                 b10; b11; b12; b13; b14] e0 e1).
      { apply Hrun; [exists 0%nat; reflexivity | left; split; reflexivity]. }
      destruct (e1 - e0 <=? 2)%Z eqn:Hgap.
      * apply readIP_printGroups; left; split; reflexivity.
      * apply Z.leb_gt in Hgap. apply readIP_printGroups; [exact Hz|right; lia].
Qed.

(** The text of an address determines the address. *)
Lemma String_inj (ip ip' : net.IP) :
  length ip = 4%nat \/ length ip = 16%nat ->
  length ip' = 4%nat \/ length ip' = 16%nat ->
  net.String ip = net.String ip' -> net.To16 ip = net.To16 ip'.
Proof.
  intros H H' Heq. rewrite <- (readIP_String ip H), <- (readIP_String ip' H').
  now rewrite Heq.
Qed.

End address_text.

(** ** The tests of forensiq_test.go, run on the model *)

Section tests.
Import forensiq_test.

(** [TestReady]: the body [1] gives true, the body [0] gives false, both
    without error. *)
Example TestReady_1 :
  fst (Ready (example.readyWorld "1") example.client context.Background)
  = (true, None).
Proof. vm_compute. reflexivity. Qed.

Example TestReady_0 :
  fst (Ready (example.readyWorld "0") example.client context.Background)
  = (false, None).
Proof. vm_compute. reflexivity. Qed.

(** [TestCheck]: without key the stub server answers 403 and [Check]
    fails with [ErrInvalidClientKey]; with the key the server answers 200
    with its JSON body, and [Check] returns what the decoder makes of that
    body, whatever the decoder is. *)
Example TestCheck_no_key :
  fst (Check example.checkWorld example.clientNoKey context.Background
         emptyRequest)
  = (CheckResponse_zero, Some ErrInvalidClientKey).
Proof. vm_compute. reflexivity. Qed.

Example TestCheck_key
    (decode : http.ReadCloser -> CheckResponse -> CheckResponse * option json.error)
    (since : Z) :
  fst (Check (withDecode example.checkWorld decode since) example.client
         context.Background emptyRequest)
  = match decode (http.Body (respond 200 checkBody)) CheckResponse_zero with
    | (_, Some err) => (CheckResponse_zero, Some (jsonError err))
    | (cresp, None) => (cresp, None)
    end.
Proof.
  assert (Hparse : url.Parse (Host example.client) = Ok example.baseURL)
    by (vm_compute; reflexivity).
  destruct (http.NewRequest "GET"
              (url.String_ (checkURI example.client emptyRequest example.baseURL)))
    as [req0|e] eqn:Hnew; [|vm_compute in Hnew; discriminate].
  destruct (Check_exchange (withDecode example.checkWorld decode since)
              example.client context.Background emptyRequest _ _ Hparse Hnew)
    as [_ ->].
  vm_compute in Hnew. injection Hnew as <-. reflexivity.
Qed.

(** The request of the README, as it leaves the client. *)
Example README_request :
  map (fun req => url.String_ (http.URL req))
    (requests (Check example.checkWorld
                 {| ClientKey := "xxx"; Host := "http://api.forensiq.com";
                    httpClient := None |}
                 context.Background readmeRequest))
  = ["http://api.forensiq.com/check?ck=xxx&cmp=217673313&id=2acc8d3b1a08cf1dd19185d809d04737&ip=8.8.8.8&output=JSON&rt=display&seller=123&sub=78679676&ua=Mozilla%2F5.0+%28Macintosh%3B+Intel+Mac+OS+X+10_11_2%29+AppleWebKit%2F537.36+%28KHTML%2C+like+Gecko%29+Chrome%2F47.0.2526.106+Safari%2F537.36&url=http%3A%2F%2Fwww.dailymotion.com%2Fvideo%2Fx3llhsx_ces-2016-wired-s-favorite-gadgets-of-ces_tech"].
Proof. vm_compute. reflexivity. Qed.

(** A base address that parses while the URL built from it does not:
    [http.NewRequest] fails and no request is sent. *)
Example NewRequest_rejects :
  (exists u, url.Parse (Host example.clientZone) = Ok u)
  /\ Check example.checkWorld example.clientZone context.Background emptyRequest
     = (CheckResponse_zero,
        Some (urlError (url.Error "parse"
                          "http://[fe80::1%25%C3%A9]/check?ck=123abc&cmp=&id=&ip=%3Cnil%3E&output=JSON&rt=&seller=&sub=&ua=&url="
                          (url.EscapeError "%C3"))), [])
  /\ Ready example.checkWorld example.clientZone context.Background
     = (false,
        Some (urlError (url.Error "parse" "http://[fe80::1%25%C3%A9]/ready"
                          (url.EscapeError "%C3"))), []).
Proof.
  split; [eexists; vm_compute; reflexivity|]. split; vm_compute; reflexivity.
Qed.

(** The text of some addresses, as [net.IP.String] writes them. *)
Example IP_String_examples :
  net.String [] = "<nil>"
  /\ net.String (net.IPv4 Byte.x08 Byte.x08 Byte.x08 Byte.x08) = "8.8.8.8"
  /\ net.String [Byte.x7f; Byte.x00; Byte.x00; Byte.x01] = "127.0.0.1"
  /\ net.String net.IPv6zero = "::"
  /\ net.String [Byte.x20; Byte.x01; Byte.x0d; Byte.xb8; Byte.x00; Byte.x00;
                 Byte.x00; Byte.x00; Byte.x00; Byte.x00; Byte.x00; Byte.x00;
                 Byte.x00; Byte.x00; Byte.x00; Byte.x01] = "2001:db8::1".
Proof. vm_compute. repeat split. Qed.

End tests.

(** * The claims *)

Section query_claims.

Lemma checkValues_lookup (f : Forensiq) (creq : CheckRequest) :
  let v := checkValues f creq in
  v !! "ip" = Some [net.String (IP creq)]
  /\ v !! "rt" = Some [RequestType creq]
  /\ v !! "url" = Some [URL creq]
  /\ v !! "seller" = Some [SellerID creq]
  /\ v !! "sub" = Some [SubID creq]
  /\ v !! "cmp" = Some [Campaign creq]
  /\ v !! "ua" = Some [UserAgent creq]
  /\ v !! "id" = Some [CookieID creq]
  /\ v !! "ck" = Some [ClientKey f]
  /\ v !! "output" = Some ["JSON"].
Proof. apply lookup_ten. Qed.

Lemma Check_request_values (w : World) (f : Forensiq) (c : context.Context)
    (creq : CheckRequest) (req : http.Request) :
  req ∈ requests (Check w f c creq) ->
  url.Query (http.URL req) = checkValues f creq.
Proof.
  intros [_ H]%Check_request_query. unfold url.Query. now rewrite H.
Qed.

(** Membership of the first request, for the closed examples. *)
Lemma firstRequest_elem_of {A : Type} (m : M A) :
  requests m <> [] -> firstRequest m ∈ requests m.
Proof.
  unfold firstRequest. destruct (requests m); [congruence|]. intros _. left.
Qed.

(** C1 (key injection).  Every request [Check] hands to the HTTP client
    carries, in the query of its URL, the parameter [ck] with one value,
    the configured client key, and the parameter [output] with one value,
    [JSON], whatever the fields of the [CheckRequest] are and whatever the
    key is: both parameters are present also when the key is empty. *)
Theorem C1_key_injection (w : World) (f : Forensiq) (c : context.Context)
    (creq : CheckRequest) (req : http.Request) :
  req ∈ requests (Check w f c creq) ->
  url.Query (http.URL req) !! "ck" = Some [ClientKey f]
  /\ url.Query (http.URL req) !! "output" = Some ["JSON"]
  /\ url.Get (url.Query (http.URL req)) "ck" = ClientKey f
  /\ url.Get (url.Query (http.URL req)) "output" = "JSON".
Proof.
  intros Hreq. rewrite (Check_request_values _ _ _ _ _ Hreq).
  destruct (checkValues_lookup f creq) as (_ & _ & _ & _ & _ & _ & _ & _ & Hck & Hout).
  unfold url.Get. now rewrite Hck, Hout.
Qed.

(** C1 on the first request of [TestCheck]: an empty key and all the
    optional fields empty; the parameter [ck] is there, with an empty
    value. *)
Lemma C1_witness :
  let m := Check example.checkWorld example.clientNoKey context.Background
             forensiq_test.emptyRequest in
  firstRequest m ∈ requests m
  /\ url.Query (http.URL (firstRequest m)) !! "ck" = Some [EmptyString]
  /\ url.Query (http.URL (firstRequest m)) !! "output" = Some ["JSON"].
Proof.
  intros m.
  assert (H : firstRequest m ∈ requests m).
  { apply firstRequest_elem_of. vm_compute. discriminate. }
  split; [exact H|].
  destruct (C1_key_injection _ _ _ _ _ H) as (Hck & Hout & _).
  split; assumption.
Defined.



(** C10 (all keys present, deterministic query).  In the query of every
    request of [Check] each of the eight keys [ip], [rt], [url], [seller],
    [sub], [cmp], [ua], [id] is present with exactly one value, the text of
    its field, also when that text is empty; and the query is the text
    [checkQuery], a function of the client key and of the request alone:
    any two requests made for the same configuration and [CheckRequest]
    carry the same query. *)
Theorem C10_all_keys_present (w : World) (f : Forensiq) (c : context.Context)
    (creq : CheckRequest) (req : http.Request) :
  req ∈ requests (Check w f c creq) ->
  let q := url.Query (http.URL req) in
  (q !! "ip" = Some [net.String (IP creq)]
   /\ q !! "rt" = Some [RequestType creq]
   /\ q !! "url" = Some [URL creq]
   /\ q !! "seller" = Some [SellerID creq]
   /\ q !! "sub" = Some [SubID creq]
   /\ q !! "cmp" = Some [Campaign creq]
   /\ q !! "ua" = Some [UserAgent creq]
   /\ q !! "id" = Some [CookieID creq])
  /\ url.RawQuery (http.URL req) = checkQuery f creq
  /\ (forall w' c' req',
        req' ∈ requests (Check w' f c' creq) ->
        url.RawQuery (http.URL req') = url.RawQuery (http.URL req)).
Proof.
  intros Hreq q. subst q. rewrite (Check_request_values _ _ _ _ _ Hreq).
  destruct (checkValues_lookup f creq)
    as (Hip & Hrt & Hurl & Hseller & Hsub & Hcmp & Hua & Hid & _).
  destruct (Check_request_query _ _ _ _ _ Hreq) as [Hq _].
  split; [repeat split; assumption|]. split; [exact Hq|].
  intros w' c' req' [Hq' _]%Check_request_query. now rewrite Hq, Hq'.
Qed.

(** C10 on the empty request of [TestCheck]: the eight keys are there, with
    empty values (but for the address). *)
Lemma C10_witness :
  let m := Check example.checkWorld example.client context.Background
             forensiq_test.emptyRequest in
  firstRequest m ∈ requests m
  /\ url.Query (http.URL (firstRequest m)) !! "rt" = Some [EmptyString]
  /\ url.Query (http.URL (firstRequest m)) !! "id" = Some [EmptyString]
  /\ url.RawQuery (http.URL (firstRequest m))
     = "ck=123abc&cmp=&id=&ip=%3Cnil%3E&output=JSON&rt=&seller=&sub=&ua=&url=".
Proof.
  intros m.
  assert (H : firstRequest m ∈ requests m).
  { apply firstRequest_elem_of. vm_compute. discriminate. }
  split; [exact H|].
  destruct (C10_all_keys_present _ _ _ _ _ H)
    as ((_ & Hrt & _ & _ & _ & _ & _ & Hid) & Hq & _).
  repeat split; assumption.
Defined.

(** C7, as the specification states it, fails on the empty request: the
    [ip] parameter [Check] sends for it is not the empty string. *)
Lemma C7_counterexample :
  IP forensiq_test.emptyRequest = []
  /\ ~ (forall req,
          req ∈ requests (Check example.checkWorld example.client
                            context.Background forensiq_test.emptyRequest) ->
          url.Get (url.Query (http.URL req)) "ip" = EmptyString).
Proof.
  split; [reflexivity|]. intros Hclaim.
  set (req := firstRequest (Check example.checkWorld example.client
                              context.Background forensiq_test.emptyRequest)).
  assert (Hsent : url.Get (url.Query (http.URL req)) "ip" = "<nil>")
    by (vm_compute; reflexivity).
  rewrite (Hclaim req) in Hsent; [discriminate Hsent|].
  apply firstRequest_elem_of. vm_compute. discriminate.
Qed.

(** C7, amended.  The client does not reject an empty or all-zeros
    address: when the base address parses, [Check] hands over exactly one
    request if [http.NewRequest] accepts the URL built, and otherwise none,
    returning the error of [http.NewRequest].  For a [CheckRequest] whose
    IP address is empty (nil) the [ip] parameter of that request is present
    with the text [<nil>] that [net.IP.String] gives an empty address,
    written %3Cnil%3E in the query; the all-zeros addresses are sent in
    their usual text: [0.0.0.0] for the four-byte and for the sixteen-byte
    form of the IPv4 address, [::] (written %3A%3A) for the IPv6 one. *)
Theorem C7_empty_address (w : World) (f : Forensiq) (c : context.Context)
    (creq : CheckRequest) (u : url.URL) (text sent : string) :
  (IP creq = [] /\ text = "<nil>" /\ sent = "%3Cnil%3E")
  \/ (IP creq = [Byte.x00; Byte.x00; Byte.x00; Byte.x00]
      /\ text = "0.0.0.0" /\ sent = "0.0.0.0")
  \/ (IP creq = net.IPv4zero /\ text = "0.0.0.0" /\ sent = "0.0.0.0")
  \/ (IP creq = net.IPv6zero /\ text = "::" /\ sent = "%3A%3A") ->
  url.Parse (Host f) = Ok u ->
  match http.NewRequest "GET"
          (url.String_ (url.withRawQuery (url.withPath u "/check")
                          (checkQuery f creq))) with
  | Ok _ =>
      exists req,
        requests (Check w f c creq) = [req]
        /\ url.Query (http.URL req) !! "ip" = Some [text]
        /\ url.Get (url.Query (http.URL req)) "ip" = text
        /\ url.RawQuery (http.URL req)
           = "ck=" +:+ url.QueryEscape (ClientKey f)
             +:+ "&cmp=" +:+ url.QueryEscape (Campaign creq)
             +:+ "&id=" +:+ url.QueryEscape (CookieID creq)
             +:+ "&ip=" +:+ sent
             +:+ "&output=JSON"
             +:+ "&rt=" +:+ url.QueryEscape (RequestType creq)
             +:+ "&seller=" +:+ url.QueryEscape (SellerID creq)
             +:+ "&sub=" +:+ url.QueryEscape (SubID creq)
             +:+ "&ua=" +:+ url.QueryEscape (UserAgent creq)
             +:+ "&url=" +:+ url.QueryEscape (URL creq)
  | Err e =>
      requests (Check w f c creq) = []
      /\ fst (Check w f c creq) = (CheckResponse_zero, Some (requestError e))
  end.
Proof.
  intros Hip Hparse.
  assert (Htext : net.String (IP creq) = text /\ url.QueryEscape text = sent).
  { destruct Hip as [(-> & -> & ->)|[(-> & -> & ->)|[(-> & -> & ->)|(-> & -> & ->)]]];
      split; vm_compute; reflexivity. }
  destruct Htext as [Htext Hsent].
  rewrite <- Encode_checkValues. fold (checkURI f creq u).
  destruct (http.NewRequest "GET" (url.String_ (checkURI f creq u)))
    as [req0|e] eqn:Hnew.
  - destruct (Check_exchange w f c creq u req0 Hparse Hnew) as [Hreqs _].
    exists (checkRequest c req0). split; [exact Hreqs|].
    assert (Hreq : checkRequest c req0 ∈ requests (Check w f c creq))
      by (rewrite Hreqs; left).
    rewrite (Check_request_values _ _ _ _ _ Hreq).
    destruct (checkValues_lookup f creq) as (Hlook & _).
    destruct (Check_request_query _ _ _ _ _ Hreq) as [Hq _].
    unfold url.Get. rewrite Hlook, Htext. split; [reflexivity|].
    split; [reflexivity|]. rewrite Hq. unfold checkQuery.
    now rewrite Htext, Hsent.
  - pose proof (Check_stop w f c creq) as Hstop.
    rewrite Hparse, Hnew in Hstop. rewrite Hstop. split; reflexivity.
Qed.

(** C7, amended, on the empty request of [TestCheck]: the address is nil,
    the request is sent, with [<nil>] for the address. *)
Lemma C7_witness :
  let f := example.client in
  let m := Check example.checkWorld f context.Background
             forensiq_test.emptyRequest in
  IP forensiq_test.emptyRequest = []
  /\ url.Parse (Host f) = Ok example.baseURL
  /\ exists req,
       requests m = [req]
       /\ url.Query (http.URL req) !! "ip" = Some ["<nil>"]
       /\ url.RawQuery (http.URL req)
          = "ck=123abc&cmp=&id=&ip=%3Cnil%3E&output=JSON&rt=&seller=&sub=&ua=&url=".
Proof.
  intros f m.
  assert (Hparse : url.Parse (Host f) = Ok example.baseURL)
    by (vm_compute; reflexivity).
  split; [reflexivity|]. split; [exact Hparse|].
  pose proof (C7_empty_address example.checkWorld f context.Background
                forensiq_test.emptyRequest example.baseURL "<nil>" "%3Cnil%3E"
                (or_introl (conj eq_refl (conj eq_refl eq_refl))) Hparse) as H.
  hnf in H. destruct H as (req & Hreq & Hip & _ & Hq). exists req.
  split; [exact Hreq|]. split; [exact Hip|]. exact Hq.
Defined.

End query_claims.

Section outcome_claims.

(** Either [Check] built its request, or it sent nothing. *)
Lemma Check_cases (w : World) (f : Forensiq) (c : context.Context)
    (creq : CheckRequest) :
  (exists u req0,
     url.Parse (Host f) = Ok u
     /\ http.NewRequest "GET" (url.String_ (checkURI f creq u)) = Ok req0)
  \/ (requests (Check w f c creq) = []
      /\ exists err, fst (Check w f c creq) = (CheckResponse_zero, Some err)
                     /\ err <> ErrInvalidClientKey).
Proof.
  destruct (url.Parse (Host f)) as [u|e] eqn:Hparse.
  - destruct (http.NewRequest "GET" (url.String_ (checkURI f creq u)))
      as [req0|e] eqn:Hnew; [left; eauto|].
    right. apply Check_no_exchange. intros u' req0 Hp Hnew'.
    rewrite Hparse in Hp. injection Hp as <-. rewrite Hnew in Hnew'. discriminate.
  - right. apply Check_no_exchange. intros u' req0 Hp.
    rewrite Hparse in Hp. discriminate.
Qed.

Lemma Ready_cases (w : World) (f : Forensiq) (c : context.Context) :
  (exists u req0,
     url.Parse (Host f) = Ok u
     /\ http.NewRequest "GET" (url.String_ (url.withPath u "/ready")) = Ok req0)
  \/ (requests (Ready w f c) = []
      /\ exists err, fst (Ready w f c) = (false, Some err)).
Proof.
  destruct (url.Parse (Host f)) as [u|e] eqn:Hparse.
  - destruct (http.NewRequest "GET" (url.String_ (url.withPath u "/ready")))
      as [req0|e] eqn:Hnew; [left; eauto|].
    right. apply Ready_no_exchange. intros u' req0 Hp Hnew'.
    rewrite Hparse in Hp. injection Hp as <-. rewrite Hnew in Hnew'. discriminate.
  - right. apply Ready_no_exchange. intros u' req0 Hp.
    rewrite Hparse in Hp. discriminate.
Qed.

(** C2 (403 short circuit).  [Check] returns [ErrInvalidClientKey] exactly
    when the client answered its request with status 403; in that case the
    result is the zero response with that error whatever the decoder would
    make of the body (the decoder of the world can be replaced by any
    other), so the body is not decoded. *)
Theorem C2_invalid_client_key (w : World) (f : Forensiq) (c : context.Context)
    (creq : CheckRequest) :
  (snd (fst (Check w f c creq)) = Some ErrInvalidClientKey
   <-> answered403 w f c creq)
  /\ (answered403 w f c creq ->
      forall decode since,
        fst (Check (withDecode w decode since) f c creq)
        = (CheckResponse_zero, Some ErrInvalidClientKey)).
Proof.
  destruct (Check_cases w f c creq) as [(u & req0 & Hparse & Hnew)|(Hnone & err & Herr & Hne)].
  - destruct (Check_exchange w f c creq u req0 Hparse Hnew) as [Hreqs Hfst].
    split; [split|].
    + rewrite Hfst. unfold answered403. rewrite Hreqs.
      destruct (http.Do (clientOf w f) (checkRequest c req0)) as [resp|e] eqn:Hdo.
      * destruct (http.StatusCode resp =? http.StatusForbidden)%Z eqn:Hs.
        -- intros _. apply Z.eqb_eq in Hs. eauto.
        -- destruct (Decode w (http.Body resp) CheckResponse_zero) as [cresp [e|]];
             discriminate.
      * destruct (context.Err_ c); discriminate.
    + intros (req & resp & Hreq & Hdo & Hs). rewrite Hreqs in Hreq.
      injection Hreq as <-. rewrite Hfst, Hdo.
      apply Z.eqb_eq in Hs. now rewrite Hs.
    + intros (req & resp & Hreq & Hdo & Hs) decode since.
      rewrite Hreqs in Hreq. injection Hreq as <-.
      destruct (Check_exchange (withDecode w decode since) f c creq u req0 Hparse Hnew)
        as [_ Hfst'].
      rewrite Hfst'. change (clientOf (withDecode w decode since) f) with (clientOf w f).
      rewrite Hdo. apply Z.eqb_eq in Hs. now rewrite Hs.
  - assert (Hno : ~ answered403 w f c creq).
    { intros (req & resp & Hreq & _). rewrite Hnone in Hreq. discriminate. }
    split; [split|].
    + rewrite Herr. simpl. intros [= ->]. now destruct Hne.
    + intros H. now destruct Hno.
    + intros H. now destruct Hno.
Qed.

(** C2 on the first call of [TestCheck]: no key, the server answers 403. *)
Lemma C2_witness :
  answered403 example.checkWorld example.clientNoKey context.Background
    forensiq_test.emptyRequest
  /\ snd (fst (Check example.checkWorld example.clientNoKey context.Background
                 forensiq_test.emptyRequest)) = Some ErrInvalidClientKey.
Proof.
  assert (H : answered403 example.checkWorld example.clientNoKey
                context.Background forensiq_test.emptyRequest).
  { eexists _, _. split; [vm_compute; reflexivity|].
    split; vm_compute; reflexivity. }
  split; [exact H|].
  exact (proj2 (proj1 (C2_invalid_client_key _ _ _ _)) H).
Defined.

(** C5 (no partial result).  Whenever [Check] returns an error the response
    it returns with it is the zero value, also when the decoder had
    written some fields before it failed; whenever [Ready] returns an
    error the boolean it returns with it is [false]. *)
Theorem C5_no_partial_result (w : World) (f : Forensiq) (c : context.Context)
    (creq : CheckRequest) :
  (snd (fst (Check w f c creq)) <> None ->
   fst (fst (Check w f c creq)) = CheckResponse_zero)
  /\ (snd (fst (Ready w f c)) <> None -> fst (fst (Ready w f c)) = false).
Proof.
  split.
  - destruct (Check_cases w f c creq) as [(u & req0 & Hparse & Hnew)|(_ & err & -> & _)];
      [|reflexivity].
    destruct (Check_exchange w f c creq u req0 Hparse Hnew) as [_ ->].
    destruct (http.Do (clientOf w f) (checkRequest c req0)) as [resp|e];
      [|reflexivity].
    destruct (http.StatusCode resp =? http.StatusForbidden)%Z; [reflexivity|].
    destruct (Decode w (http.Body resp) CheckResponse_zero) as [cresp [e|]];
      [reflexivity|]. intros H. now destruct H.
  - destruct (Ready_cases w f c) as [(u & req0 & Hparse & Hnew)|(_ & err & ->)];
      [|reflexivity].
    destruct (Ready_exchange w f c u req0 Hparse Hnew) as [_ ->].
    destruct (http.Do (clientOf w f) (http.WithContext req0 c)) as [resp|e];
      [|reflexivity].
    destruct (ReadAll (http.Body resp)) as [b [e|]]; [reflexivity|].
    intros H. now destruct H.
Qed.

(** C5 on a server that answers 500 with a body that is not JSON: the
    decoder of the example fails after writing fields, [Check] returns the
    zero value. *)
Lemma C5_witness :
  let w := forensiq_test.world (example.always 500 "oops") in
  snd (fst (Check w example.client context.Background forensiq_test.emptyRequest))
    <> None
  /\ fst (Decode w (http.Body (forensiq_test.respond 500 "oops")) CheckResponse_zero)
     <> CheckResponse_zero
  /\ fst (fst (Check w example.client context.Background forensiq_test.emptyRequest))
     = CheckResponse_zero.
Proof.
  intros w.
  assert (H : snd (fst (Check w example.client context.Background
                          forensiq_test.emptyRequest)) <> None).
  { vm_compute. discriminate. }
  split; [exact H|]. split; [vm_compute; discriminate|].
  exact (proj1 (C5_no_partial_result w _ _ _) H).
Defined.

(** C6 (malformed base address).  When [url.Parse] rejects the base
    address, [Check] and [Ready] both return the error of the parser, with
    the zero response and [false], and hand no request to the HTTP client:
    [Check] only writes a log message, [Ready] does nothing else. *)
Theorem C6_malformed_base_address (w : World) (f : Forensiq)
    (c : context.Context) (creq : CheckRequest) (e : url.error) :
  url.Parse (Host f) = Err e ->
  (fst (Check w f c creq) = (CheckResponse_zero, Some (urlError e))
   /\ requests (Check w f c creq) = []
   /\ snd (Check w f c creq)
      = [LogErrorf "error parsing the URL: %s%v"
           [argError (urlError e); argField "host" (Host f)]])
  /\ (fst (Ready w f c) = (false, Some (urlError e))
      /\ requests (Ready w f c) = []
      /\ snd (Ready w f c) = []).
Proof.
  intros Hparse. unfold Check, Ready. rewrite Hparse. repeat split.
Qed.

(** C6 on a base address without scheme before its colon. *)
Lemma C6_witness :
  url.Parse (Host example.clientBadHost)
  = Err (url.Error "parse" "://api.forensiq.com"
           (url.errorString "missing protocol scheme"))
  /\ requests (Check example.checkWorld example.clientBadHost context.Background
                forensiq_test.readmeRequest) = []
  /\ requests (Ready example.checkWorld example.clientBadHost context.Background) = [].
Proof.
  assert (H : url.Parse (Host example.clientBadHost)
              = Err (url.Error "parse" "://api.forensiq.com"
                       (url.errorString "missing protocol scheme")))
    by (vm_compute; reflexivity).
  split; [exact H|].
  destruct (C6_malformed_base_address example.checkWorld _ context.Background
              forensiq_test.readmeRequest _ H) as ((_ & Hc & _) & (_ & Hr & _)).
  split; assumption.
Defined.

End outcome_claims.

Section request_claims.
Import gostrings.

(** C3 (readiness).  When the client answered the request of [Ready] with
    a response, [Ready] returns [true] exactly when the whole body was read
    and is the one byte [1]; when the body was read it returns the result
    of comparing it with [1], without error; and the outcome depends on the
    body alone: a response with the same body and any status gives the
    same outcome. *)
Theorem C3_ready_body (w : World) (f : Forensiq) (c : context.Context)
    (req : http.Request) (resp : http.Response) :
  requests (Ready w f c) = [req] ->
  http.Do (clientOf w f) req = Ok resp ->
  (fst (fst (Ready w f c)) = true <-> ReadAll (http.Body resp) = ("1", None))
  /\ (http.readErr (http.Body resp) = None ->
      fst (Ready w f c) = (String.eqb (http.data (http.Body resp)) "1", None))
  /\ (forall w' req' resp',
        requests (Ready w' f c) = [req'] ->
        http.Do (clientOf w' f) req' = Ok resp' ->
        http.Body resp' = http.Body resp ->
        fst (Ready w' f c) = fst (Ready w f c)).
Proof.
  assert (Hshape : forall w0 req0' resp0,
            requests (Ready w0 f c) = [req0'] ->
            http.Do (clientOf w0 f) req0' = Ok resp0 ->
            fst (Ready w0 f c)
            = match ReadAll (http.Body resp0) with
              | (_, Some err) => (false, Some (ioError err))
              | (b, None) => (String.eqb b "1", None)
              end).
  { intros w0 req0' resp0 Hreq Hdo.
    destruct (Ready_cases w0 f c) as [(u & req0 & Hparse & Hnew)|(Hnone & _)].
    - destruct (Ready_exchange w0 f c u req0 Hparse Hnew) as [Hreqs ->].
      rewrite Hreqs in Hreq. injection Hreq as <-. now rewrite Hdo.
    - rewrite Hnone in Hreq. discriminate. }
  intros Hreq Hdo. rewrite (Hshape w req resp Hreq Hdo).
  unfold ReadAll. split; [|split].
  - destruct (http.readErr (http.Body resp)) as [e|]; simpl.
    + split; [discriminate | intros [=]].
    + rewrite String.eqb_eq. split; [now intros -> | now intros [= ->]].
  - now intros ->.
  - intros w' req' resp' Hreq' Hdo' Hbody.
    rewrite (Hshape w' req' resp' Hreq' Hdo'). unfold ReadAll. now rewrite Hbody.
Qed.

(** C3 on a server that answers 500 with the body [1]: [Ready] is true. *)
Lemma C3_witness :
  let w := forensiq_test.world (example.always 500 "1") in
  let m := Ready w example.client context.Background in
  requests m = [firstRequest m]
  /\ http.Do (clientOf w example.client) (firstRequest m)
     = Ok (forensiq_test.respond 500 "1")
  /\ fst m = (true, None).
Proof.
  intros w m.
  assert (Hreq : requests m = [firstRequest m]) by (vm_compute; reflexivity).
  assert (Hdo : http.Do (clientOf w example.client) (firstRequest m)
                = Ok (forensiq_test.respond 500 "1")) by reflexivity.
  split; [exact Hreq|]. split; [exact Hdo|].
  exact (proj1 (proj2 (C3_ready_body w _ _ _ _ Hreq Hdo)) eq_refl).
Defined.

(** The text of a URL without opaque part ends with its path, its query
    and its fragment (here for a path that needs no escaping and a URL that
    keeps no escaped path of its own). *)
Lemma String_nonopaque (u : url.URL) (p : string) :
  url.Opaque u = EmptyString -> url.RawPath u = EmptyString ->
  String.eqb p "*" = false -> url.escape p url.encodePath = p ->
  exists pre,
    url.String_ (url.withPath u p)
    = pre +:+ p +:+ urlQuery u +:+ urlFragment u.
Proof.
  intros Ho Hr Hstar Hesc. rewrite String_parts.
  assert (Hpath : url.EscapedPath (url.withPath u p) = p).
  { unfold url.EscapedPath. simpl. now rewrite Hr, Hstar, Hesc. }
  assert (Hhead : exists pre, urlHead (url.withPath u p) = pre +:+ p).
  { unfold urlHead. simpl url.Opaque. rewrite Ho. cbn [nonempty]. cbv zeta.
    rewrite Hpath. eexists. reflexivity. }
  destruct Hhead as [pre ->]. exists pre.
  rewrite append_assoc. reflexivity.
Qed.

(** The text of a URL with scheme, host and the path /check, without
    userinfo and without an escaped path kept from the base address. *)
Lemma String_hierarchical (u : url.URL) (q : string) :
  url.Opaque u = EmptyString -> url.User u = None ->
  nonempty (url.Host u) = true -> url.RawPath u = EmptyString ->
  nonempty q = true ->
  url.String_ (url.withRawQuery (url.withPath u "/check") q)
  = (if nonempty (url.Scheme u) then url.Scheme u +:+ ":" else EmptyString)
    +:+ "//" +:+ url.escape (url.Host u) url.encodeHost
    +:+ "/check?" +:+ q +:+ urlFragment u.
Proof.
  intros Ho Hu Hh Hr Hq. rewrite String_parts.
  unfold urlHead, urlQuery, urlFragment, url.EscapedPath, url.EscapedFragment.
  simpl. rewrite Ho, Hu, Hh, Hr, Hq. simpl.
  rewrite !orb_true_r, !andb_false_r. simpl.
  destruct (nonempty (url.Scheme u)); simpl;
    rewrite ?nonempty_append_cons; simpl; rewrite ?append_assoc; simpl;
    reflexivity.
Qed.

(** C8, as the specification states it, fails on a base address that
    parses to an opaque URL: for [localhost:8080] (scheme [localhost],
    opaque part [8080]) the one request [Check] sends has no path /check,
    and its URL is not the base address followed by /check and the
    query. *)
Lemma C8_counterexample :
  let f := example.clientOpaque in
  let m := Check example.checkWorld f context.Background
             forensiq_test.emptyRequest in
  (exists u, url.Parse (Host f) = Ok u)
  /\ map (fun req => url.String_ (http.URL req)) (requests m)
     = ["localhost:8080?ck=123abc&cmp=&id=&ip=%3Cnil%3E&output=JSON&rt=&seller=&sub=&ua=&url="]
  /\ ~ (exists req,
          requests m = [req]
          /\ url.Path (http.URL req) = "/check"
          /\ url.String_ (http.URL req)
             = Host f +:+ "/check?" +:+ checkQuery f forensiq_test.emptyRequest).
Proof.
  intros f m. split; [eexists; vm_compute; reflexivity|].
  split; [vm_compute; reflexivity|].
  intros (req & Hreq & Hpath & _).
  assert (Hsent : map (fun r => url.Path (http.URL r)) (requests m) = [EmptyString])
    by (vm_compute; reflexivity).
  rewrite Hreq in Hsent. simpl in Hsent. rewrite Hpath in Hsent. discriminate.
Qed.

(** C8, amended.  When the base address parses, [Check] hands the HTTP
    client exactly one request if [http.NewRequest] accepts the text of
    the URL it built; otherwise it hands over none and returns the zero
    response with the error of [http.NewRequest].  The request has the
    method GET and the single header Content-Type: application/json; its
    URL is parsed from the text [String] gives the parsed base address with
    the path set to /check and the query set to the serialised values, and
    its query is that serialised query.  For a base address without opaque
    part and without an escaped path of its own the text ends with /check,
    [?], the query and the fragment of the base address; with a host and
    without userinfo, what precedes is the scheme, [//] and the host.  For
    a base address with an opaque part the text is the scheme, the opaque
    part, [?], the query and the fragment: the path /check is not
    written. *)
Theorem C8_check_request (w : World) (f : Forensiq) (c : context.Context)
    (creq : CheckRequest) (u : url.URL) :
  url.Parse (Host f) = Ok u ->
  let text :=
    url.String_ (url.withRawQuery (url.withPath u "/check") (checkQuery f creq)) in
  match http.NewRequest "GET" text with
  | Ok req0 =>
      exists req,
        requests (Check w f c creq) = [req]
        /\ http.Method req = "GET"
        /\ http.Header_ req = <["Content-Type" := ["application/json"]]> ∅
        /\ http.URL req = http.URL req0
        /\ url.RawQuery (http.URL req) = checkQuery f creq
  | Err e =>
      requests (Check w f c creq) = []
      /\ fst (Check w f c creq) = (CheckResponse_zero, Some (requestError e))
  end
  /\ (url.Opaque u = EmptyString -> url.RawPath u = EmptyString ->
      exists pre,
        text = pre +:+ "/check?" +:+ checkQuery f creq +:+ urlFragment u)
  /\ (url.Opaque u = EmptyString -> url.User u = None ->
      nonempty (url.Host u) = true -> url.RawPath u = EmptyString ->
      text = (if nonempty (url.Scheme u) then url.Scheme u +:+ ":" else EmptyString)
             +:+ "//" +:+ url.escape (url.Host u) url.encodeHost
             +:+ "/check?" +:+ checkQuery f creq +:+ urlFragment u)
  /\ (nonempty (url.Opaque u) = true ->
      text = (if nonempty (url.Scheme u) then url.Scheme u +:+ ":" else EmptyString)
             +:+ url.Opaque u +:+ "?" +:+ checkQuery f creq +:+ urlFragment u).
Proof.
  intros Hparse text. subst text. split.
  - rewrite <- Encode_checkValues. fold (checkURI f creq u).
    destruct (http.NewRequest "GET" (url.String_ (checkURI f creq u)))
      as [req0|e] eqn:Hnew.
    + destruct (Check_exchange w f c creq u req0 Hparse Hnew) as [Hreqs _].
      exists (checkRequest c req0). split; [exact Hreqs|].
      destruct (NewRequest_Method _ _ Hnew) as (Hm & Hh & _).
      split; [exact Hm|]. split; [simpl; now rewrite Hh|].
      split; [reflexivity|].
      rewrite Encode_checkValues. apply (Check_request_query w f c creq).
      rewrite Hreqs. left.
    + pose proof (Check_stop w f c creq) as Hstop.
      rewrite Hparse, Hnew in Hstop. rewrite Hstop. split; reflexivity.
  - split; [|split].
    + intros Ho Hr.
      destruct (String_nonopaque (url.withRawQuery u (checkQuery f creq)) "/check")
        as [pre Hpre]; try reflexivity; [exact Ho | exact Hr |].
      exists pre.
      change (url.withRawQuery (url.withPath u "/check") (checkQuery f creq))
        with (url.withPath (url.withRawQuery u (checkQuery f creq)) "/check").
      rewrite Hpre. unfold urlQuery. simpl url.ForceQuery. simpl url.RawQuery.
      rewrite checkQuery_nonempty, orb_true_r. reflexivity.
    + intros Ho Hu Hh Hr. apply String_hierarchical; auto.
    + intros Ho. rewrite String_parts. unfold urlHead, urlQuery.
      cbn [url.withRawQuery url.withPath url.Scheme url.Opaque url.ForceQuery
           url.RawQuery].
      rewrite Ho, checkQuery_nonempty, orb_true_r.
      destruct (nonempty (url.Scheme u)); rewrite ?append_assoc; reflexivity.
Qed.

(** C8 on the client and the request of the README against the test
    server. *)
Lemma C8_witness :
  let f := example.client in
  let m := Check example.checkWorld f context.Background
             forensiq_test.readmeRequest in
  url.Parse (Host f) = Ok example.baseURL
  /\ exists req,
       requests m = [req]
       /\ http.Method req = "GET"
       /\ http.Header_ req = <["Content-Type" := ["application/json"]]> ∅
       /\ url.RawQuery (http.URL req) = checkQuery f forensiq_test.readmeRequest.
Proof.
  intros f m.
  assert (Hparse : url.Parse (Host f) = Ok example.baseURL)
    by (vm_compute; reflexivity).
  split; [exact Hparse|].
  pose proof (proj1 (C8_check_request example.checkWorld f context.Background
                       forensiq_test.readmeRequest example.baseURL Hparse)) as H.
  hnf in H. destruct H as (req & Hreq & Hm & Hh & _ & Hq). exists req. auto.
Defined.

(** C9, as the specification states it, fails on a base address that
    carries a query: [Ready] keeps it, so the URL of its request has a
    query parameter. *)
Lemma C9_counterexample :
  let f := example.clientQuery in
  let m := Ready (example.readyWorld "1") f context.Background in
  (exists u, url.Parse (Host f) = Ok u)
  /\ map (fun req => url.String_ (http.URL req)) (requests m)
     = ["http://api.forensiq.com/ready?debug=1"]
  /\ ~ (forall req, req ∈ requests m ->
          url.RawQuery (http.URL req) = EmptyString
          /\ url.Query (http.URL req) = ∅).
Proof.
  intros f m. split; [eexists; vm_compute; reflexivity|].
  split; [vm_compute; reflexivity|].
  intros Hclaim.
  assert (Hsent : url.RawQuery (http.URL (firstRequest m)) = "debug=1")
    by (vm_compute; reflexivity).
  destruct (Hclaim (firstRequest m)) as [Hq _].
  - apply firstRequest_elem_of. vm_compute. discriminate.
  - rewrite Hq in Hsent. discriminate.
Qed.

(** C9, amended.  When the base address parses, [Ready] hands the HTTP
    client exactly one request if [http.NewRequest] accepts the text of
    the URL it built, and none otherwise.  The request has the method GET
    and no header; its URL is parsed from the text [String] gives the
    parsed base address with the path set to /ready; [Ready] adds no query
    parameter: the query of the request is the query of the base address,
    empty when the base address has none.  For a base address without
    opaque part and without an escaped path of its own the text ends with
    /ready, the query and the fragment of the base address.  The client
    key plays no part: with any other key [Ready] does the same. *)
Theorem C9_ready_request (w : World) (f : Forensiq) (c : context.Context)
    (u : url.URL) :
  url.Parse (Host f) = Ok u ->
  match http.NewRequest "GET" (url.String_ (url.withPath u "/ready")) with
  | Ok req0 =>
      exists req,
        requests (Ready w f c) = [req]
        /\ http.Method req = "GET"
        /\ http.Header_ req = ∅
        /\ http.URL req = http.URL req0
        /\ url.RawQuery (http.URL req) = url.RawQuery u
        /\ (url.RawQuery u = EmptyString -> url.Query (http.URL req) = ∅)
  | Err _ => requests (Ready w f c) = []
  end
  /\ (url.Opaque u = EmptyString -> url.RawPath u = EmptyString ->
      exists pre,
        url.String_ (url.withPath u "/ready")
        = pre +:+ "/ready" +:+ urlQuery u +:+ urlFragment u)
  /\ (forall key, Ready w (withClientKey f key) c = Ready w f c).
Proof.
  intros Hparse.
  split; [|split; [intros Ho Hr; now apply String_nonopaque | reflexivity]].
  destruct (http.NewRequest "GET" (url.String_ (url.withPath u "/ready")))
    as [req0|e] eqn:Hnew.
  - destruct (Ready_exchange w f c u req0 Hparse Hnew) as [Hreqs _].
    exists (http.WithContext req0 c). split; [exact Hreqs|].
    destruct (NewRequest_Method _ _ Hnew) as (Hm & Hh & _).
    split; [exact Hm|]. split; [exact Hh|]. split; [reflexivity|].
    assert (Hq : url.RawQuery (http.URL (http.WithContext req0 c)) = url.RawQuery u).
    { change (http.URL (http.WithContext req0 c)) with (http.URL req0).
      rewrite (NewRequest_keeps_query (url.withPath u "/ready") req0);
        [reflexivity | apply wfURL_withPath, (Parse_wf _ _ Hparse) | exact Hnew]. }
    split; [exact Hq|]. intros Hempty. unfold url.Query. rewrite Hq, Hempty.
    reflexivity.
  - apply Ready_no_exchange. intros u' req0 Hp Hnew'.
    rewrite Hparse in Hp. injection Hp as <-. rewrite Hnew in Hnew'. discriminate.
Qed.

(** C9 on the client of [TestReady]. *)
Lemma C9_witness :
  let f := example.client in
  let m := Ready (example.readyWorld "1") f context.Background in
  url.Parse (Host f) = Ok example.baseURL
  /\ exists req,
       requests m = [req]
       /\ http.Method req = "GET"
       /\ http.Header_ req = ∅
       /\ url.Query (http.URL req) = ∅.
Proof.
  intros f m.
  assert (Hparse : url.Parse (Host f) = Ok example.baseURL)
    by (vm_compute; reflexivity).
  split; [exact Hparse|].
  pose proof (proj1 (C9_ready_request (example.readyWorld "1") f
                       context.Background example.baseURL Hparse)) as H.
  hnf in H. destruct H as (req & Hreq & Hm & Hh & _ & _ & Hq). exists req.
  repeat split; try assumption. now apply Hq.
Defined.

End request_claims.

(** * Further properties *)

(** ** What a call returns and what it leaves behind *)

Section outcomes.

(** Unfolds a call along the way it takes: no base address, no request, or
    an exchange. *)
Ltac run_Check w f c creq :=
  let u := fresh "u" in let e := fresh "e" in let req0 := fresh "req0" in
  let Hparse := fresh "Hparse" in let Hnew := fresh "Hnew" in
  let Hrun := fresh "Hrun" in
  pose proof (Check_stop w f c creq) as Hrun;
  destruct (url.Parse (Host f)) as [u|e] eqn:Hparse;
  [ destruct (http.NewRequest "GET" (url.String_ (checkURI f creq u)))
      as [req0|e] eqn:Hnew;
    [ clear Hrun; pose proof (Check_run w f c creq u req0 Hparse Hnew) as Hrun;
      cbv zeta in Hrun | ]
  | ].

Ltac run_Ready w f c :=
  let u := fresh "u" in let e := fresh "e" in let req0 := fresh "req0" in
  let Hparse := fresh "Hparse" in let Hnew := fresh "Hnew" in
  let Hrun := fresh "Hrun" in
  pose proof (Ready_stop w f c) as Hrun;
  destruct (url.Parse (Host f)) as [u|e] eqn:Hparse;
  [ destruct (http.NewRequest "GET" (url.String_ (url.withPath u "/ready")))
      as [req0|e] eqn:Hnew;
    [ clear Hrun; pose proof (Ready_run w f c u req0 Hparse Hnew) as Hrun;
      cbv zeta in Hrun | ]
  | ].

(** Takes apart the disjunctions and witnesses of a hypothesis. *)
Ltac crack :=
  repeat match goal with
         | H : _ \/ _ |- _ => destruct H
         | H : ex _ |- _ => destruct H
         | H : _ /\ _ |- _ => destruct H
         end.

(** Finds the case of a disjunction that holds. *)
Ltac pick :=
  first [ solve [repeat eexists; eauto]
        | left; solve [repeat eexists; eauto]
        | right; pick ].

(** X1 (a single exchange).  Whatever the base address, the request, the
    context and the answers of the HTTP client, a call to [Check] and a
    call to [Ready] hand the client at most one request each: a failed
    exchange is not tried again, and every response received answers a
    request of the call. *)
Theorem X1_single_request (w : World) (f : Forensiq) (c : context.Context)
    (creq : CheckRequest) :
  (length (responses w f (Check w f c creq))
   <= length (requests (Check w f c creq)) <= 1)%nat
  /\ (length (responses w f (Ready w f c))
      <= length (requests (Ready w f c)) <= 1)%nat.
Proof.
  split.
  - run_Check w f c creq; rewrite Hrun; [|simpl; lia..].
    destruct (http.Do _ _) as [resp|err] eqn:Hdo;
      [destruct (_ =? _)%Z|]; unfold responses, requests; simpl;
      rewrite Hdo; simpl; lia.
  - run_Ready w f c; rewrite Hrun; [|simpl; lia..].
    destruct (http.Do _ _) as [resp|err] eqn:Hdo;
      unfold responses, requests; simpl; rewrite Hdo; simpl; lia.
Qed.

(** X2 (where the errors of [Check] come from).  [Check] returns the error
    [err] exactly in one of five cases: the base address does not parse
    and [err] is the error of [url.Parse]; [http.NewRequest] rejects the
    URL built and [err] is its error; the exchange failed and [err] is the
    error of the context when the context is done, that of the HTTP client
    otherwise; the response has status 403 and [err] is
    [ErrInvalidClientKey]; the response has another status, the decoder
    failed and [err] is its error.  Each error is passed on as it is. *)
Theorem X2_Check_error_origin (w : World) (f : Forensiq) (c : context.Context)
    (creq : CheckRequest) (err : error) :
  snd (fst (Check w f c creq)) = Some err
  <-> (exists e, url.Parse (Host f) = Err e /\ err = urlError e)
      \/ (exists u e,
            url.Parse (Host f) = Ok u
            /\ http.NewRequest "GET" (url.String_ (checkURI f creq u)) = Err e
            /\ err = requestError e)
      \/ (exists req e,
            requests (Check w f c creq) = [req]
            /\ http.Do (clientOf w f) req = Err e
            /\ err = exchangeError c e)
      \/ (exists req resp,
            requests (Check w f c creq) = [req]
            /\ http.Do (clientOf w f) req = Ok resp
            /\ http.StatusCode resp = http.StatusForbidden
            /\ err = ErrInvalidClientKey)
      \/ (exists req resp into e,
            requests (Check w f c creq) = [req]
            /\ http.Do (clientOf w f) req = Ok resp
            /\ http.StatusCode resp <> http.StatusForbidden
            /\ Decode w (http.Body resp) CheckResponse_zero = (into, Some e)
            /\ err = jsonError e).
Proof.
  run_Check w f c creq; rewrite Hrun;
    [destruct (http.Do (clientOf w f) (checkRequest c req0)) as [resp|e] eqn:Hdo;
     [destruct (http.StatusCode resp =? http.StatusForbidden)%Z eqn:Hs;
      [apply Z.eqb_eq in Hs
      |apply Z.eqb_neq in Hs;
       destruct (Decode w (http.Body resp) CheckResponse_zero) as [cresp [e|]] eqn:Hdec]
     |]
    |..]; unfold requests; simpl; split;
    try (intros H; crack; simplify_eq; congruence).
  all: intros [= <-]; pick.
Qed.

(** X3 (when [Check] succeeds).  [Check] returns the response [cresp]
    without error exactly when the client answered its request, the status
    of the answer is not 403, and the decoder, handed the body and the zero
    response, filled in [cresp] without error.  No other status is looked
    at: an answer with status 500 and a body the decoder accepts is a
    success. *)
Theorem X3_Check_success_iff (w : World) (f : Forensiq) (c : context.Context)
    (creq : CheckRequest) (cresp : CheckResponse) :
  fst (Check w f c creq) = (cresp, None)
  <-> exists req resp,
        requests (Check w f c creq) = [req]
        /\ http.Do (clientOf w f) req = Ok resp
        /\ http.StatusCode resp <> http.StatusForbidden
        /\ Decode w (http.Body resp) CheckResponse_zero = (cresp, None).
Proof.
  run_Check w f c creq; rewrite Hrun;
    [destruct (http.Do (clientOf w f) (checkRequest c req0)) as [resp|e] eqn:Hdo;
     [destruct (http.StatusCode resp =? http.StatusForbidden)%Z eqn:Hs;
      [apply Z.eqb_eq in Hs
      |apply Z.eqb_neq in Hs;
       destruct (Decode w (http.Body resp) CheckResponse_zero) as [cresp' [e|]] eqn:Hdec]
     |]
    |..]; unfold requests; simpl; split;
    try (intros H; crack; simplify_eq; congruence).
  intros [= <-]. pick.
Qed.

(** X4 (where the errors of [Ready] come from).  [Ready] returns the error
    [err] exactly in one of four cases: the base address does not parse;
    [http.NewRequest] rejects the URL built; the exchange failed ([err] is
    the error of the context when the context is done, that of the HTTP
    client otherwise); or reading the body of the response failed, and
    [err] is the error of the reader, whatever was read before it. *)
Theorem X4_Ready_error_origin (w : World) (f : Forensiq) (c : context.Context)
    (err : error) :
  snd (fst (Ready w f c)) = Some err
  <-> (exists e, url.Parse (Host f) = Err e /\ err = urlError e)
      \/ (exists u e,
            url.Parse (Host f) = Ok u
            /\ http.NewRequest "GET" (url.String_ (url.withPath u "/ready")) = Err e
            /\ err = requestError e)
      \/ (exists req e,
            requests (Ready w f c) = [req]
            /\ http.Do (clientOf w f) req = Err e
            /\ err = exchangeError c e)
      \/ (exists req resp e,
            requests (Ready w f c) = [req]
            /\ http.Do (clientOf w f) req = Ok resp
            /\ http.readErr (http.Body resp) = Some e
            /\ err = ioError e).
Proof.
  run_Ready w f c; rewrite Hrun;
    [destruct (http.Do (clientOf w f) (http.WithContext req0 c)) as [resp|e] eqn:Hdo;
     [unfold ReadAll; destruct (http.readErr (http.Body resp)) as [e|] eqn:Hread|]
    |..]; unfold requests; simpl; split;
    try (intros H; crack; simplify_eq; congruence).
  all: intros [= <-]; pick.
Qed.

(** X5 (one sample for each response).  [Check] and [Ready] send the
    metrics client one sample for each response received and none
    otherwise: none when the base address does not parse, when no request
    is built, when the exchange fails; one when the response has status
    403, when the decoder fails and when the body cannot be read.  The
    sample is named forensiq.request_time and tagged with the endpoint,
    with the status [responseStatus] gives the context and the status
    code, and with the status code in decimal. *)
Theorem X5_timing_per_response (w : World) (f : Forensiq) (c : context.Context)
    (creq : CheckRequest) :
  timings (Check w f c creq)
  = map (sample w c "check") (responses w f (Check w f c creq))
  /\ timings (Ready w f c)
     = map (sample w c "ready") (responses w f (Ready w f c)).
Proof.
  split.
  - run_Check w f c creq; rewrite Hrun; [|reflexivity..].
    destruct (http.Do (clientOf w f) (checkRequest c req0)) as [resp|e] eqn:Hdo;
      [destruct (http.StatusCode resp =? http.StatusForbidden)%Z|];
      unfold timings, responses, requests; simpl; rewrite Hdo; reflexivity.
  - run_Ready w f c; rewrite Hrun; [|reflexivity..].
    destruct (http.Do (clientOf w f) (http.WithContext req0 c)) as [resp|e] eqn:Hdo;
      unfold timings, responses, requests; simpl; rewrite Hdo; reflexivity.
Qed.

(** X6 (the body is released).  [Check] and [Ready] close the body of a
    response once for each response received, on the failing paths as on
    the successful one, and never without a response; when a response was
    received, closing its body is the last thing the call does. *)
Theorem X6_body_closed_per_response (w : World) (f : Forensiq)
    (c : context.Context) (creq : CheckRequest) :
  (closes (Check w f c creq) = length (responses w f (Check w f c creq))
   /\ (responses w f (Check w f c creq) = []
       \/ last (snd (Check w f c creq)) = Some BodyClose))
  /\ (closes (Ready w f c) = length (responses w f (Ready w f c))
      /\ (responses w f (Ready w f c) = []
          \/ last (snd (Ready w f c)) = Some BodyClose)).
Proof.
  split.
  - run_Check w f c creq; rewrite Hrun; [|split; [reflexivity | now left]..].
    destruct (http.Do (clientOf w f) (checkRequest c req0)) as [resp|e] eqn:Hdo;
      [destruct (http.StatusCode resp =? http.StatusForbidden)%Z|];
      unfold closes, responses, requests; simpl; rewrite Hdo;
      (split; [reflexivity | first [now right | now left]]).
  - run_Ready w f c; rewrite Hrun; [|split; [reflexivity | now left]..].
    destruct (http.Do (clientOf w f) (http.WithContext req0 c)) as [resp|e] eqn:Hdo;
      unfold closes, responses, requests; simpl; rewrite Hdo;
      (split; [reflexivity | first [now right | now left]]).
Qed.

(** X7 (what is logged).  [Check] logs in two cases only: one message
    with the error and the base address when the base address does not
    parse, one message with the client key when the response has status
    403.  A URL that [http.NewRequest] rejects, a failed exchange and a
    failing decoder are not logged, and [Ready] logs nothing. *)
Theorem X7_log_messages (w : World) (f : Forensiq) (c : context.Context)
    (creq : CheckRequest) :
  logged (Check w f c creq)
  = match url.Parse (Host f) with
    | Err e =>
        [("error parsing the URL: %s%v",
          [argError (urlError e); argField "host" (Host f)])]
    | Ok _ =>
        flat_map (fun resp =>
                    if (http.StatusCode resp =? http.StatusForbidden)%Z
                    then [("client key is invalid%v",
                           [argField "client_key" (ClientKey f)])]
                    else [])
                 (responses w f (Check w f c creq))
    end
  /\ logged (Ready w f c) = [].
Proof.
  split.
  - run_Check w f c creq; rewrite Hrun; [|reflexivity..].
    destruct (http.Do (clientOf w f) (checkRequest c req0)) as [resp|e] eqn:Hdo;
      [destruct (http.StatusCode resp =? http.StatusForbidden)%Z eqn:Hs|];
      unfold logged, responses, requests; simpl; rewrite Hdo; simpl;
      rewrite ?Hs; reflexivity.
  - run_Ready w f c; rewrite Hrun; [|reflexivity..].
    destruct (http.Do (clientOf w f) (http.WithContext req0 c)) as [resp|e];
      reflexivity.
Qed.

(** X8 (the status tag).  The state of the context comes before the
    status code: the tag is timeout exactly when the context reports
    [DeadlineExceeded] and canceled exactly when it reports another error,
    whatever the status code; with a live context it is ok exactly for the
    codes from 200 to 399 and error for every other code. *)
Theorem X8_responseStatus_cases (c : context.Context) (statusCode : Z) :
  (responseStatus c statusCode = "timeout"
   <-> context.Err_ c = Some context.DeadlineExceeded)
  /\ (responseStatus c statusCode = "canceled"
      <-> exists e, context.Err_ c = Some e /\ e <> context.DeadlineExceeded)
  /\ (responseStatus c statusCode = "ok"
      <-> context.Err_ c = None /\ (200 <= statusCode < 400)%Z)
  /\ (responseStatus c statusCode = "error"
      <-> context.Err_ c = None /\ (statusCode < 200 \/ 400 <= statusCode)%Z).
Proof.
  unfold responseStatus. destruct (context.Err_ c) as [e|].
  - case_bool_decide as He; repeat split; try discriminate;
      try (intros H; crack; simplify_eq; congruence).
    intros _. eauto.
  - destruct (200 <=? statusCode)%Z eqn:H1; destruct (statusCode <? 400)%Z eqn:H2;
      simpl; repeat split; try discriminate; try lia;
      try (intros H; crack; simplify_eq; lia).
Qed.

End outcomes.

(** ** The configuration of the client and the parameters of the query *)

Section configuration.

(** X9 (the request does not depend on the HTTP client).  The requests
    [Check] and [Ready] hand over are the same whatever HTTP client is
    set, whatever the default client, the decoder and the clock are: they
    depend on the base address, the key, the request and the context
    alone.  Each of them carries the context of the call. *)
Theorem X9_request_independent_of_client (w w' : World) (f : Forensiq)
    (hc : option http.Client) (c : context.Context) (creq : CheckRequest) :
  requests (Check w' (SetHTTPClient f hc) c creq) = requests (Check w f c creq)
  /\ requests (Ready w' (SetHTTPClient f hc) c) = requests (Ready w f c)
  /\ Forall (fun req => http.ctx req = c)
       (requests (Check w f c creq) ++ requests (Ready w f c)).
Proof.
  split; [apply (requests_any_client w w' f hc c creq)|].
  split; [apply (requests_any_client w w' f hc c creq)|].
  apply Forall_app. split.
  - destruct (Check_cases w f c creq) as [(u & req0 & Hparse & Hnew)|(-> & _)];
      [|constructor].
    destruct (Check_exchange w f c creq u req0 Hparse Hnew) as [-> _].
    repeat constructor.
  - destruct (Ready_cases w f c) as [(u & req0 & Hparse & Hnew)|(-> & _)];
      [|constructor].
    destruct (Ready_exchange w f c u req0 Hparse Hnew) as [-> _].
    repeat constructor.
Qed.



(** X11 ([SetHTTPClient]).  [SetHTTPClient] changes neither the base
    address nor the key.  Once a client [hc] is set, [Check] and [Ready]
    no longer consult the default client: they do the same whatever the
    default client is, namely what they would do without a client set if
    [hc] were the default one, and the responses they receive are those
    [hc] gives to the request built. *)
Theorem X11_SetHTTPClient_overrides (w : World) (f : Forensiq)
    (hc d : http.Client) (c : context.Context) (creq : CheckRequest) :
  let f' := SetHTTPClient f (Some hc) in
  Host f' = Host f /\ ClientKey f' = ClientKey f
  /\ Check (withDefaultClient w d) f' c creq = Check w f' c creq
  /\ Ready (withDefaultClient w d) f' c = Ready w f' c
  /\ Check w f' c creq = Check (withDefaultClient w hc) (SetHTTPClient f None) c creq
  /\ Ready w f' c = Ready (withDefaultClient w hc) (SetHTTPClient f None) c
  /\ responses w f' (Check w f' c creq)
     = omap (fun req => match http.Do hc req with
                        | Ok resp => Some resp
                        | Err _ => None
                        end) (requests (Check w f c creq)).
Proof.
  intros f'. subst f'. repeat split. unfold responses.
  now destruct (requests_any_client w w f (Some hc) c creq) as [-> _].
Qed.

(** X12 (the parameters of the query, and no other).  The query of a
    request of [Check], read back by the receiving side, is the map of the
    values set: it has the ten keys ck, cmp, id, ip, output, rt, seller,
    sub, ua and url and no other, and one value for each.  No content of a
    field of the request or of the key adds, removes or repeats a
    parameter. *)
Theorem X12_Check_query_exact (w : World) (f : Forensiq) (c : context.Context)
    (creq : CheckRequest) :
  Forall (fun req =>
            url.Query (http.URL req) = checkValues f creq
            /\ dom (url.Query (http.URL req))
               = list_to_set (C := gset string) checkKeys
            /\ map_Forall (fun _ xs => length xs = 1%nat)
                 (url.Query (http.URL req)))
         (requests (Check w f c creq)).
Proof.
  apply Forall_forall. intros req Hreq.
  destruct (Check_request_query w f c creq req Hreq) as [_ Hq].
  assert (Hv : url.Query (http.URL req) = checkValues f creq)
    by (unfold url.Query; now rewrite Hq).
  rewrite Hv. split; [reflexivity|].
  unfold checkValues, toValues, url.Set_. split.
  - rewrite !dom_insert_L, dom_empty_L. unfold checkKeys. simpl. set_solver.
  - repeat (apply map_Forall_insert_2; [reflexivity|]). apply map_Forall_empty.
Qed.

(** X13 (the key and the marker do not collide with a field).  [toValues]
    sets the eight keys ip, rt, url, seller, sub, cmp, ua and id, one value
    each, and neither ck nor output; the values [Check] serialises are
    those of [toValues] with ck and output added, so that taking these two
    away gives [toValues] back: no field of the request is overwritten by
    what the client injects. *)
Theorem X13_toValues_keys (f : Forensiq) (creq : CheckRequest) :
  dom (toValues creq)
  = list_to_set (C := gset string)
      ["ip"; "rt"; "url"; "seller"; "sub"; "cmp"; "ua"; "id"]
  /\ map_Forall (fun _ xs => length xs = 1%nat) (toValues creq)
  /\ delete "ck" (delete "output" (checkValues f creq)) = toValues creq.
Proof.
  assert (Hdom : dom (toValues creq)
                 = list_to_set (C := gset string)
                     ["ip"; "rt"; "url"; "seller"; "sub"; "cmp"; "ua"; "id"]).
  { unfold toValues, url.Set_. rewrite !dom_insert_L, dom_empty_L.
    simpl. set_solver. }
  split; [exact Hdom|]. split.
  - unfold toValues, url.Set_.
    repeat (apply map_Forall_insert_2; [reflexivity|]). apply map_Forall_empty.
  - unfold checkValues, url.Set_. apply map_eq. intros k.
    rewrite !lookup_delete, !lookup_insert.
    repeat case_decide; subst; try reflexivity; try congruence;
      symmetry; apply not_elem_of_dom; rewrite Hdom; simpl; set_solver.
Qed.

End configuration.

(** ** The stub servers of forensiq_test.go, for every key and body *)

Section stub_servers.
Import gostrings forensiq_test.

Ltac each_byte c :=
  destruct c as [[] [] [] [] [] [] [] []]; vm_compute; reflexivity.

(** No control byte is left by the escaping of a query component. *)
Lemma escapeByte_query_noCTL (c : ascii) :
  url.stringContainsCTLByte (url.escapeByte c url.encodeQueryComponent) = false.
Proof. each_byte c. Qed.

Lemma noCTL_append (s t : string) :
  url.stringContainsCTLByte (s +:+ t)
  = url.stringContainsCTLByte s || url.stringContainsCTLByte t.
Proof.
  unfold url.stringContainsCTLByte. rewrite allBytes_append.
  now destruct (allBytes _ s), (allBytes _ t).
Qed.

Lemma QueryEscape_noCTL (s : string) :
  url.stringContainsCTLByte (url.QueryEscape s) = false.
Proof.
  unfold url.QueryEscape. induction s as [|c s IH]; [reflexivity|].
  cbn [url.escape]. now rewrite noCTL_append, escapeByte_query_noCTL, IH.
Qed.

Lemma checkQuery_noCTL (f : Forensiq) (creq : CheckRequest) :
  url.stringContainsCTLByte (checkQuery f creq) = false.
Proof.
  unfold checkQuery.
  repeat (rewrite noCTL_append; apply orb_false_iff; split;
          [first [apply QueryEscape_noCTL | reflexivity]|]).
  apply QueryEscape_noCTL.
Qed.

(** The text of a request to /check of the test server parses to the
    address of the server, the path and the query. *)
Lemma Parse_check_text (q : string) :
  nonempty q = true -> avoids "?#" q = true ->
  url.stringContainsCTLByte q = false ->
  url.Parse ("http://127.0.0.1:49152/check?" +:+ q)
  = Ok (url.withRawQuery (url.withPath example.baseURL "/check") q).
Proof.
  intros Hn Hq Hctl.
  rewrite avoids_query_hash in Hq. apply andb_true_iff in Hq as [_ Hhash].
  set (text := "http://127.0.0.1:49152/check?" +:+ q).
  unfold url.Parse.
  assert (Hcut : Cut text "#" = (text, EmptyString, false)).
  { apply Cut_byte_none. unfold text. now rewrite avoids_append, Hhash. }
  rewrite Hcut.
  assert (Hparse : url.parse text false
                   = Ok (url.withRawQuery (url.withPath example.baseURL "/check") q)).
  { unfold url.parse.
    assert (H1 : url.stringContainsCTLByte text = false).
    { unfold text. now rewrite noCTL_append, Hctl. }
    assert (H2 : String.eqb text "*" = false) by reflexivity.
    assert (H3 : url.getScheme text
                 = Ok ("http", "//127.0.0.1:49152/check" +:+ String "?" q))
      by reflexivity.
    rewrite H1, H2, H3. cbv beta iota.
    set (h := "//127.0.0.1:49152/check").
    assert (Hh : avoids "?" h = true) by reflexivity.
    assert (H4 : HasSuffix (h +:+ String "?" q) "?"
                 && Nat.eqb (CountByte (h +:+ String "?" q) "?") 1 = false).
    { destruct (_ && _) eqn:E; [exfalso|reflexivity].
      pose proof (forceQuery_split h q false) as H. cbv zeta in H.
      rewrite orb_false_l, Hn in H. specialize (H Hh E). subst q. discriminate. }
    rewrite H4, (Cut_byte "?" h q Hh).
    generalize q. intros q'. vm_compute. reflexivity. }
  rewrite Hparse. reflexivity.
Qed.

(** The request [Check] builds for the test server. *)
Lemma testserver_check_request (f : Forensiq) (creq : CheckRequest) :
  Host f = tsURL ->
  url.Parse (Host f) = Ok example.baseURL
  /\ exists req0,
       http.NewRequest "GET" (url.String_ (checkURI f creq example.baseURL)) = Ok req0
       /\ url.Path (http.URL req0) = "/check"
       /\ url.RawQuery (http.URL req0) = checkQuery f creq.
Proof.
  intros ->. split; [vm_compute; reflexivity|].
  assert (Htext : url.String_ (checkURI f creq example.baseURL)
                  = "http://127.0.0.1:49152/check?" +:+ checkQuery f creq).
  { unfold checkURI. rewrite Encode_checkValues.
    rewrite String_hierarchical by reflexivity.
    change (urlFragment example.baseURL) with EmptyString.
    rewrite append_nil_r. reflexivity. }
  unfold http.NewRequest. rewrite Htext.
  rewrite (Parse_check_text _ (checkQuery_nonempty f creq) (checkQuery_avoids f creq)
             (checkQuery_noCTL f creq)).
  eexists. split; [reflexivity|]. split; reflexivity.
Qed.

(** What the handler of [TestCheck] answers to a request of [Check]. *)
Lemma checkHandler_answer (f : Forensiq) (creq : CheckRequest)
    (req : http.Request) :
  url.RawQuery (http.URL req) = checkQuery f creq ->
  checkHandler req
  = if nonempty (ClientKey f) then respond 200 checkBody
    else http_Error "Forbidden" http.StatusForbidden.
Proof.
  intros Hq. unfold checkHandler, url.Query. rewrite Hq, ParseQuery_checkQuery.
  cbn [fst]. unfold url.Get.
  destruct (checkValues_lookup f creq) as (_ & _ & _ & _ & _ & _ & _ & _ & -> & ->).
  destruct (nonempty (ClientKey f)); reflexivity.
Qed.

(** X14 ([TestCheck], for every key, request and context).  Against the
    stub server of [TestCheck], [Check] hands over one request.  When the
    context is done the exchange fails: there is no response and [Check]
    returns the error of the context, whatever the key.  When the context
    is live [Check] gets one response: 403 Forbidden when the client key
    is empty, and otherwise 200 with the JSON body of the test; the answer
    400 of the handler (output=JSON is required) and the 404 of the mux
    are never met.  So with a live context [Check] fails with
    [ErrInvalidClientKey] exactly when the key is empty, and otherwise
    returns what the decoder makes of that body. *)
Theorem X14_TestCheck_any_key (w : World) (f : Forensiq) (c : context.Context)
    (creq : CheckRequest) :
  Host f = tsURL ->
  clientOf w f = NewServer "/check" checkHandler ->
  length (requests (Check w f c creq)) = 1%nat
  /\ match context.Err_ c with
     | Some e =>
         responses w f (Check w f c creq) = []
         /\ fst (Check w f c creq) = (CheckResponse_zero, Some (contextError e))
     | None =>
         responses w f (Check w f c creq)
         = [if nonempty (ClientKey f) then respond 200 checkBody
            else http_Error "Forbidden" http.StatusForbidden]
         /\ fst (Check w f c creq)
            = (if nonempty (ClientKey f)
               then match Decode w (http.Body (respond 200 checkBody))
                            CheckResponse_zero with
                    | (_, Some err) => (CheckResponse_zero, Some (jsonError err))
                    | (cresp, None) => (cresp, None)
                    end
               else (CheckResponse_zero, Some ErrInvalidClientKey))
         /\ (snd (fst (Check w f c creq)) = Some ErrInvalidClientKey
             <-> ClientKey f = EmptyString)
     end.
Proof.
  intros Hhost Hclient.
  destruct (testserver_check_request f creq Hhost)
    as (Hparse & req0 & Hnew & Hpath & Hq).
  pose proof (Check_run w f c creq _ _ Hparse Hnew) as Hrun. cbv zeta in Hrun.
  assert (Hdo : http.Do (clientOf w f) (checkRequest c req0)
                = match context.Err_ c with
                  | Some context.Canceled =>
                      Err (http.transportError "context canceled")
                  | Some context.DeadlineExceeded =>
                      Err (http.transportError "context deadline exceeded")
                  | None =>
                      Ok (if nonempty (ClientKey f) then respond 200 checkBody
                          else http_Error "Forbidden" http.StatusForbidden)
                  end).
  { rewrite Hclient. unfold NewServer. cbn [http.Do].
    change (http.ctx (checkRequest c req0)) with c.
    change (http.URL (checkRequest c req0)) with (http.URL req0).
    rewrite Hpath. cbn [String.eqb Ascii.eqb Bool.eqb andb].
    rewrite (checkHandler_answer f creq (checkRequest c req0) Hq). reflexivity. }
  rewrite Hrun. unfold responses, requests, exchangeError. rewrite Hdo.
  destruct (context.Err_ c) as [[|]|] eqn:Hc.
  - cbn [snd omap list_omap]. rewrite ?Hdo, ?Hc. repeat split.
  - cbn [snd omap list_omap]. rewrite ?Hdo, ?Hc. repeat split.
  - destruct (ClientKey f) as [|k key] eqn:Hkey; cbn [nonempty] in Hdo |- *.
    + change (http.StatusCode (http_Error "Forbidden" http.StatusForbidden)
              =? http.StatusForbidden)%Z with true. cbn iota.
      cbn [snd omap list_omap]. rewrite ?Hdo, ?Hc. repeat split.
    + change (http.StatusCode (respond 200 checkBody) =? http.StatusForbidden)%Z
        with false. cbn iota.
      cbn [snd omap list_omap]. rewrite ?Hdo, ?Hc.
      split; [reflexivity|]. split; [reflexivity|]. split; [reflexivity|].
      destruct (Decode w _ _) as [cresp [e|]]; split; discriminate.
Qed.

(** X14 on the second call of [TestCheck] (the key is set, the server
    answers 200 with its body) and on the same call with a canceled
    context (no response, the error of the context). *)
Lemma X14_witness :
  Host example.client = tsURL
  /\ clientOf example.checkWorld example.client = NewServer "/check" checkHandler
  /\ responses example.checkWorld example.client
       (Check example.checkWorld example.client context.Background emptyRequest)
     = [respond 200 checkBody]
  /\ fst (Check example.checkWorld example.client
            {| context.Err_ := Some context.Canceled |} emptyRequest)
     = (CheckResponse_zero, Some (contextError context.Canceled)).
Proof.
  split; [reflexivity|]. split; [reflexivity|]. split.
  - exact (proj1 (proj2 (X14_TestCheck_any_key example.checkWorld example.client
                           context.Background emptyRequest eq_refl eq_refl))).
  - exact (proj2 (proj2 (X14_TestCheck_any_key example.checkWorld example.client
                           {| context.Err_ := Some context.Canceled |}
                           emptyRequest eq_refl eq_refl))).
Defined.

(** X15 ([TestReady], for every body and context).  Against the stub
    server of [TestReady] writing the body [b], [Ready] hands over one
    request.  When the context is done the exchange fails: there is no
    response and [Ready] returns false with the error of the context.
    When the context is live [Ready] gets the response 200 with the body
    [b] and returns, without error, whether [b] is the one byte [1]. *)
Theorem X15_TestReady_any_body (w : World) (f : Forensiq) (c : context.Context)
    (b : string) :
  Host f = tsURL ->
  clientOf w f = NewServer "/ready" (readyHandler b) ->
  length (requests (Ready w f c)) = 1%nat
  /\ match context.Err_ c with
     | Some e =>
         responses w f (Ready w f c) = []
         /\ fst (Ready w f c) = (false, Some (contextError e))
     | None =>
         responses w f (Ready w f c) = [respond 200 b]
         /\ fst (Ready w f c) = (String.eqb b "1", None)
     end.
Proof.
  intros Hhost Hclient.
  assert (Hparse : url.Parse (Host f) = Ok example.baseURL)
    by (rewrite Hhost; vm_compute; reflexivity).
  destruct (http.NewRequest "GET" (url.String_ (url.withPath example.baseURL "/ready")))
    as [req0|e] eqn:Hnew; [|vm_compute in Hnew; discriminate].
  assert (Hpath : url.Path (http.URL req0) = "/ready")
    by (vm_compute in Hnew; injection Hnew as <-; reflexivity).
  pose proof (Ready_run w f c _ _ Hparse Hnew) as Hrun. cbv zeta in Hrun.
  assert (Hdo : http.Do (clientOf w f) (http.WithContext req0 c)
                = match context.Err_ c with
                  | Some context.Canceled =>
                      Err (http.transportError "context canceled")
                  | Some context.DeadlineExceeded =>
                      Err (http.transportError "context deadline exceeded")
                  | None => Ok (respond 200 b)
                  end).
  { rewrite Hclient. unfold NewServer. cbn [http.Do].
    change (http.ctx (http.WithContext req0 c)) with c.
    change (http.URL (http.WithContext req0 c)) with (http.URL req0).
    rewrite Hpath. reflexivity. }
  rewrite Hrun. unfold responses, requests, exchangeError. rewrite Hdo.
  destruct (context.Err_ c) as [[|]|] eqn:Hc;
    cbn [snd omap list_omap]; rewrite ?Hdo, ?Hc; repeat split.
Qed.

(** X15 on a body that is neither [1] nor [0] ([Ready] is false, without
    error) and on a context whose deadline has passed. *)
Lemma X15_witness :
  Host example.client = tsURL
  /\ clientOf (example.readyWorld "10") example.client
     = NewServer "/ready" (readyHandler "10")
  /\ fst (Ready (example.readyWorld "10") example.client context.Background)
     = (false, None)
  /\ fst (Ready (example.readyWorld "10") example.client
            {| context.Err_ := Some context.DeadlineExceeded |})
     = (false, Some (contextError context.DeadlineExceeded)).
Proof.
  split; [reflexivity|]. split; [reflexivity|]. split.
  - exact (proj2 (proj2 (X15_TestReady_any_body (example.readyWorld "10")
                           example.client context.Background "10"
                           eq_refl eq_refl))).
  - exact (proj2 (proj2 (X15_TestReady_any_body (example.readyWorld "10")
                           example.client
                           {| context.Err_ := Some context.DeadlineExceeded |}
                           "10" eq_refl eq_refl))).
Defined.

End stub_servers.
